(* ===== verification/_CoqProject ===== *)
-Q . S2P
Prelude.v
TextIO.v
Csv.v
CsvRoundtrip.v
PyNum.v
PyFloat.v
Flags.v
PyModule.v
Bve.v
ProcessLogs.v
RunDqn.v
