(* ===== verification/Prelude.v ===== *)
(** * A verification development for eleninisioti/acme_dev

    ** The program

    The repository fragment under [src/] has three parts that never
    interact with each other; each is a module body that runs once when
    the file is executed (its imports, assignments, [def]s and, in the
    DQN script, flag definitions) followed, in the two scripts, by an
    [if __name__ == "__main__":] block:

    - [src/acme/agents/jax/bve/__init__.py]: a docstring and four
      [from <submodule> import <name>] statements that re-export
      [BVEBuilder], [BVEConfig], [BVELoss] and [BVENetworks].
    - [src/scripts/process_logs.py] (the log script): it imports [csv]
      and [matplotlib.pyplot]; its block opens three CSV
      logs [<results_dir>/{actor,evaluator,learner}/logs.csv] with
      [open()] (universal newlines) and [csv.reader] (comma, double
      quote), materialises each reader into a list of rows, prints the
      last learner row, extracts column 1 with [int()] and column 6 with
      [float()] from the evaluator rows after the first, hands both lists
      to [plt.plot] and prints [yo].
    - [src/examples/baselines/rl_discrete/run_dqn_custom.py] (the DQN
      script): four absl flags, parsed from [sys.argv] by [app.run(main)];
      [build_experiment_config] (an environment
      factory, a [defaultdict]-backed logger factory, a [DQNConfig], a
      Q-learning loss, a builder, an [ExperimentConfig]); [main], which
      dispatches on [--run_distributed] to [lp.launch] of a distributed
      program or to [experiments.run_experiment], then tries to plot the
      evaluator logger's data with [pd] and [plt].

    ** Files, modules and what they model

    - [Prelude] (this file): text as [list ascii] (code points below
      256); the exceptions the code raises ([exn]); results [res] with
      [let*] in [py_scope]; the state-and-exception monad [PyM] ([do*])
      for code whose effects survive an exception; Python list subscript
      ([py_getitem], negative indices, [IndexError]), [l[i:]]
      ([py_slice_from], [PySlice_AdjustIndices]) and list comprehensions
      whose element may raise ([py_listcomp]); [raises_only] with the
      tactic [raises_tac] to classify the exceptions of a computation;
      the hint database [pylib].
    - [TextIO], Module [TextIO]: [open()] in text mode without
      [newline=''] ([translate_newlines]: CRLF and CR become LF), the
      file system as a [gmap] from paths to contents ([open_lines] raises
      [FileNotFoundError]), and iteration by [readline] ([iter_lines]).
    - [Csv], Module [Csv]: the reader of CPython's [_csv] module as the
      source writes it: the state [reader] ([ReaderObj]), one
      transition [parse_process_char] per character or end-of-line,
      [parse_add_char] with [csv.field_size_limit()], [Reader_iternext],
      the comprehension [[row for row in reader]] with fuel
      ([reader_rows]) and as a structural loop ([read_csv]); the writer
      that produced the logs ([join_chars], [join_append], [writerow],
      [writerows]); and, in Section [Reader], the shape of a transition
      (keep, append the character read or [\n], close the field), the
      field invariants it gives ([read_loop_inv]), the reader's
      exceptions ([_csv.Error] only) and termination.
    - [CsvRoundtrip]: the round trip [csv.writer] -> file -> [open()] ->
      [csv.reader] for every dialect meeting [dialect_ok], by a token
      machine [tok_loop] over the characters and end-of-line markers and
      one lemma per kind of transition (Section [Roundtrip]).
    - [PyNum], Module [PyInt]: [int(str)] ([PyLong_FromUnicodeObject]:
      the transform of non-ASCII text ([to_ascii], after
      [_PyUnicode_TransformDecimalAndSpaceToASCII]: an ASCII string
      unchanged; otherwise Unicode whitespace becomes a space and the
      first other character at or above 127 becomes [?] and ends the
      buffer), whitespace, sign, single underscores, NUL cut-off, the
      digit limit of [sys.get_int_max_str_digits()]) and [str(int)].
    - [PyFloat], Module [PyFloat]: [float(str)] (the same transform,
      [_Py_string_to_number_with_underscores], [_Py_dg_strtod]'s
      grammar, [_Py_parse_inf_or_nan]); a float is kept as the decimal
      mantissa and exponent of its literal.  A reference reading of a
      decimal literal ([literal], [literal_value]: Horner's rule over all
      digits) states what the C scan computes.
    - [Flags], Module [AbslFlags]: the four [DEFINE_*] calls of the DQN
      script ([run_dqn_flags]), absl's [BooleanParser] and
      [IntegerParser] (with [int(argument, base)] for the [0x]/[0o]/[0b]
      prefixes), and [FlagValues._parse_args] in GNU mode ([parse_args]:
      [--name=value], [--name value], [--noname], [--] ending the flags,
      positional arguments kept, unknown flags collected and reported by
      [parse_flags] only after the whole line).
    - [PyModule], Module [PyModule]: module execution.  The module
      state [mstate] is the module's globals (a [gmap] from names to
      objects) and absl's [FLAGS] registry; a statement ([stmt]:
      docstring, [import], [import ... as], [from ... import] with the
      submodule fallback, assignment or [def], [flags.DEFINE_*]) is one
      step of [PyM] ([exec_stmt]), a body their sequence
      ([exec_body]); the importable modules are a table from dotted
      names to namespaces ([import_module] imports each parent first
      and raises [ModuleNotFoundError] for the first missing one;
      [define_flag] raises [DuplicateFlagError]).  Generic lemmas: a
      failing statement changes nothing, the names a body binds, the
      flags it registers, and when it runs to its end.
    - [Bve], Module [Bve]: the package body ([body], lines 15 to 20) and
      its execution ([init]) over a table of importable modules.
    - [ProcessLogs], Module [ProcessLogs]: the module body (lines 1
      and 2) and the whole file ([script]: the body, then the test of
      [__name__]); the [__main__] block of
      [process_logs.py] as [main : interp -> PyM world unit], one [do*]
      per statement, over a [world] of files and output events
      ([Print], [Plot]); [interp] holds the interpreter's settings.
    - [RunDqn], Module [RunDqn]: the flags ([flag_values]), the records
      the script builds (Modules [helpers], [dqn], [losses],
      [dqn_builder], [experiments]), [build_experiment_config], the
      logger registry as a shared store of logger objects with the step
      relation [registry_step], and [main] against the class [Launchpad]
      (the results of [is_local_run()] and whether [lp.launch] returns),
      producing the trace of the external calls and an [outcome]
      ([Returns] a result, or [Diverges]); [app_run] composes
      [AbslFlags.parse_flags], the [FlagHolder] [.value] reads
      ([flag_values_of]) and [main], with [SystemExit 1] on a flags error
      and [SystemExit 0] when [main] returns; the module body ([body]:
      docstring, the eleven imports, [env_name], the four
      [DEFINE_*] calls, the two [def]s), the globals it binds
      ([script_globals], where [main]'s epilogue looks its names up) and
      the whole file ([script]: the body, then [app.run(main)] over the
      registered flags when [__name__] is [__main__]).

    ** What is proved

    - Log script, end to end ([ProcessLogs]): from logs written by
      [csv.writer] with [str(n)] step cells, [main] prints the last
      learner row, plots exactly the data rows' steps and returns, and
      prints [yo] (a refinement of the script's contract); every
      exception is a missing file, a [_csv.Error], an [IndexError] or a
      [ValueError] of [int()]/[float()], never a plot shape mismatch; the
      first bad step cell decides the exception; empty learner log,
      header-only evaluator log, and a frame property (files unchanged,
      at most three events appended); no field the script reads holds a
      carriage return, whatever the file contains ([load_no_CR]: the
      logs are opened without [newline='']); composed with [float()]: when the
      return cells are decimal literals, the plotted returns are the
      literals' reference values ([main_plots_literals]).
    - CSV: the writer/reader round trip for fields without a carriage
      return; fields within the field limit; termination of the
      reader's iteration; liveness: for a dialect whose quote character
      is enabled and differs from the escape character, from every state
      within the field limit some finite sequence of inputs ends the record
      ([reader_can_finish_record], an inductive [eventually] over
      [parse_process_char]).
    - Numbers: [int(str(n)) = n]; the digit limit; rejection of cells
      without digits; [float()] of every decimal literal with at most
      nine exponent digits equals its reference value
      ([py_float_decimal]).
    - Numbers, again: a text with single underscores between two
      digits (the relation [underscored], the grammar of numeric
      literals) reads as the text without them ([py_float_underscores]),
      any other underscore is a [ValueError] ([py_float_bad_underscore]);
      [inf], [infinity] and [nan] in any case with a sign
      ([py_float_inf_nan]).
    - Package [bve]: with the parent packages importable and each
      submodule defining its name, the body's final namespace is the
      starting one with [__doc__] and the four names bound, in order, to
      the submodules' attributes ([init_reexports]); without [losses] it
      raises [ModuleNotFoundError] at line 19 with exactly [__doc__],
      [BVEBuilder] and [BVEConfig] bound ([init_first_failure]).
    - Whole files: [process_logs.py] run as a script is its [__main__]
      block once [csv] and [plt] are bound; imported under another name
      it prints and plots nothing; without [matplotlib] it stops at
      line 2 before opening a log.  [run_dqn_custom.py]'s body
      registers exactly the four flags, in order, and binds exactly
      [script_globals] (no [pd], [plt] or [logger_dict], whence the
      [NameError] of [main]); run as [__main__] the file is
      [app.run(main)] over that registry, without arguments it runs
      [main] on the defaults, and a command line absl rejects ends it
      with [SystemExit 1] before [main] makes a call.
    - Flags: after an unknown flag the parse goes on and the first
      error of the rest of the line wins ([parse_flags_unknown]), so an
      illegal value after any number of unknown flags is what is
      reported ([parse_flags_illegal_first]); every parsed value has
      its flag's kind ([parse_flags_typed], by the loop invariant
      [parse_args_inv]); [app.run] on the
      command line that spells out a set of flag values runs [main] on
      exactly those values ([app_run_command_line], a round trip through
      [str()] and [IntegerParser]).
    - Text: the lines of [readline] are exactly the newline-terminated
      split of the text; no carriage return survives [open()].
    - DQN script: [main]'s calls in each branch ([num_actors] is 128
      either way); whenever it returns it raises [NameError] on [pd], so
      [test.png] is never written; the logger registry stays well formed
      along every run of [registry_step], factory calls with one name
      alias one logger, and a write through one handle is seen by every
      later factory call of that name and by no other logger.

    ** Bounds and fuel

    [reader_rows] runs [next(reader)] at most [fuel] times; each call
    consumes at least one line or ends the iteration, so [fuel] greater
    than the number of lines is enough ([reader_rows_total]).  Integers
    are unbounded as in Python; the only bound is the digit limit of
    [int()]/[str()] (4300 digits above the 640-digit threshold by
    default, [PyInt.over_limit]), and the field limit of [_csv]
    (131072 by default).  [float()] keeps exact decimal values: rounding
    to binary64 is not modelled, and nothing here depends on it; the
    value theorem of [float()] bounds the exponent to nine digits, below
    which [_Py_dg_strtod] never saturates it at [MAX_ABS_EXP], and the
    digits to [MAX_DIGITS], the C limit on the digit count.

    ** Not modelled

    absl's own flags ([--flagfile], [--undefok], [--help*], the logging
    flags) and its non-GNU mode: the registry holds the script's flags
    only; the import system beyond a table of importable modules
    ([sys.path] search, module caching across imports, circular
    imports); the external libraries the scripts only call (acme's
    experiments and builders, launchpad, the Atari helpers, matplotlib's
    rendering, pandas): their results are parameters ([Launchpad]) or
    recorded calls; [csv.QUOTE_NONNUMERIC]; non-ASCII text beyond code
    point 255; the contents of the [bve] submodules, which are not in
    the repository.  The writer of the logs is outside
    the repository and is modelled as [csv.writer] with the excel
    dialect, as the spec describes the files.

    ** Where the model stops

    The map covers every statement of the three files; the lines it
    leaves out are the licence comments and blank lines.  Two components stay partly modelled because
    what is missing is not in the repository: the [csv.writer] of the
    loggers that wrote the logs (acme's CSV logger, modelled from the
    spec's description of the files) and absl's own flags, which the
    scripts never define.  [RunDqn.main] takes the external calls
    ([lp_utils.is_local_run()], [make_distributed_experiment],
    [lp.launch], [run_experiment]) to return or keep control, never to
    raise: their failures belong to libraries outside the repository,
    and the theorems about [main] hold under that assumption.  In
    [build_experiment_config], [logger_factory := None] stands for
    acme's default logger factory, which the commented-out argument
    leaves in place.  The reader's [strict] mode and QUOTE_NONE
    are modelled in [parse_process_char] but have no theorem: the
    script uses neither. *)

From stdpp Require Export base list strings.
From Stdlib Require Export Ascii ZArith.
From Stdlib Require String.
Export String.StringSyntax.

Declare Scope py_scope.
Delimit Scope py_scope with py.
Open Scope py_scope.

(** ** Text *)

(** A Python [str] whose code points are all below 256, one [ascii]
    (8-bit) value per code point. *)
Abbreviation text := (list ascii).

(** Source-level literals. *)
Definition txt (s : String.string) : text := String.list_ascii_of_string s.
Arguments txt s%_string_scope.

Definition LF : ascii := "010"%char.
Definition CR : ascii := "013"%char.
Definition DQUOTE : ascii := "034"%char.
Definition COMMA : ascii := ","%char.

(** ** Exceptions *)

Inductive value_error :=
  | IntLiteral (s : text)            (** invalid literal for int() with base 10 *)
  | IntDigitLimit (limit digits : nat) (** int(): exceeds the limit for integer string conversion *)
  | IntStrDigitLimit (limit : nat)   (** str(): exceeds the limit for integer string conversion *)
  | FloatLiteral (s : text)          (** could not convert string to float *)
  | PlotShapeMismatch                (** matplotlib: x and y must have same first dimension *)
  | IntBaseLiteral (base : nat) (s : text) (** invalid literal for int() with base 2, 8 or 16 *)
  | FlagTakesNoArgument (arg : text). (** absl: --noflag=value *)

Inductive csv_error :=
  | FieldLimit (limit : nat)         (** field larger than field limit *)
  | DelimiterExpected                (** strict: delimiter expected after quotechar *)
  | NewlineInUnquoted                (** new-line character seen in unquoted field *)
  | UnexpectedEnd                    (** strict: unexpected end of data *)
  | LineContainsNul                  (** CPython before 3.11 *)
  | NeedEscape                       (** writer: need to escape, but no escapechar set *)
  | SingleEmptyField.                (** writer: single empty field record must be quoted *)

(** The exceptions of absl's flag parser (subclasses of [flags.Error]). *)
Inductive flags_error :=
  | UnrecognizedFlag (name : text)   (** Unknown command line flag *)
  | MissingValue (arg : text)        (** Missing value for flag *)
  | IllegalFlagValue (name arg : text) (** flag --name=arg: the parser raised *)
  | DuplicateFlag (name : text).     (** DEFINE_* of a name already registered *)

Inductive exn :=
  | IndexError
  | ValueError (v : value_error)
  | NameError (name : text)
  | FileNotFoundError (path : text)
  | CsvError (e : csv_error)
  | ModuleNotFoundError (name : text)
  | ImportError (name module : text)  (** cannot import name from module *)
  | FlagsError (e : flags_error)
  | SystemExit (code : Z).

(** ** Results *)

Inductive res (A : Type) : Type :=
  | Ok (a : A)
  | Raise (e : exn).
Arguments Ok {A} a.
Arguments Raise {A} e.

Definition rbind {A B} (m : res A) (f : A -> res B) : res B :=
  match m with
  | Ok a => f a
  | Raise e => Raise e
  end.

Notation "'let*' x := m 'in' k" := (rbind m (fun x => k))
  (at level 10, x name, m at level 100, k at level 200) : py_scope.

Definition of_option {A} (e : exn) (o : option A) : res A :=
  match o with Some a => Ok a | None => Raise e end.

(** The exceptions a computation can raise are among [P]. *)
Definition raises_only {A} (P : exn -> Prop) (m : res A) : Prop :=
  forall e, m = Raise e -> P e.

(** Code whose side effects (output, allocation) persist when it raises:
    a state monad whose result is a [res]. *)
Definition PyM (S A : Type) : Type := S -> res A * S.

Definition pret {S A} (a : A) : PyM S A := fun s => (Ok a, s).
Definition praise {S A} (e : exn) : PyM S A := fun s => (Raise e, s).
Definition plift {S A} (m : res A) : PyM S A := fun s => (m, s).
Definition pbind {S A B} (m : PyM S A) (f : A -> PyM S B) : PyM S B :=
  fun s => match m s with
           | (Ok a, s') => f a s'
           | (Raise e, s') => (Raise e, s')
           end.

Notation "'do*' x := m 'in' k" := (pbind m (fun x => k))
  (at level 10, x name, m at level 100, k at level 200) : py_scope.

(** ** Lists *)

(** [list_subscript] with an integer index: a negative index counts from
    the end; out of range raises [IndexError]. *)
Definition py_index (len : nat) (i : Z) : option nat :=
  let j := if (i <? 0)%Z then (i + Z.of_nat len)%Z else i in
  if ((0 <=? j) && (j <? Z.of_nat len))%Z then Some (Z.to_nat j) else None.

Definition py_getitem {A} (l : list A) (i : Z) : res A :=
  of_option IndexError (py_index (length l) i ≫= fun n => l !! n).

(** [l[i:]]: [PySlice_AdjustIndices] with step 1 and no stop. *)
Definition py_slice_from {A} (l : list A) (i : Z) : list A :=
  let len := Z.of_nat (length l) in
  let s := if (i <? 0)%Z then Z.max 0 (i + len) else Z.min i len in
  drop (Z.to_nat s) l.

(** [[f(x) for x in xs]]: elements in order, the first exception wins. *)
Fixpoint py_listcomp {A B} (f : A -> res B) (xs : list A) : res (list B) :=
  match xs with
  | [] => Ok []
  | x :: xs' =>
      let* y := f x in
      let* ys := py_listcomp f xs' in
      Ok (y :: ys)
  end.

(** ** Automation *)

Create HintDb pylib.
Create Rewrite HintDb pylib.

Ltac res_simpl :=
  repeat match goal with
  | H : Ok _ = Ok _ |- _ => let E := fresh "E" in injection H as E
  | H : Ok _ = Raise _ |- _ => discriminate H
  | H : Raise _ = Ok _ |- _ => discriminate H
  | H : Raise _ = Raise _ |- _ => let E := fresh "E" in injection H as E
  | H : context [rbind (Ok _) _] |- _ => cbn [rbind] in H
  | |- context [rbind (Ok _) _] => cbn [rbind]
  | H : context [rbind (Raise _) _] |- _ => cbn [rbind] in H
  | |- context [rbind (Raise _) _] => cbn [rbind]
  end.

(** ** Generic lemmas *)

Lemma rbind_Ok {A B} (m : res A) (f : A -> res B) b :
  rbind m f = Ok b <-> exists a, m = Ok a /\ f a = Ok b.
Proof. destruct m; simpl; split; intros; [eauto|naive_solver|discriminate|naive_solver]. Qed.

Lemma rbind_Raise {A B} (m : res A) (f : A -> res B) e :
  rbind m f = Raise e <-> m = Raise e \/ exists a, m = Ok a /\ f a = Raise e.
Proof. destruct m; simpl; split; intros; naive_solver. Qed.

Lemma py_listcomp_Ok {A B} (f : A -> res B) xs ys :
  py_listcomp f xs = Ok ys <-> Forall2 (fun x y => f x = Ok y) xs ys.
Proof.
  revert ys; induction xs as [|x xs IH]; intros ys; simpl.
  - split; [intros [= <-]; constructor | inversion 1; done].
  - rewrite rbind_Ok. setoid_rewrite rbind_Ok. split.
    + intros (y & Hy & ys' & Hys & [= <-]). constructor; [done|]. by apply IH.
    + inversion 1 as [|? y ? ys' Hy Hys]; subst. exists y. split; [done|].
      exists ys'. split; [by apply IH|done].
Qed.

Lemma py_listcomp_length {A B} (f : A -> res B) xs ys :
  py_listcomp f xs = Ok ys -> length ys = length xs.
Proof. rewrite py_listcomp_Ok. intros H. symmetry. by eapply Forall2_length. Qed.

Lemma py_listcomp_map {A B} (g : A -> B) xs :
  py_listcomp (fun x => Ok (g x)) xs = Ok (map g xs).
Proof. induction xs as [|x xs IH]; simpl; [done|]. by rewrite IH. Qed.

Lemma py_index_nonneg len (n : nat) :
  py_index len (Z.of_nat n) = if decide (n < len) then Some n else None.
Proof.
  unfold py_index. rewrite (proj2 (Z.ltb_ge _ 0)) by lia.
  rewrite (proj2 (Z.leb_le 0 _)) by lia. simpl.
  case_decide.
  - rewrite (proj2 (Z.ltb_lt _ _)) by lia. by rewrite Nat2Z.id.
  - by rewrite (proj2 (Z.ltb_ge _ _)) by lia.
Qed.

Lemma py_index_neg len (i : Z) :
  (i < 0)%Z -> (- Z.of_nat len <= i)%Z ->
  py_index len i = Some (Z.to_nat (i + Z.of_nat len)).
Proof.
  intros Hneg Hge. unfold py_index. rewrite (proj2 (Z.ltb_lt _ 0)) by lia.
  rewrite (proj2 (Z.leb_le 0 _)), (proj2 (Z.ltb_lt _ _)) by lia. done.
Qed.

Lemma py_getitem_nat {A} (l : list A) (n : nat) :
  py_getitem l (Z.of_nat n) = of_option IndexError (l !! n).
Proof.
  unfold py_getitem. rewrite py_index_nonneg. case_decide; simpl; [done|].
  by rewrite lookup_ge_None_2 by lia.
Qed.

Lemma py_getitem_last {A} (l : list A) (x : A) :
  py_getitem (l ++ [x]) (-1) = Ok x.
Proof.
  unfold py_getitem. rewrite length_app. simpl.
  rewrite py_index_neg by lia.
  replace (Z.to_nat (-1 + Z.of_nat (length l + 1))) with (length l) by lia.
  cbn. by rewrite lookup_app_r, Nat.sub_diag by lia.
Qed.

Lemma py_getitem_nil {A} (i : Z) : py_getitem (@nil A) i = Raise IndexError.
Proof. unfold py_getitem. by destruct (py_index _ i); cbn. Qed.

Lemma py_slice_from_nat {A} (l : list A) (n : nat) :
  py_slice_from l (Z.of_nat n) = drop n l.
Proof.
  unfold py_slice_from. rewrite (proj2 (Z.ltb_ge _ 0)) by lia.
  destruct (decide (n <= length l)).
  - by rewrite Z.min_l, Nat2Z.id by lia.
  - rewrite Z.min_r, Nat2Z.id by lia. by rewrite !drop_ge by lia.
Qed.

Lemma py_slice_from_1 {A} (l : list A) : py_slice_from l 1 = drop 1 l.
Proof. exact (py_slice_from_nat l 1). Qed.

Lemma py_listcomp_app_Raise {A B} (f : A -> res B) pre x post ys e :
  py_listcomp f pre = Ok ys -> f x = Raise e -> py_listcomp f (pre ++ x :: post) = Raise e.
Proof.
  revert ys; induction pre as [|a pre IH]; intros ys Hpre Hx; simpl; [by rewrite Hx|].
  simpl in Hpre. apply rbind_Ok in Hpre as (b & -> & Hpre). cbn [rbind].
  apply rbind_Ok in Hpre as (bs & Hbs & _). by rewrite (IH bs).
Qed.

Lemma not_elem_of_Forall_ne {A} (x : A) (l : list A) : x ∉ l <-> Forall (fun y => y <> x) l.
Proof.
  rewrite Forall_forall. split.
  - intros H y Hy ->. done.
  - intros H Hx. exact (H x Hx eq_refl).
Qed.

Lemma Forall_flat_map {A B} (P : B -> Prop) (g : A -> list B) (l : list A) :
  Forall (fun x => Forall P (g x)) l -> Forall P (flat_map g l).
Proof. induction 1; simpl; [constructor|]. by apply Forall_app. Qed.

Lemma raises_only_Ok {A} P (a : A) : raises_only P (Ok a).
Proof. by intros e [=]. Qed.

Lemma raises_only_Raise {A} (P : exn -> Prop) e : P e -> raises_only (A:=A) P (Raise e).
Proof. by intros He e' [= <-]. Qed.

Lemma raises_only_bind {A B} P (m : res A) (k : A -> res B) :
  raises_only P m -> (forall a, raises_only P (k a)) -> raises_only P (rbind m k).
Proof.
  intros Hm Hk e. destruct m as [a|e']; simpl; [apply (Hk a)|].
  intros [= ->]. by apply Hm.
Qed.

Lemma raises_only_of_option {A} (P : exn -> Prop) e (o : option A) :
  P e -> raises_only P (of_option e o).
Proof. destruct o; simpl; [intros; apply raises_only_Ok|apply raises_only_Raise]. Qed.

Lemma raises_only_weaken {A} (P Q : exn -> Prop) (m : res A) :
  raises_only P m -> (forall e, P e -> Q e) -> raises_only Q m.
Proof. intros Hm HPQ e He. exact (HPQ e (Hm e He)). Qed.

Lemma py_getitem_raises {A} (l : list A) i : raises_only (eq IndexError) (py_getitem l i).
Proof. by apply raises_only_of_option. Qed.

Lemma py_listcomp_raises {A B} P (f : A -> res B) xs :
  (forall x, raises_only P (f x)) -> raises_only P (py_listcomp f xs).
Proof.
  intros Hf. induction xs as [|x xs IH]; simpl; [apply raises_only_Ok|].
  apply raises_only_bind; [done|]. intros. apply raises_only_bind; [done|].
  intros. apply raises_only_Ok.
Qed.

(** Case analysis of a computation down to its [raise] statements. *)
Ltac raises_tac :=
  repeat first
    [ apply raises_only_Ok
    | apply raises_only_Raise
    | apply raises_only_bind; [|intros ?]
    | progress cbn beta
    | match goal with |- raises_only _ (if ?b then _ else _) => destruct b end
    | match goal with |- raises_only _ (match ?x with _ => _ end) => destruct x end ];
  eauto with pylib.

#[export] Hint Resolve raises_only_Ok raises_only_Raise py_getitem_raises : pylib.

#[export] Hint Rewrite @py_listcomp_map @py_getitem_nat @py_getitem_last
  @py_getitem_nil @py_slice_from_1 : pylib.
#[export] Hint Resolve py_listcomp_length : pylib.
