(* ===== verification/TextIO.v ===== *)
(** * TextIO: reading a text file the way the log script does

    [process_logs.py] opens each log with [open(path)]: text mode, default
    [newline=None].  Python's [TextIOWrapper] then decodes the bytes and
    translates every [\r\n] and every lone [\r] to [\n] (universal
    newlines); iterating over the file object ([for row in reader] pulls
    [next(fp)], i.e. [readline()]) yields the translated text cut after
    each [\n], the last line possibly without one.

    The file system is a finite map from paths to contents; a missing
    path raises [FileNotFoundError].  Decoding is not modelled: a file's
    content is already its text. *)

From stdpp Require Import gmap strings.
From S2P Require Import Prelude.

Module TextIO.

(** ** Newline translation ([IncrementalNewlineDecoder], translate=True) *)

Fixpoint translate_newlines (s : text) : text :=
  match s with
  | [] => []
  | c :: r =>
      if decide (c = CR) then
        LF :: match r with
              | c' :: r' => if decide (c' = LF) then translate_newlines r'
                            else translate_newlines r
              | [] => []
              end
      else c :: translate_newlines r
  end.

(** ** Iteration by lines ([readline] until it returns the empty string) *)

(** [lines_from cur s]: the lines of [s] when [cur] holds the part of the
    current line read so far. *)
Fixpoint lines_from (cur : text) (s : text) : list text :=
  match s with
  | [] => match cur with [] => [] | _ => [cur] end
  | c :: r =>
      if decide (c = LF) then (cur ++ [c]) :: lines_from [] r
      else lines_from (cur ++ [c]) r
  end.

Definition iter_lines (s : text) : list text := lines_from [] s.

(** ** Opening a file *)

Abbreviation filesystem := (gmap text text).

Definition open_lines (fs : filesystem) (path : text) : res (list text) :=
  match fs !! path with
  | Some content => Ok (iter_lines (translate_newlines content))
  | None => Raise (FileNotFoundError path)
  end.

(** ** The contract of [readline]: a well-split text *)

(** A line returned by [readline]: it ends with the only [\n] it
    contains, or it is the last one, nonempty and without [\n]. *)
Definition full_line (l : text) : Prop := exists b, l = b ++ [LF] /\ LF ∉ b.

Inductive well_split : list text -> Prop :=
  | ws_nil : well_split []
  | ws_last l : l <> [] -> LF ∉ l -> well_split [l]
  | ws_cons l ls : full_line l -> well_split ls -> well_split (l :: ls).

(** ** Lemmas *)

Lemma lines_from_concat cur s : concat (lines_from cur s) = cur ++ s.
Proof.
  revert cur; induction s as [|c s IH]; intros cur; simpl.
  - destruct cur; simpl; [done|]. by rewrite !app_nil_r.
  - case_decide; simpl.
    + rewrite IH. subst. by rewrite <-app_assoc.
    + rewrite IH. by rewrite <-app_assoc.
Qed.

Lemma lines_from_well_split cur s :
  LF ∉ cur -> well_split (lines_from cur s).
Proof.
  revert cur; induction s as [|c s IH]; intros cur Hcur; simpl.
  - destruct cur; constructor; [done|done].
  - case_decide as Hc.
    + subst. constructor; [by exists cur|]. apply IH. set_solver.
    + apply IH. rewrite elem_of_app, list_elem_of_singleton. naive_solver.
Qed.

Lemma full_line_lines_from b s :
  LF ∉ b -> lines_from [] (b ++ [LF] ++ s) = (b ++ [LF]) :: lines_from [] s.
Proof.
  enough (forall cur, LF ∉ b ->
    lines_from cur (b ++ [LF] ++ s) = (cur ++ b ++ [LF]) :: lines_from [] s) by auto.
  induction b as [|c b IH]; intros cur Hb; simpl.
  - done.
  - rewrite decide_False by set_solver. rewrite IH by set_solver.
    by rewrite <-app_assoc.
Qed.

Lemma last_line_lines_from l :
  l <> [] -> LF ∉ l -> lines_from [] l = [l].
Proof.
  enough (forall cur, cur ++ l <> [] -> LF ∉ l -> lines_from cur l = [cur ++ l]).
  { intros. rewrite (H []); done. }
  induction l as [|c l IH]; intros cur Hne Hl; simpl.
  - rewrite app_nil_r in *. by destruct cur.
  - rewrite decide_False by set_solver. rewrite IH by (try set_solver; by destruct cur).
    by rewrite <-app_assoc.
Qed.

Lemma well_split_lines ls : well_split ls -> iter_lines (concat ls) = ls.
Proof.
  unfold iter_lines. induction 1 as [|l Hne Hl|l ls [b [-> Hb]] _ IH]; simpl.
  - done.
  - rewrite app_nil_r. by apply last_line_lines_from.
  - rewrite <-app_assoc. by rewrite full_line_lines_from, IH.
Qed.

Lemma translate_newlines_no_CR_id s : CR ∉ s -> translate_newlines s = s.
Proof.
  induction s as [|c s IH]; intros Hs; simpl; [done|].
  rewrite decide_False by set_solver. f_equal. apply IH. set_solver.
Qed.

Lemma translate_newlines_crlf a b :
  CR ∉ a -> translate_newlines (a ++ [CR; LF] ++ b) = a ++ [LF] ++ translate_newlines b.
Proof.
  induction a as [|c a IH]; intros Ha; simpl.
  - done.
  - rewrite decide_False by set_solver. f_equal. apply IH. set_solver.
Qed.

(** No carriage return survives the translation. *)
Lemma no_CR_translated s : CR ∉ translate_newlines s.
Proof.
  induction s as [s IH] using (induction_ltof1 _ (@length _)).
  destruct s as [|c r]; simpl; [set_solver|].
  case_decide as Hc.
  - destruct r as [|c' r']; [set_solver|].
    rewrite elem_of_cons. intros [Heq|Hin]; [discriminate|].
    case_decide; revert Hin; apply IH; unfold ltof; simpl; lia.
  - rewrite elem_of_cons. intros [Heq|Hin]; [congruence|].
    revert Hin. apply IH. unfold ltof; simpl; lia.
Qed.

(** The lines [open()] yields hold no carriage return. *)
Lemma open_lines_no_CR fs path lines :
  open_lines fs path = Ok lines -> Forall (Forall (fun c => c <> CR)) lines.
Proof.
  unfold open_lines. destruct (fs !! path) as [content|]; [|discriminate]. intros [= <-].
  apply Forall_forall. intros l Hl. apply Forall_forall. intros c Hc ->.
  apply (no_CR_translated content).
  change (translate_newlines content) with ([] ++ translate_newlines content).
  rewrite <-(lines_from_concat [] (translate_newlines content)).
  apply list_elem_of_In, in_concat. exists l. split; by apply list_elem_of_In.
Qed.

#[export] Hint Resolve lines_from_well_split : pylib.
#[export] Hint Rewrite lines_from_concat translate_newlines_no_CR_id
  translate_newlines_crlf : pylib.

(** ** Properties *)

(** C18: [readline]'s contract: the lines of a text concatenate back to the
    text, every line but the last ends with its only newline, and this
    split is the only one with that shape. *)
Theorem iter_lines_spec s ls :
  iter_lines s = ls <-> concat ls = s /\ well_split ls.
Proof.
  split.
  - intros <-. split; [apply lines_from_concat|]. apply lines_from_well_split; set_solver.
  - intros [<- Hws]. by apply well_split_lines.
Qed.

(** C19: No carriage return survives the translation. *)
Theorem translate_newlines_no_CR s : CR ∉ translate_newlines s.
Proof. apply no_CR_translated. Qed.

End TextIO.
