(* ===== verification/Csv.v ===== *)
(** * Csv: CPython's [_csv] module, reader and writer

    [process_logs.py] reads each log with
    [csv.reader(fp, delimiter=..., quotechar=...)] and materialises it with
    [[row for row in reader]].  The reader is the state machine of
    [Modules/_csv.c]: [parse_process_char] is one transition on one
    character (or on the end-of-line sentinel [EOL] that
    [Reader_iternext] feeds after each line), [parse_add_char] enforces
    [csv.field_size_limit()], [parse_save_field] closes a field, and
    [Reader_iternext] pulls lines until the machine is back in
    [START_RECORD].  The logs themselves were written by [csv.writer]
    ([join_append], [writerow]) with the default dialect.

    Module [Csv] holds the dialect, the reader's state and operations,
    the iteration, and the writer.  The version-dependent settings of
    the interpreter (field limit, NUL handling before 3.11) are a record
    [runtime].  QUOTE_NONNUMERIC is not modelled (neither script uses
    it).  The end of the Module proves the reader's properties: the
    shape of each transition, the field-limit invariant, that it raises
    [_csv.Error] only, and the termination of the iteration. *)

From S2P Require Import Prelude TextIO.

Module Csv.

(** ** Dialects *)

Inductive quoting_mode := QUOTE_MINIMAL | QUOTE_ALL | QUOTE_NONE.

#[export] Instance quoting_mode_eq_dec : EqDecision quoting_mode.
Proof. solve_decision. Defined.

Record dialect := {
  delimiter : ascii;
  quotechar : option ascii;
  escapechar : option ascii;
  doublequote : bool;
  skipinitialspace : bool;
  lineterminator : text;
  quoting : quoting_mode;
  strict : bool
}.

(** [csv.excel], the default dialect of [csv.reader] and [csv.writer]. *)
Definition excel : dialect := {|
  delimiter := COMMA;
  quotechar := Some DQUOTE;
  escapechar := None;
  doublequote := true;
  skipinitialspace := false;
  lineterminator := [CR; LF];
  quoting := QUOTE_MINIMAL;
  strict := false
|}.

(** The reader of [process_logs.py]: the excel dialect with its delimiter
    (a comma) and its quote character (the double quote) given explicitly. *)
Definition log_dialect : dialect := {|
  delimiter := ","%char;
  quotechar := Some DQUOTE;
  escapechar := excel.(escapechar);
  doublequote := excel.(doublequote);
  skipinitialspace := excel.(skipinitialspace);
  lineterminator := excel.(lineterminator);
  quoting := excel.(quoting);
  strict := excel.(strict)
|}.

(** Interpreter settings: [csv.field_size_limit()] (131072 by default)
    and whether a NUL character is an error ([line contains NUL], CPython
    3.10 and earlier). *)
Record runtime := { field_limit : nat; nul_error : bool }.

Definition default_runtime : runtime := {| field_limit := 131072; nul_error := false |}.

Definition NUL : ascii := "000"%char.

Definition is_char (o : option ascii) (c : ascii) : bool := bool_decide (o = Some c).
Definition is_crlf (c : ascii) : bool := bool_decide (c = LF) || bool_decide (c = CR).
Definition quote_enabled (d : dialect) : bool := bool_decide (d.(quoting) <> QUOTE_NONE).

(** ** Reader state *)

Inductive parser_state :=
  | START_RECORD | START_FIELD | ESCAPED_CHAR | IN_FIELD | IN_QUOTED_FIELD
  | ESCAPE_IN_QUOTED_FIELD | QUOTE_IN_QUOTED_FIELD | EAT_CRNL | AFTER_ESCAPED_CRNL.

#[export] Instance parser_state_eq_dec : EqDecision parser_state.
Proof. solve_decision. Defined.

(** [ReaderObj]: the state, the fields of the current record, and the
    field being built ([field] with [field_len = length field]). *)
Record reader := mk_reader { state : parser_state; fields : list text; field : text }.

(** A character of a line, or the [EOL] sentinel. *)
Inductive input := Chr (c : ascii) | EOL.

Definition with_state (s : parser_state) (r : reader) : reader :=
  mk_reader s r.(fields) r.(field).

Definition parse_reset : reader := mk_reader START_RECORD [] [].

Definition parse_save_field (r : reader) : reader :=
  mk_reader r.(state) (r.(fields) ++ [r.(field)]) [].

Definition parse_add_char (rt : runtime) (r : reader) (c : ascii) : res reader :=
  if bool_decide (rt.(field_limit) <= length r.(field))
  then Raise (CsvError (FieldLimit rt.(field_limit)))
  else Ok (mk_reader r.(state) r.(fields) (r.(field) ++ [c])).

(** ** [parse_process_char] *)

(** [case START_FIELD], entered with the state already [START_FIELD]. *)
Definition start_field (d : dialect) (rt : runtime) (r : reader) (i : input) : res reader :=
  match i with
  | EOL => Ok (with_state START_RECORD (parse_save_field r))
  | Chr c =>
      if is_crlf c then Ok (with_state EAT_CRNL (parse_save_field r))
      else if is_char d.(quotechar) c && quote_enabled d then Ok (with_state IN_QUOTED_FIELD r)
      else if is_char d.(escapechar) c then Ok (with_state ESCAPED_CHAR r)
      else if bool_decide (c = " "%char) && d.(skipinitialspace) then Ok r
      else if bool_decide (c = d.(delimiter)) then Ok (parse_save_field r)
      else let* r' := parse_add_char rt r c in Ok (with_state IN_FIELD r')
  end.

(** [case IN_FIELD] (also reached by fall-through from
    [AFTER_ESCAPED_CRNL], whose state it then keeps for plain characters). *)
Definition in_field (d : dialect) (rt : runtime) (r : reader) (i : input) : res reader :=
  match i with
  | EOL => Ok (with_state START_RECORD (parse_save_field r))
  | Chr c =>
      if is_crlf c then Ok (with_state EAT_CRNL (parse_save_field r))
      else if is_char d.(escapechar) c then Ok (with_state ESCAPED_CHAR r)
      else if bool_decide (c = d.(delimiter)) then Ok (with_state START_FIELD (parse_save_field r))
      else parse_add_char rt r c
  end.

Definition parse_process_char (d : dialect) (rt : runtime) (r : reader) (i : input) : res reader :=
  match r.(state) with
  | START_RECORD =>
      match i with
      | EOL => Ok r
      | Chr c =>
          if is_crlf c then Ok (with_state EAT_CRNL r)
          else start_field d rt (with_state START_FIELD r) i
      end
  | START_FIELD => start_field d rt r i
  | ESCAPED_CHAR =>
      match i with
      | Chr c =>
          if is_crlf c then let* r' := parse_add_char rt r c in Ok (with_state AFTER_ESCAPED_CRNL r')
          else let* r' := parse_add_char rt r c in Ok (with_state IN_FIELD r')
      | EOL => let* r' := parse_add_char rt r LF in Ok (with_state IN_FIELD r')
      end
  | AFTER_ESCAPED_CRNL => match i with EOL => Ok r | Chr _ => in_field d rt r i end
  | IN_FIELD => in_field d rt r i
  | IN_QUOTED_FIELD =>
      match i with
      | EOL => Ok r
      | Chr c =>
          if is_char d.(escapechar) c then Ok (with_state ESCAPE_IN_QUOTED_FIELD r)
          else if is_char d.(quotechar) c && quote_enabled d then
            (if d.(doublequote) then Ok (with_state QUOTE_IN_QUOTED_FIELD r)
             else Ok (with_state IN_FIELD r))
          else parse_add_char rt r c
      end
  | ESCAPE_IN_QUOTED_FIELD =>
      let c := match i with Chr c => c | EOL => LF end in
      let* r' := parse_add_char rt r c in Ok (with_state IN_QUOTED_FIELD r')
  | QUOTE_IN_QUOTED_FIELD =>
      match i with
      | Chr c =>
          if quote_enabled d && is_char d.(quotechar) c then
            let* r' := parse_add_char rt r c in Ok (with_state IN_QUOTED_FIELD r')
          else if bool_decide (c = d.(delimiter)) then Ok (with_state START_FIELD (parse_save_field r))
          else if is_crlf c then Ok (with_state EAT_CRNL (parse_save_field r))
          else if negb d.(strict) then
            let* r' := parse_add_char rt r c in Ok (with_state IN_FIELD r')
          else Raise (CsvError DelimiterExpected)
      | EOL => Ok (with_state START_RECORD (parse_save_field r))
      end
  | EAT_CRNL =>
      match i with
      | Chr c => if is_crlf c then Ok r else Raise (CsvError NewlineInUnquoted)
      | EOL => Ok (with_state START_RECORD r)
      end
  end.

(** ** [Reader_iternext] *)

(** The loop body over the characters of one line. *)
Definition process_input (d : dialect) (rt : runtime) (r : reader) (c : ascii) : res reader :=
  if rt.(nul_error) && bool_decide (c = NUL) then Raise (CsvError LineContainsNul)
  else parse_process_char d rt r (Chr c).

Fixpoint process_chars (d : dialect) (rt : runtime) (r : reader) (l : text) : res reader :=
  match l with
  | [] => Ok r
  | c :: l' => let* r' := process_input d rt r c in process_chars d rt r' l'
  end.

(** At the end of the input: a pending field or an open quote yields a
    last record (or an error when [strict]). *)
Definition at_eof (d : dialect) (r : reader) : res (option (list text)) :=
  if bool_decide (r.(field) <> []) || bool_decide (r.(state) = IN_QUOTED_FIELD) then
    if d.(strict) then Raise (CsvError UnexpectedEnd)
    else Ok (Some (parse_save_field r).(fields))
  else Ok None.

Fixpoint iternext_loop (d : dialect) (rt : runtime) (r : reader) (lines : list text)
  : res (option (list text * list text)) :=
  match lines with
  | [] =>
      let* o := at_eof d r in
      Ok (match o with Some row => Some (row, []) | None => None end)
  | l :: rest =>
      let* r1 := process_chars d rt r l in
      let* r2 := parse_process_char d rt r1 EOL in
      if bool_decide (r2.(state) = START_RECORD) then Ok (Some (r2.(fields), rest))
      else iternext_loop d rt r2 rest
  end.

(** One call of [next(reader)]: [None] is [StopIteration]; otherwise the
    record and the lines left in the file. *)
Definition Reader_iternext (d : dialect) (rt : runtime) (lines : list text)
  : res (option (list text * list text)) :=
  iternext_loop d rt parse_reset lines.

(** ** [[row for row in reader]] *)

(** The comprehension calls [next] until [StopIteration]; [fuel] bounds
    the number of calls ([None]: fuel exhausted). *)
Fixpoint reader_rows (d : dialect) (rt : runtime) (fuel : nat) (lines : list text)
  : option (res (list (list text))) :=
  match fuel with
  | O => None
  | S fuel' =>
      match Reader_iternext d rt lines with
      | Raise e => Some (Raise e)
      | Ok None => Some (Ok [])
      | Ok (Some (row, rest)) =>
          match reader_rows d rt fuel' rest with
          | Some (Ok rows) => Some (Ok (row :: rows))
          | other => other
          end
      end
  end.

(** The same iteration as one structural loop over the lines: after each
    line, a machine back in [START_RECORD] emits its record and restarts
    from [parse_reset]. *)
Fixpoint read_loop (d : dialect) (rt : runtime) (r : reader) (lines : list text)
  : res (list (list text)) :=
  match lines with
  | [] =>
      let* o := at_eof d r in
      Ok (match o with Some row => [row] | None => [] end)
  | l :: rest =>
      let* r1 := process_chars d rt r l in
      let* r2 := parse_process_char d rt r1 EOL in
      if bool_decide (r2.(state) = START_RECORD) then
        let* rows := read_loop d rt parse_reset rest in Ok (r2.(fields) :: rows)
      else read_loop d rt r2 rest
  end.

(** [list(csv.reader(lines, d))]. *)
Definition read_csv (d : dialect) (rt : runtime) (lines : list text) : res (list (list text)) :=
  read_loop d rt parse_reset lines.

(** ** Writer: [join_append] and [writerow] *)

(** The characters that force quoting or escaping. *)
Definition special (d : dialect) (c : ascii) : bool :=
  bool_decide (c = d.(delimiter)) || is_char d.(escapechar) c || is_char d.(quotechar) c
  || bool_decide (c ∈ d.(lineterminator)).

(** [join_append_data]'s loop: the field's characters with doubled
    quotes or escapes, and whether the field must be quoted. *)
Fixpoint join_chars (d : dialect) (cs : text) : res (text * bool) :=
  match cs with
  | [] => Ok ([], false)
  | c :: cs' =>
      let* acc := join_chars d cs' in
      let '(out, quoted) := acc in
      if special d c then
        let want_escape :=
          if bool_decide (d.(quoting) = QUOTE_NONE) then true
          else if is_char d.(quotechar) c then negb d.(doublequote)
          else is_char d.(escapechar) c in
        let dq := if negb want_escape && is_char d.(quotechar) c then [c] else [] in
        if want_escape then
          match d.(escapechar) with
          | Some e => Ok (e :: c :: out, quoted)
          | None => Raise (CsvError NeedEscape)
          end
        else Ok (dq ++ c :: out, true)
      else Ok (c :: out, quoted)
  end.

(** One field, with its separator when it is not the first. *)
Definition join_append (d : dialect) (first : bool) (f : text) (quoted : bool) : res text :=
  let* acc := join_chars d f in
  let '(data, q) := acc in
  let sep := if first then [] else [d.(delimiter)] in
  match d.(quotechar) with
  | Some qc => Ok (sep ++ (if quoted || q then qc :: data ++ [qc] else data))
  | None => Ok (sep ++ data)
  end.

Fixpoint join_fields (d : dialect) (first : bool) (row : list text) : res text :=
  match row with
  | [] => Ok []
  | f :: row' =>
      let* s := join_append d first f (bool_decide (d.(quoting) = QUOTE_ALL)) in
      let* s' := join_fields d false row' in
      Ok (s ++ s')
  end.

(** [csv.writer(f, d).writerow(row)]: the text written to the file. *)
Definition writerow (d : dialect) (row : list text) : res text :=
  let* rec := join_fields d true row in
  let* rec := (if bool_decide (row <> []) && bool_decide (rec = []) then
                 if bool_decide (d.(quoting) = QUOTE_NONE) then Raise (CsvError SingleEmptyField)
                 else join_append d true [] true
               else Ok rec) in
  Ok (rec ++ d.(lineterminator)).

Fixpoint writerows (d : dialect) (rows : list (list text)) : res text :=
  match rows with
  | [] => Ok []
  | row :: rows' =>
      let* s := writerow d row in
      let* s' := writerows d rows' in
      Ok (s ++ s')
  end.

(** * Properties of the reader

    For a fixed dialect and runtime (Section [Reader]): every transition
    of [parse_process_char] keeps the record, appends the character read
    (or [\n]) under the field limit, or closes the field
    ([parse_process_char_shape]); hence any property of fields that such
    appends keep holds of every field read ([read_loop_inv]), so no field
    is longer than [csv.field_size_limit()]; the reader
    raises [_csv.Error] only; and [[row for row in reader]] terminates. *)

(** The exceptions of the [_csv] module. *)
Definition csv_exn (e : exn) : Prop := exists c, e = CsvError c.

Section Reader.
Context (d : dialect) (rt : runtime).

(** ** The shape of one transition *)

Definition step_shape (i : input) (r r' : reader) : Prop :=
  (r'.(fields) = r.(fields) /\ r'.(field) = r.(field))
  \/ (r'.(fields) = r.(fields) /\
      exists c, r'.(field) = r.(field) ++ [c] /\ length r.(field) < rt.(field_limit) /\
                (i = Chr c \/ c = LF))
  \/ (r'.(fields) = r.(fields) ++ [r.(field)] /\ r'.(field) = []).

Lemma parse_add_char_Ok r c r' :
  parse_add_char rt r c = Ok r' ->
  r' = mk_reader r.(state) r.(fields) (r.(field) ++ [c]) /\ length r.(field) < rt.(field_limit).
Proof. unfold parse_add_char. case_bool_decide; intros; res_simpl; subst; split; [done|lia]. Qed.

Ltac shape_base_tac :=
  repeat match goal with
  | H : rbind (parse_add_char _ _ _) _ = Ok _ |- _ =>
      apply rbind_Ok in H as (? & [-> ?]%parse_add_char_Ok & ?)
  | H : parse_add_char _ _ _ = Ok _ |- _ => apply parse_add_char_Ok in H as [-> ?]
  | H : Ok _ = Ok _ |- _ => injection H as <-
  | H : Raise _ = Ok _ |- _ => discriminate H
  | H : context [if ?b then _ else _] |- _ => destruct b
  end;
  unfold step_shape; simpl;
  first [ left; split; reflexivity
        | right; left; split;
          [reflexivity | eexists; split_and!; [reflexivity | assumption | by (left + right)]]
        | right; right; split; reflexivity ].

Lemma start_field_shape r i r' : start_field d rt r i = Ok r' -> step_shape i r r'.
Proof. unfold start_field. intros H. destruct i; shape_base_tac. Qed.

Lemma in_field_shape r i r' : in_field d rt r i = Ok r' -> step_shape i r r'.
Proof. unfold in_field. intros H. destruct i; shape_base_tac. Qed.

Ltac shape_tac :=
  repeat match goal with
  | H : start_field _ _ _ _ = Ok _ |- _ => apply start_field_shape in H; exact H
  | H : in_field _ _ _ _ = Ok _ |- _ => apply in_field_shape in H; exact H
  | H : context [if ?b then _ else _] |- _ => destruct b
  end; shape_base_tac.

(** Each transition keeps the record, appends the character read (or
    [\n] for an escaped end of line) under the field limit, or closes
    the field. *)
Lemma parse_process_char_shape r i r' :
  parse_process_char d rt r i = Ok r' -> step_shape i r r'.
Proof.
  unfold parse_process_char. intros H.
  destruct (state r), i; shape_tac.
Qed.

(** ** Field invariants

    A property [P] of fields that holds of the empty field and survives
    appending a character allowed by [Q] (under the limit) holds of every
    field of every record the reader returns from lines whose characters
    satisfy [Q]. *)
Section FieldInv.
Context (Q : ascii -> Prop) (P : text -> Prop).
Hypothesis Q_LF : Q LF.
Hypothesis P_nil : P [].
Hypothesis P_snoc : forall f c, P f -> length f < rt.(field_limit) -> Q c -> P (f ++ [c]).

Definition input_ok (i : input) : Prop := match i with Chr c => Q c | EOL => True end.

Definition fields_inv (r : reader) : Prop := Forall P r.(fields) /\ P r.(field).

Lemma step_shape_inv i r r' : input_ok i -> fields_inv r -> step_shape i r r' -> fields_inv r'.
Proof.
  unfold fields_inv.
  intros Hi [Hfs Hf] [[-> ->] | [[-> (c & -> & Hlt & Hc)] | [-> ->]]]; split; auto.
  - apply P_snoc; [done|done|]. destruct Hc as [-> | ->]; [done|done].
  - apply Forall_app. auto.
Qed.

Lemma parse_process_char_inv r i r' :
  input_ok i -> fields_inv r -> parse_process_char d rt r i = Ok r' -> fields_inv r'.
Proof. intros Hi Hr H. eapply step_shape_inv; [done|done|]. by eapply parse_process_char_shape. Qed.

Lemma process_chars_inv l r r' :
  Forall Q l -> fields_inv r -> process_chars d rt r l = Ok r' -> fields_inv r'.
Proof.
  intros Hl. revert r; induction Hl as [|c l Hc _ IH]; intros r Hr H; simpl in H; [by injection H as <-|].
  apply rbind_Ok in H as (r1 & H1 & H2). eapply IH; [|done].
  unfold process_input in H1. case_match; [discriminate|]. by apply (parse_process_char_inv r (Chr c)).
Qed.

Lemma parse_reset_inv : fields_inv parse_reset.
Proof. split; [constructor|done]. Qed.

Lemma at_eof_inv r row : fields_inv r -> at_eof d r = Ok (Some row) -> Forall P row.
Proof.
  unfold at_eof. intros [Hfs Hf] Heof.
  destruct (_ || _); [|discriminate]. destruct (strict d); [discriminate|].
  injection Heof as <-. simpl. apply Forall_app. auto.
Qed.

Lemma read_loop_inv lines r rows :
  Forall (Forall Q) lines -> fields_inv r -> read_loop d rt r lines = Ok rows ->
  Forall (Forall P) rows.
Proof.
  intros Hls. revert r rows; induction Hls as [|l lines Hl _ IH]; intros r rows Hr H; simpl in H.
  - apply rbind_Ok in H as (o & Ho & [= <-]).
    destruct o as [row|]; [|constructor]. constructor; [|constructor].
    by eapply at_eof_inv.
  - apply rbind_Ok in H as (r1 & H1 & H).
    apply rbind_Ok in H as (r2 & H2 & H).
    pose proof (parse_process_char_inv _ EOL _ I (process_chars_inv _ _ _ Hl Hr H1) H2) as Hr2.
    case_bool_decide.
    + apply rbind_Ok in H as (rows' & Hrows & [= <-]). constructor; [apply Hr2|].
      eapply IH; [apply parse_reset_inv|done].
    + by eapply IH.
Qed.

End FieldInv.

(** ** Errors: the reader raises [_csv.Error] only *)

Lemma csv_exn_intro c : csv_exn (CsvError c).
Proof. by exists c. Qed.
#[local] Hint Resolve csv_exn_intro : pylib.

Lemma parse_add_char_raises r c : raises_only csv_exn (parse_add_char rt r c).
Proof. unfold parse_add_char. raises_tac. Qed.
#[local] Hint Resolve parse_add_char_raises : pylib.

Lemma parse_process_char_raises r i : raises_only csv_exn (parse_process_char d rt r i).
Proof. unfold parse_process_char, start_field, in_field. raises_tac. Qed.
#[local] Hint Resolve parse_process_char_raises : pylib.

Lemma process_chars_raises r l : raises_only csv_exn (process_chars d rt r l).
Proof.
  revert r; induction l as [|c l IH]; intros r; simpl; raises_tac.
  unfold process_input. raises_tac.
Qed.
#[local] Hint Resolve process_chars_raises : pylib.

Lemma read_loop_raises r lines : raises_only csv_exn (read_loop d rt r lines).
Proof.
  revert r; induction lines as [|l lines IH]; intros r; simpl; raises_tac.
  unfold at_eof. raises_tac.
Qed.

(** ** Termination of [[row for row in reader]] *)

Lemma read_loop_iternext lines r :
  read_loop d rt r lines =
  match iternext_loop d rt r lines with
  | Raise e => Raise e
  | Ok None => Ok []
  | Ok (Some (row, rest)) => let* rows := read_loop d rt parse_reset rest in Ok (row :: rows)
  end.
Proof.
  revert r; induction lines as [|l lines IH]; intros r; simpl.
  - by destruct (at_eof d r) as [[row|]|e].
  - destruct (process_chars d rt r l) as [r1|e]; simpl; [|done].
    destruct (parse_process_char d rt r1 EOL) as [r2|e]; simpl; [|done].
    case_bool_decide; [|apply IH].
    by destruct (read_loop d rt parse_reset lines).
Qed.

Lemma iternext_loop_rest lines r row rest :
  iternext_loop d rt r lines = Ok (Some (row, rest)) ->
  rest = [] \/ length rest < length lines.
Proof.
  revert r; induction lines as [|l lines IH]; intros r H; simpl in H.
  - apply rbind_Ok in H as ([row'|] & _ & [=]). by left.
  - apply rbind_Ok in H as (r1 & _ & H). apply rbind_Ok in H as (r2 & _ & H).
    case_bool_decide.
    + injection H as _ <-. right. simpl. lia.
    + destruct (IH _ H) as [->|Hlt]; [by left|]. right. simpl. lia.
Qed.

End Reader.

(** ** No state of the reader is a trap *)

Section Liveness.
Context (d : dialect) (rt : runtime) (q : ascii).
Hypothesis Hq : d.(quotechar) = Some q.
Hypothesis Hen : quote_enabled d = true.
Hypothesis Hesc : d.(escapechar) <> Some q.

(** Some sequence of inputs leads the machine from [r] to a state
    satisfying [P] without raising. *)
Inductive eventually (P : reader -> Prop) : reader -> Prop :=
  | ev_now r : P r -> eventually P r
  | ev_step r i r' : parse_process_char d rt r i = Ok r' -> eventually P r' -> eventually P r.

Definition record_done (r : reader) : Prop := r.(state) = START_RECORD.

Lemma is_char_Some c : is_char (Some c) c = true.
Proof. unfold is_char. by rewrite bool_decide_eq_true_2. Qed.

Lemma is_char_ne o c : o <> Some c -> is_char o c = false.
Proof. unfold is_char. intros. by rewrite bool_decide_eq_false_2. Qed.

Lemma parse_add_char_lt r c :
  length r.(field) < rt.(field_limit) ->
  parse_add_char rt r c = Ok (mk_reader r.(state) r.(fields) (r.(field) ++ [c])).
Proof. intros. unfold parse_add_char. by rewrite bool_decide_eq_false_2 by lia. Qed.

Lemma ev_eol r : state r <> IN_QUOTED_FIELD -> state r <> AFTER_ESCAPED_CRNL ->
  state r <> ESCAPED_CHAR -> state r <> ESCAPE_IN_QUOTED_FIELD ->
  eventually record_done r.
Proof.
  intros H1 H2 H3 H4. destruct r as [st fs f]; cbn in *.
  destruct st; try congruence; first [by apply ev_now | eapply (ev_step _ _ EOL); [reflexivity|by apply ev_now]].
Qed.

Lemma ev_quoted fs f : eventually record_done (mk_reader IN_QUOTED_FIELD fs f).
Proof.
  apply (ev_step _ _ (Chr q) (mk_reader (if doublequote d then QUOTE_IN_QUOTED_FIELD else IN_FIELD) fs f)).
  - cbn. rewrite Hq, is_char_ne, is_char_Some, Hen by done. cbn. by destruct (doublequote d).
  - apply ev_eol; cbn; destruct (doublequote d); discriminate.
Qed.

(** C22: For a dialect whose quote character is enabled and is not its
    escape character, no state of the reader is a trap: from every
    state whose field is below [csv.field_size_limit()], a finite
    sequence of inputs (the proof uses at most three: a line end, a
    quote character, a newline) completes the record and brings the
    machine back to [START_RECORD] without raising. *)
Theorem reader_can_finish_record r :
  length r.(field) < rt.(field_limit) -> eventually record_done r.
Proof.
  destruct r as [st fs f]; cbn; intros Hlt.
  destruct st; try (apply ev_eol; cbn; discriminate); [|apply ev_quoted| |].
  - apply (ev_step _ _ EOL (mk_reader IN_FIELD fs (f ++ [LF]))).
    + cbn. by rewrite (parse_add_char_lt (mk_reader _ fs f)).
    + apply ev_eol; cbn; discriminate.
  - apply (ev_step _ _ EOL (mk_reader IN_QUOTED_FIELD fs (f ++ [LF]))); [|apply ev_quoted].
    cbn. by rewrite (parse_add_char_lt (mk_reader _ fs f)).
  - apply (ev_step _ _ (Chr LF) (mk_reader EAT_CRNL (fs ++ [f]) [])); [done|].
    apply ev_eol; cbn; discriminate.
Qed.

End Liveness.

(** ** Properties of the reader *)

(** C15: No field of a record returned by the reader is longer than
    [csv.field_size_limit()]: [parse_add_char] refuses the character that
    would exceed it. *)
Theorem read_csv_field_limit d rt lines rows :
  read_csv d rt lines = Ok rows ->
  Forall (Forall (fun f => length f <= rt.(field_limit))) rows.
Proof.
  apply (read_loop_inv d rt (fun _ => True)).
  - done.
  - cbn. lia.
  - intros f c Hf Hlt _. rewrite length_app. cbn. lia.
  - apply Forall_forall. intros l _. by apply Forall_forall.
  - split; [constructor|cbn; lia].
Qed.

(** Every exception [list(csv.reader(...))] raises is a [_csv.Error]. *)
Lemma read_csv_raises d rt lines : raises_only csv_exn (read_csv d rt lines).
Proof. apply read_loop_raises. Qed.

(** C7: [[row for row in reader]] terminates: given more calls of [next] than
    the file has lines, the iteration of [Reader_iternext] stops by
    itself (returns rows or raises) and its result is [read_csv]. *)
Theorem reader_rows_total d rt fuel lines :
  length lines < fuel -> reader_rows d rt fuel lines = Some (read_csv d rt lines).
Proof.
  revert lines; induction fuel as [|fuel IH]; intros lines Hlt; [lia|].
  simpl. unfold read_csv, Reader_iternext. rewrite read_loop_iternext.
  destruct (iternext_loop d rt parse_reset lines) as [[[row rest]|]|e] eqn:Hit; [|done|done].
  rewrite IH.
  - unfold read_csv. by destruct (read_loop d rt parse_reset rest).
  - destruct (iternext_loop_rest _ _ _ _ _ _ Hit) as [->|Hr]; [|lia].
    destruct lines; [|simpl in *; lia].
    discriminate Hit.
Qed.

(** ** Concrete runs *)

Lemma read_csv_field_limit_witness :
  read_csv excel {| field_limit := 2; nul_error := false |} [txt "ab,c"] = Ok [[txt "ab"; txt "c"]] /\
  Forall (Forall (fun f => length f <= 2)) [[txt "ab"; txt "c"]].
Proof.
  assert (H : read_csv excel {| field_limit := 2; nul_error := false |} [txt "ab,c"] =
              Ok [[txt "ab"; txt "c"]]) by reflexivity.
  split; [exact H|]. exact (read_csv_field_limit _ _ _ _ H).
Defined.

Lemma reader_rows_total_witness :
  reader_rows excel default_runtime 3 [txt "a,b" ++ [LF]; txt "c"] =
    Some (read_csv excel default_runtime [txt "a,b" ++ [LF]; txt "c"]).
Proof. apply reader_rows_total. simpl. lia. Defined.

(** A record cut inside a quoted field is completed by a quote and a
    line end. *)
Lemma reader_can_finish_record_witness :
  eventually excel {| field_limit := 4; nul_error := false |} record_done
    (mk_reader IN_QUOTED_FIELD [txt "x"] (txt "ab")).
Proof.
  apply (reader_can_finish_record excel {| field_limit := 4; nul_error := false |} DQUOTE);
    [reflexivity|reflexivity|discriminate|cbn; lia].
Defined.

End Csv.
