(* ===== verification/CsvRoundtrip.v ===== *)
(** * CsvRoundtrip: what [csv.writer] writes, [process_logs.py] reads back

    The logs that [process_logs.py] reads were written by [csv.writer]
    (QUOTE_MINIMAL, lineterminator [\r\n]) and are read back through
    [open()] (universal newlines) and [csv.reader].  This file proves
    that the reader returns exactly the rows the writer was given, as
    long as no field contains a carriage return (universal newlines would
    turn it into [\n]) and no field exceeds the reader's field limit.

    The proof works on the stream of reader inputs: the characters of the
    file with the [EOL] sentinel after each [\n] ([char_toks]);
    [read_loop_tok] shows that [read_loop] over the lines is [tok_loop]
    over that stream.  Section [Roundtrip] fixes a dialect satisfying
    [dialect_ok] (the excel dialect does) and proves one lemma per kind
    of transition the writer's output can trigger. *)

From S2P Require Import Prelude TextIO Csv.
Import Csv TextIO.

(** ** The reader on a stream of inputs *)

Definition char_toks (c : ascii) : list input :=
  if decide (c = LF) then [Chr c; EOL] else [Chr c].

Definition line_toks (l : text) : list input := map Chr l ++ [EOL].

Section Tokens.
Context (d : dialect) (rt : runtime).

Fixpoint tok_loop (r : reader) (ts : list input) : res (list (list text)) :=
  match ts with
  | [] =>
      let* o := at_eof d r in
      Ok (match o with Some row => [row] | None => [] end)
  | Chr c :: ts' => let* r' := process_input d rt r c in tok_loop r' ts'
  | EOL :: ts' =>
      let* r' := parse_process_char d rt r EOL in
      if bool_decide (r'.(state) = START_RECORD) then
        let* rows := tok_loop parse_reset ts' in Ok (r'.(fields) :: rows)
      else tok_loop r' ts'
  end.

Lemma tok_loop_chars r l ts :
  tok_loop r (map Chr l ++ ts) = let* r' := process_chars d rt r l in tok_loop r' ts.
Proof.
  revert r; induction l as [|c l IH]; intros r; simpl; [done|].
  destruct (process_input d rt r c); simpl; [apply IH|done].
Qed.

Lemma read_loop_tok lines r :
  read_loop d rt r lines = tok_loop r (concat (map line_toks lines)).
Proof.
  revert r; induction lines as [|l lines IH]; intros r; [done|].
  simpl. unfold line_toks. rewrite <-app_assoc, tok_loop_chars.
  destruct (process_chars d rt r l) as [r1|e]; simpl; [|done].
  destruct (parse_process_char d rt r1 EOL) as [r2|e]; simpl; [|done].
  by rewrite !IH.
Qed.

End Tokens.

Lemma char_toks_LF : char_toks LF = [Chr LF; EOL].
Proof. done. Qed.

Lemma char_toks_other c : c <> LF -> char_toks c = [Chr c].
Proof. intros Hc. unfold char_toks. by case_decide. Qed.

Lemma lines_toks_from cur s :
  concat (map line_toks (lines_from cur (s ++ [LF]))) = map Chr cur ++ flat_map char_toks (s ++ [LF]).
Proof.
  revert cur; induction s as [|c s IH]; intros cur; cbn [app flat_map lines_from].
  - rewrite decide_True, char_toks_LF by done. unfold line_toks. simpl.
    by rewrite app_nil_r, map_app, <-app_assoc.
  - destruct (decide (c = LF)) as [->|Hc].
    + rewrite char_toks_LF. simpl. rewrite IH. unfold line_toks.
      by rewrite map_app, <-!app_assoc.
    + rewrite char_toks_other, IH, map_app by done. by rewrite <-app_assoc.
Qed.

(** The inputs the reader sees for a text whose last line is complete. *)
Lemma iter_lines_toks s :
  s = [] \/ (exists s', s = s' ++ [LF]) ->
  concat (map line_toks (iter_lines s)) = flat_map char_toks s.
Proof.
  intros [-> | [s' ->]]; [done|]. unfold iter_lines. by rewrite lines_toks_from.
Qed.

(** ** Dialects for which the round trip holds *)

(** The excel dialect and its variants: a quote character with doubling,
    no escape character, no skipped spaces, QUOTE_MINIMAL, [\r\n] as
    terminator, and delimiter and quote distinct from each other and from
    the newline characters (and from NUL where NUL is an error). *)
Record dialect_ok (d : dialect) (rt : runtime) (q : ascii) : Prop := {
  ok_quotechar : d.(quotechar) = Some q;
  ok_escapechar : d.(escapechar) = None;
  ok_doublequote : d.(doublequote) = true;
  ok_skipinitialspace : d.(skipinitialspace) = false;
  ok_quoting : d.(quoting) = QUOTE_MINIMAL;
  ok_lineterminator : d.(lineterminator) = [CR; LF];
  ok_delim_q : d.(delimiter) <> q;
  ok_delim_CR : d.(delimiter) <> CR;
  ok_delim_LF : d.(delimiter) <> LF;
  ok_q_CR : q <> CR;
  ok_q_LF : q <> LF;
  ok_delim_nul : nul_error rt = true -> d.(delimiter) <> NUL;
  ok_q_nul : nul_error rt = true -> q <> NUL
}.

Section Roundtrip.
Context (d : dialect) (rt : runtime) (q : ascii) (Hd : dialect_ok d rt q).

Definition nul_ok (c : ascii) : Prop := nul_error rt = true -> c <> NUL.

(** A field the reader gives back unchanged. *)
Definition field_ok (f : text) : Prop :=
  length f <= rt.(field_limit) /\ (CR ∉ f) /\ Forall nul_ok f.

(** A character the writer leaves unquoted. *)
Definition plain (c : ascii) : Prop := c <> d.(delimiter) /\ c <> q /\ c <> CR /\ c <> LF.

Ltac dialect_facts :=
  pose proof (ok_quotechar _ _ _ Hd); pose proof (ok_escapechar _ _ _ Hd);
  pose proof (ok_doublequote _ _ _ Hd); pose proof (ok_skipinitialspace _ _ _ Hd);
  pose proof (ok_quoting _ _ _ Hd); pose proof (ok_delim_q _ _ _ Hd);
  pose proof (ok_delim_CR _ _ _ Hd); pose proof (ok_delim_LF _ _ _ Hd);
  pose proof (ok_q_CR _ _ _ Hd); pose proof (ok_q_LF _ _ _ Hd);
  pose proof (ok_delim_nul _ _ _ Hd); pose proof (ok_q_nul _ _ _ Hd).

(** Evaluate one transition of the reader under the dialect's facts:
    every test of the transition is decided by a fact in the context. *)
Ltac step_tac :=
  dialect_facts; unfold nul_ok in *;
  unfold process_input, parse_process_char, start_field, in_field, parse_add_char,
    parse_save_field, with_state, quote_enabled, is_char, is_crlf;
  cbn [state fields field length app];
  rewrite ?(ok_quotechar _ _ _ Hd), ?(ok_escapechar _ _ _ Hd), ?(ok_doublequote _ _ _ Hd),
    ?(ok_skipinitialspace _ _ _ Hd), ?(ok_quoting _ _ _ Hd);
  destruct (nul_error rt); cbn [andb orb negb];
  repeat match goal with H : true = true -> _ |- _ => specialize (H eq_refl) end;
  repeat match goal with
  | |- context [bool_decide ?P] =>
      first [ rewrite (bool_decide_eq_false_2 P) by (first [congruence | lia])
            | rewrite (bool_decide_eq_true_2 P) by (first [congruence | lia]) ]
  end; rewrite ?andb_false_r; cbn [andb orb negb rbind state fields field]; try done.

Lemma tr_plain_in_field fs f c :
  plain c -> nul_ok c -> length f < rt.(field_limit) ->
  process_input d rt (mk_reader IN_FIELD fs f) c = Ok (mk_reader IN_FIELD fs (f ++ [c])).
Proof. intros (? & ? & ? & ?) ? ?. step_tac. Qed.

Lemma tr_plain_start_field fs c :
  plain c -> nul_ok c -> 0 < rt.(field_limit) ->
  process_input d rt (mk_reader START_FIELD fs []) c = Ok (mk_reader IN_FIELD fs [c]).
Proof. intros (? & ? & ? & ?) ? ?. step_tac. Qed.

Lemma tr_open_quote fs :
  process_input d rt (mk_reader START_FIELD fs []) q = Ok (mk_reader IN_QUOTED_FIELD fs []).
Proof. step_tac. Qed.

Lemma tr_in_quoted fs f c :
  c <> q -> nul_ok c -> length f < rt.(field_limit) ->
  process_input d rt (mk_reader IN_QUOTED_FIELD fs f) c =
  Ok (mk_reader IN_QUOTED_FIELD fs (f ++ [c])).
Proof. intros ? ? ?. step_tac. Qed.

Lemma tr_quote_in_quoted fs f :
  process_input d rt (mk_reader IN_QUOTED_FIELD fs f) q = Ok (mk_reader QUOTE_IN_QUOTED_FIELD fs f).
Proof. step_tac. Qed.

Lemma tr_doubled_quote fs f :
  length f < rt.(field_limit) ->
  process_input d rt (mk_reader QUOTE_IN_QUOTED_FIELD fs f) q =
  Ok (mk_reader IN_QUOTED_FIELD fs (f ++ [q])).
Proof. intros ?. step_tac. Qed.

(** Where the reader stands after the characters of a field. *)
Definition end_state (b : bool) (f : text) : parser_state :=
  if b then QUOTE_IN_QUOTED_FIELD else match f with [] => START_FIELD | _ => IN_FIELD end.

Lemma tr_delimiter b fs f :
  process_input d rt (mk_reader (end_state b f) fs f) d.(delimiter) =
  Ok (mk_reader START_FIELD (fs ++ [f]) []).
Proof. unfold end_state. destruct b, f; step_tac. Qed.

Lemma tr_newline b fs f :
  process_input d rt (mk_reader (end_state b f) fs f) LF = Ok (mk_reader EAT_CRNL (fs ++ [f]) []).
Proof. unfold end_state. destruct b, f; step_tac. Qed.

Lemma tr_eol_eat fs :
  parse_process_char d rt (mk_reader EAT_CRNL fs []) EOL = Ok (mk_reader START_RECORD fs []).
Proof. done. Qed.

Lemma tr_start_record fs c :
  c <> CR -> c <> LF ->
  process_input d rt (mk_reader START_RECORD fs []) c =
  process_input d rt (mk_reader START_FIELD fs []) c.
Proof.
  intros ? ?. unfold process_input, parse_process_char, is_crlf. cbn [state].
  by rewrite (bool_decide_eq_false_2 (c = LF)), (bool_decide_eq_false_2 (c = CR)).
Qed.

Lemma tr_empty_record : process_input d rt parse_reset LF = Ok (mk_reader EAT_CRNL [] []).
Proof. step_tac. Qed.

(** ** The writer's encoding, field by field *)

Definition double_q (f : text) : text :=
  flat_map (fun c => if decide (c = q) then [q; q] else [c]) f.

Definition enc (b : bool) (f : text) : text := if b then q :: double_q f ++ [q] else f.

Definition join_tail (efs : list (bool * text)) : text :=
  flat_map (fun e => d.(delimiter) :: enc e.1 e.2) efs.

Definition join_enc (efs : list (bool * text)) : text :=
  match efs with [] => [] | e :: efs' => enc e.1 e.2 ++ join_tail efs' end.

Definition efield_ok (e : bool * text) : Prop :=
  field_ok e.2 /\ (e.1 = false -> Forall plain e.2).

(** ** The reader on the writer's encoding *)

Lemma tok_step r c r' ts :
  process_input d rt r c = Ok r' -> tok_loop d rt r (Chr c :: ts) = tok_loop d rt r' ts.
Proof. intros H. simpl. by rewrite H. Qed.

Lemma tok_eol_in_quoted fs f ts :
  tok_loop d rt (mk_reader IN_QUOTED_FIELD fs f) (EOL :: ts) =
  tok_loop d rt (mk_reader IN_QUOTED_FIELD fs f) ts.
Proof. done. Qed.

Lemma length_app_lt (f cs : text) c n :
  length (f ++ c :: cs) <= n -> length f < n /\ length ((f ++ [c]) ++ cs) <= n.
Proof. rewrite <-app_assoc, !length_app. simpl. lia. Qed.

Lemma toks_plain cs fs f ts :
  Forall plain cs -> Forall nul_ok cs -> length (f ++ cs) <= rt.(field_limit) ->
  tok_loop d rt (mk_reader IN_FIELD fs f) (flat_map char_toks cs ++ ts) =
  tok_loop d rt (mk_reader IN_FIELD fs (f ++ cs)) ts.
Proof.
  revert f; induction cs as [|c cs IH]; intros f Hp Hn Hlen; cbn [flat_map app].
  { by rewrite app_nil_r. }
  apply Forall_cons in Hp as [Hc Hp]. apply Forall_cons in Hn as [Hnc Hn].
  apply length_app_lt in Hlen as [Hlt Hlen].
  rewrite char_toks_other by apply Hc. cbn [app].
  rewrite (tok_step _ _ _ _ (tr_plain_in_field _ _ _ Hc Hnc Hlt)), IH by done.
  by rewrite <-app_assoc.
Qed.

Lemma double_q_cons c cs :
  double_q (c :: cs) = (if decide (c = q) then [q; q] else [c]) ++ double_q cs.
Proof. done. Qed.

Lemma toks_quoted cs fs f ts :
  CR ∉ cs -> Forall nul_ok cs -> length (f ++ cs) <= rt.(field_limit) ->
  tok_loop d rt (mk_reader IN_QUOTED_FIELD fs f) (flat_map char_toks (double_q cs) ++ ts) =
  tok_loop d rt (mk_reader IN_QUOTED_FIELD fs (f ++ cs)) ts.
Proof.
  pose proof (ok_q_LF _ _ _ Hd).
  revert f; induction cs as [|c cs IH]; intros f Hcr Hn Hlen.
  { by rewrite app_nil_r. }
  apply not_elem_of_cons in Hcr as [Hc Hcr]. apply Forall_cons in Hn as [Hnc Hn].
  apply length_app_lt in Hlen as [Hlt Hlen].
  rewrite double_q_cons, flat_map_app, <-app_assoc. case_decide as Hq; [subst c|].
  - cbn [flat_map app]. rewrite char_toks_other by done. cbn [app].
    rewrite (tok_step _ _ _ _ (tr_quote_in_quoted _ _)).
    rewrite (tok_step _ _ _ _ (tr_doubled_quote _ _ Hlt)).
    rewrite IH by done. by rewrite <-app_assoc.
  - cbn [flat_map app]. rewrite app_nil_r. destruct (decide (c = LF)) as [->|Hlf].
    + rewrite char_toks_LF. cbn [app].
      rewrite (tok_step _ _ _ _ (tr_in_quoted _ _ _ Hq Hnc Hlt)), tok_eol_in_quoted.
      rewrite IH by done. by rewrite <-app_assoc.
    + rewrite char_toks_other by done. cbn [app].
      rewrite (tok_step _ _ _ _ (tr_in_quoted _ _ _ Hq Hnc Hlt)).
      rewrite IH by done. by rewrite <-app_assoc.
Qed.

Lemma toks_field b f fs ts :
  efield_ok (b, f) ->
  tok_loop d rt (mk_reader START_FIELD fs []) (flat_map char_toks (enc b f) ++ ts) =
  tok_loop d rt (mk_reader (end_state b f) fs f) ts.
Proof.
  pose proof (ok_q_LF _ _ _ Hd). intros [(Hlen & Hcr & Hn) Hplain]; simpl in *.
  destruct b; simpl.
  - rewrite flat_map_app, char_toks_other by done. cbn [app].
    rewrite <-app_assoc, (tok_step _ _ _ _ (tr_open_quote _)).
    rewrite (toks_quoted _ _ [] _ Hcr Hn Hlen). cbn [app flat_map].
    rewrite char_toks_other by done. cbn [app].
    by rewrite (tok_step _ _ _ _ (tr_quote_in_quoted _ _)).
  - specialize (Hplain eq_refl). destruct f as [|c cs]; [done|].
    apply Forall_cons in Hplain as [Hc Hp]. apply Forall_cons in Hn as [Hnc Hn'].
    cbn [flat_map]. rewrite char_toks_other by apply Hc. cbn [app].
    simpl in Hlen. rewrite (tok_step _ _ _ _ (tr_plain_start_field _ _ Hc Hnc ltac:(lia))).
    by rewrite (toks_plain cs _ [c]) by done.
Qed.

Lemma toks_tail efs b f fs ts :
  Forall efield_ok efs ->
  tok_loop d rt (mk_reader (end_state b f) fs f) (flat_map char_toks (join_tail efs ++ [LF]) ++ ts) =
  let* rows := tok_loop d rt parse_reset ts in Ok ((fs ++ f :: map snd efs) :: rows).
Proof.
  pose proof (ok_delim_LF _ _ _ Hd).
  revert b f fs; induction efs as [|[b' f'] efs IH]; intros b f fs Hok.
  - unfold join_tail. cbn [flat_map app]. rewrite char_toks_LF. cbn [app].
    rewrite (tok_step _ _ _ _ (tr_newline b fs f)). cbn [tok_loop]. rewrite tr_eol_eat.
    cbn. by destruct (tok_loop d rt parse_reset ts).
  - apply Forall_cons in Hok as [He Hok].
    unfold join_tail. cbn [flat_map]. fold (join_tail efs).
    rewrite <-app_assoc. cbn [app flat_map]. rewrite char_toks_other by done. cbn [app].
    rewrite (tok_step _ _ _ _ (tr_delimiter _ _ _)).
    rewrite flat_map_app, <-app_assoc, toks_field by done.
    rewrite IH by done. simpl. by rewrite <-app_assoc.
Qed.

(** The first character of a nonempty record is never a newline, so
    [START_RECORD] treats it as [START_FIELD] does. *)
Lemma join_enc_first b f efs :
  efield_ok (b, f) -> (b, f) :: efs <> [(false, [])] ->
  exists c t, join_enc ((b, f) :: efs) ++ [LF] = c :: t /\ c <> CR /\ c <> LF.
Proof.
  pose proof (ok_q_CR _ _ _ Hd). pose proof (ok_q_LF _ _ _ Hd).
  pose proof (ok_delim_CR _ _ _ Hd). pose proof (ok_delim_LF _ _ _ Hd).
  intros [_ Hplain] Hne; simpl in Hplain. destruct b; simpl; [by eauto|].
  destruct f as [|c cs].
  - destruct efs as [|e efs]; [done|]. simpl. eauto.
  - specialize (Hplain eq_refl). apply Forall_cons in Hplain as [(_ & _ & ? & ?) _].
    simpl. eauto.
Qed.

Lemma toks_row efs ts :
  Forall efield_ok efs -> efs <> [(false, [])] ->
  tok_loop d rt parse_reset (flat_map char_toks (join_enc efs ++ [LF]) ++ ts) =
  let* rows := tok_loop d rt parse_reset ts in Ok (map snd efs :: rows).
Proof.
  intros Hok Hne. destruct efs as [|[b f] efs].
  { cbn [join_enc flat_map app]. rewrite char_toks_LF. cbn [app].
    rewrite (tok_step _ _ _ _ tr_empty_record). cbn [tok_loop]. rewrite tr_eol_eat.
    cbn. by destruct (tok_loop d rt parse_reset ts). }
  apply Forall_cons in Hok as [He Hok].
  destruct (join_enc_first b f efs He Hne) as (c & t & Ht & Hcr & Hlf).
  transitivity (tok_loop d rt (mk_reader START_FIELD [] [])
                  (flat_map char_toks (join_enc ((b, f) :: efs) ++ [LF]) ++ ts)).
  { rewrite Ht. cbn [flat_map]. rewrite char_toks_other by done. cbn [app tok_loop].
    unfold parse_reset. by rewrite (tr_start_record [] c Hcr Hlf). }
  cbn [join_enc fst snd]. rewrite <-app_assoc, flat_map_app, <-app_assoc.
  rewrite toks_field by done. by rewrite toks_tail.
Qed.

(** ** What [csv.writer] writes *)

Lemma special_true_iff c :
  special d c = true <-> c = d.(delimiter) \/ c = q \/ c = CR \/ c = LF.
Proof.
  unfold special, is_char.
  rewrite (ok_escapechar _ _ _ Hd), (ok_quotechar _ _ _ Hd), (ok_lineterminator _ _ _ Hd).
  rewrite !orb_true_iff, !bool_decide_eq_true, elem_of_cons, list_elem_of_singleton.
  naive_solver.
Qed.

Lemma plain_iff c : plain c <-> special d c = false.
Proof. rewrite <-not_true_iff_false, special_true_iff. unfold plain. naive_solver. Qed.

Lemma special_q : special d q = true.
Proof. apply special_true_iff. auto. Qed.

Lemma double_q_unquoted f : existsb (special d) f = false -> double_q f = f.
Proof.
  induction f as [|c f IH]; [done|]. cbn [existsb]. intros [Hc Hf]%orb_false_iff.
  rewrite double_q_cons, IH by done. rewrite decide_False; [done|].
  intros ->. rewrite special_q in Hc. discriminate.
Qed.

Definition efield (f : text) : bool * text := (existsb (special d) f, f).

(** A row of one empty field is written as two quotes ([writerow]'s
    special case); every other row field by field. *)
Definition writer_efields (row : list text) : list (bool * text) :=
  if bool_decide (row = [[]]) then [(true, [])] else map efield row.

Lemma join_chars_spec f : join_chars d f = Ok (double_q f, existsb (special d) f).
Proof.
  pose proof (ok_delim_q _ _ _ Hd).
  induction f as [|c f IH]; [done|]. cbn [join_chars]. rewrite IH. cbn [rbind].
  rewrite double_q_cons, (ok_quoting _ _ _ Hd), (ok_quotechar _ _ _ Hd),
    (ok_escapechar _ _ _ Hd), (ok_doublequote _ _ _ Hd).
  unfold is_char. cbn [existsb].
  destruct (special d c) eqn:Hs; rewrite ?bool_decide_eq_false_2 by done; cbn.
  - case_decide; [subst c; by rewrite bool_decide_eq_true_2|].
    by rewrite bool_decide_eq_false_2 by congruence.
  - rewrite decide_False; [done|]. intros ->. rewrite special_q in Hs. discriminate.
Qed.

Lemma join_append_spec first f quoted :
  join_append d first f quoted =
  Ok ((if first then [] else [d.(delimiter)]) ++ enc (quoted || existsb (special d) f) f).
Proof.
  unfold join_append. rewrite join_chars_spec, (ok_quotechar _ _ _ Hd). cbn.
  destruct (quoted || _) eqn:Hq; [done|].
  apply orb_false_iff in Hq as [_ Hq]. by rewrite double_q_unquoted.
Qed.

Lemma join_fields_tail row : join_fields d false row = Ok (join_tail (map efield row)).
Proof.
  induction row as [|f row IH]; [done|]. cbn [join_fields].
  rewrite join_append_spec, IH, (ok_quoting _ _ _ Hd). cbn. done.
Qed.

Lemma join_enc_nil f row : join_enc (map efield (f :: row)) = [] -> f = [] /\ row = [].
Proof.
  cbn. unfold efield, enc. destruct (existsb _ _); [done|].
  destruct f, row; done.
Qed.

Lemma writerow_spec row : writerow d row = Ok (join_enc (writer_efields row) ++ [CR; LF]).
Proof.
  unfold writerow, writer_efields. rewrite (ok_lineterminator _ _ _ Hd).
  destruct row as [|f row]; [done|].
  assert (join_fields d true (f :: row) = Ok (join_enc (map efield (f :: row)))) as ->.
  { cbn [join_fields]. rewrite join_append_spec, join_fields_tail, (ok_quoting _ _ _ Hd).
    done. }
  cbn [rbind]. rewrite (ok_quoting _ _ _ Hd).
  destruct (decide (f :: row = [[]])) as [Heq|Hne].
  - injection Heq as -> ->. rewrite join_append_spec. done.
  - rewrite (bool_decide_eq_false_2 (f :: row = [[]])) by done.
    rewrite (bool_decide_eq_false_2 (join_enc _ = [])); [by rewrite andb_false_r|].
    intros [-> ->]%join_enc_nil. done.
Qed.

Lemma writerows_spec rows :
  writerows d rows = Ok (concat (map (fun row => join_enc (writer_efields row) ++ [CR; LF]) rows)).
Proof.
  induction rows as [|row rows IH]; [done|]. cbn [writerows]. rewrite writerow_spec, IH.
  cbn. by rewrite <-app_assoc.
Qed.

(** ** Reading back what was written *)

Lemma plain_of_unquoted f : existsb (special d) f = false -> Forall plain f.
Proof.
  induction f as [|c f IH]; cbn [existsb]; [constructor|].
  intros [Hc Hf]%orb_false_iff. constructor; [by apply plain_iff|auto].
Qed.

Lemma field_ok_nil : field_ok [].
Proof. split; [simpl; lia|split; [apply not_elem_of_nil|constructor]]. Qed.

Lemma writer_efields_ok row :
  Forall field_ok row ->
  Forall efield_ok (writer_efields row) /\ writer_efields row <> [(false, [])] /\
  map snd (writer_efields row) = row.
Proof.
  intros Hrow. unfold writer_efields. case_bool_decide as Hr.
  { subst. split; [|done]. constructor; [|constructor]. split; [apply field_ok_nil|done]. }
  split; [|split].
  - apply Forall_map. eapply Forall_impl; [done|]. intros f Hf. split; [done|].
    apply plain_of_unquoted.
  - destruct row as [|f [|f' row]]; [done| |done]. unfold efield. cbn.
    intros [= Hb ->]. done.
  - rewrite map_map. apply map_id.
Qed.

Lemma enc_no_CR b f : CR ∉ f -> Forall (fun c => c <> CR) (enc b f).
Proof.
  pose proof (ok_q_CR _ _ _ Hd). rewrite not_elem_of_Forall_ne. intros Hf.
  assert (Forall (fun c => c <> CR) (double_q f)).
  { apply Forall_flat_map. eapply Forall_impl; [done|]. intros c Hc. case_decide; repeat constructor; done. }
  destruct b; [|done]. constructor; [done|]. apply Forall_app; split; [done|by constructor].
Qed.

Lemma join_enc_no_CR efs :
  Forall (fun e => CR ∉ e.2) efs -> CR ∉ join_enc efs.
Proof.
  pose proof (ok_delim_CR _ _ _ Hd). intros Hefs. apply not_elem_of_Forall_ne.
  destruct Hefs as [|e efs He Hefs]; [constructor|]. simpl. apply Forall_app.
  split; [by apply enc_no_CR|]. apply Forall_flat_map. eapply Forall_impl; [done|].
  intros e' He'. constructor; [done|]. by apply enc_no_CR.
Qed.

(** Universal newlines turn each written [\r\n] into [\n]. *)
Lemma translate_rows {A} (g : A -> text) (xs : list A) :
  Forall (fun x => CR ∉ g x) xs ->
  translate_newlines (concat (map (fun x => g x ++ [CR; LF]) xs)) =
  concat (map (fun x => g x ++ [LF]) xs).
Proof.
  induction 1 as [|x xs Hx Hxs IH]; [done|]. cbn. rewrite <-!app_assoc.
  by rewrite translate_newlines_crlf, IH.
Qed.

Lemma rows_text_shape {A} (g : A -> text) (xs : list A) :
  let s := concat (map (fun x => g x ++ [LF]) xs) in s = [] \/ exists s', s = s' ++ [LF].
Proof.
  induction xs as [|x xs IH]; simpl; [by left|]. right.
  destruct IH as [-> | [s' ->]].
  - exists (g x). by rewrite app_nil_r.
  - exists (g x ++ [LF] ++ s'). by rewrite <-!app_assoc.
Qed.

Lemma tok_loop_rows rows :
  Forall (Forall field_ok) rows ->
  tok_loop d rt parse_reset
    (flat_map char_toks (concat (map (fun row => join_enc (writer_efields row) ++ [LF]) rows)))
  = Ok rows.
Proof.
  induction 1 as [|row rows Hrow Hrows IH]; [done|].
  destruct (writer_efields_ok row Hrow) as (Hok & Hne & Hsnd).
  cbn [map concat]. rewrite flat_map_app, toks_row, IH by done. cbn. by rewrite Hsnd.
Qed.

Lemma write_read rows :
  Forall (Forall field_ok) rows ->
  exists s, writerows d rows = Ok s /\
    read_csv d rt (iter_lines (translate_newlines s)) = Ok rows.
Proof.
  intros Hrows. rewrite writerows_spec. eexists; split; [done|].
  rewrite (translate_rows (fun row => join_enc (writer_efields row)) rows).
  - unfold read_csv. rewrite read_loop_tok, iter_lines_toks.
    + by apply tok_loop_rows.
    + apply (rows_text_shape (fun row => join_enc (writer_efields row)) rows).
  - eapply Forall_impl; [done|]. intros row Hrow.
    apply join_enc_no_CR. destruct (writer_efields_ok row Hrow) as (Hok & _ & _).
    eapply Forall_impl; [done|]. by intros [b f] [(_ & Hcr & _) _].
Qed.

End Roundtrip.

(** C2: What [csv.writer] wrote, [open()] and [csv.reader] read back: for
    every dialect meeting [dialect_ok] (the excel dialect does), the
    writer succeeds and the reader returns exactly the rows written,
    for every row whose fields have no carriage return and fit the field
    limit. *)
Theorem csv_write_read d rt q rows :
  dialect_ok d rt q -> Forall (Forall (field_ok rt)) rows ->
  exists s, writerows d rows = Ok s /\
    read_csv d rt (iter_lines (translate_newlines s)) = Ok rows.
Proof. intros Hd. exact (write_read d rt q Hd rows). Qed.

#[export] Instance field_ok_dec rt f : Decision (field_ok rt f).
Proof. unfold field_ok, nul_ok. solve_decision. Defined.

(** The excel dialect, the one of the writer and of [process_logs.py]'s
    reader, satisfies the hypotheses of the round trip. *)
Lemma excel_ok rt : dialect_ok excel rt DQUOTE.
Proof. split; cbn; try done; intros _ [=]. Qed.

Lemma log_dialect_excel : log_dialect = excel.
Proof. reflexivity. Qed.

(** ** Concrete runs *)

(** Rows like those of an evaluator log, with a comma, a quote and a
    newline inside fields, an empty field, a row of one empty field and
    an empty row. *)
Definition sample_rows : list (list text) :=
  [[txt "t"; txt "step"; txt "x"]; [txt "0"; txt "a,b"; []]; [[]]; [];
   [[DQUOTE]; txt "l1" ++ [LF] ++ txt "l2"]].

Lemma csv_write_read_witness :
  dialect_ok excel default_runtime DQUOTE /\
  Forall (Forall (field_ok default_runtime)) sample_rows /\
  exists s, writerows excel sample_rows = Ok s /\
    read_csv excel default_runtime (iter_lines (translate_newlines s)) = Ok sample_rows.
Proof.
  assert (Hrows : Forall (Forall (field_ok default_runtime)) sample_rows).
  { apply (bool_decide_unpack (Forall (Forall (field_ok default_runtime)) sample_rows)).
    vm_compute. reflexivity. }
  assert (Hd : dialect_ok excel default_runtime DQUOTE).
  { split; cbn; try done; intros _ [=]. }
  split; [exact Hd|]. split; [exact Hrows|].
  exact (csv_write_read excel default_runtime DQUOTE sample_rows Hd Hrows).
Defined.
