(* ===== verification/PyNum.v ===== *)
(** * PyNum: [int()] and [str()] on integers

    [process_logs.py] converts column 1 of each evaluator row with
    [int(row[1])] and column 6 with [float(row[6])]; the logger that wrote
    those columns produced them with [str()].  This file models CPython's
    conversions ([Objects/longobject.c]: [PyLong_FromUnicodeObject],
    [PyLong_FromString], [long_to_decimal_string]) on Latin-1 text:

    - [py_int]: a non-ASCII text first goes through
      [_PyUnicode_TransformDecimalAndSpaceToASCII] ([to_ascii]): characters
      below 127 are kept, Unicode whitespace becomes a space, and the
      first other character becomes [?] and ends the buffer; an ASCII
      text is left unchanged;
      the C scan stops at a NUL; leading and trailing ASCII whitespace, an
      optional sign, decimal digits with single underscores between them;
      more digits than [sys.get_int_max_str_digits()] (4300 by default, 0
      for no limit, checked only above 640 digits) raise a distinct
      [ValueError] before trailing characters are examined.
    - [py_str_int]: the decimal digits of the absolute value, a minus
      sign, and the same digit limit.

    Integers are [Z]: Python integers are unbounded. *)

From S2P Require Import Prelude.
From Stdlib Require Import DecimalN.

Module PyInt.

(** ** Characters *)

Definition code (c : ascii) : nat := nat_of_ascii c.

(** [Py_UNICODE_ISSPACE] on code points below 256. *)
Definition unicode_isspace (c : ascii) : bool :=
  let n := code c in
  bool_decide (9 <= n <= 13) || bool_decide (28 <= n <= 32) || bool_decide (n = 133)
  || bool_decide (n = 160).

(** [Py_ISSPACE]: the C locale's whitespace. *)
Definition c_isspace (c : ascii) : bool :=
  let n := code c in bool_decide (9 <= n <= 13) || bool_decide (n = 32).

Definition is_digit (c : ascii) : bool := bool_decide (48 <= code c <= 57).

Definition is_ascii (s : text) : bool := forallb (fun c => bool_decide (code c < 128)) s.

(** The loop of [_PyUnicode_TransformDecimalAndSpaceToASCII]: a
    character below 127 is kept, Unicode whitespace becomes a space, and
    any other character becomes [?] and ends the result (no character
    below 256 outside ASCII is a decimal digit). *)
Fixpoint transform_chars (s : text) : text :=
  match s with
  | [] => []
  | c :: s' =>
      if bool_decide (code c < 127) then c :: transform_chars s'
      else if unicode_isspace c then " "%char :: transform_chars s'
      else ["?"%char]
  end.

(** [_PyUnicode_TransformDecimalAndSpaceToASCII]: an ASCII string is
    returned as it is. *)
Definition to_ascii (s : text) : text := if is_ascii s then s else transform_chars s.

Fixpoint take_until_nul (s : text) : text :=
  match s with
  | [] => []
  | c :: s' => if bool_decide (c = "000"%char) then [] else c :: take_until_nul s'
  end.

Fixpoint skip_space (s : text) : text :=
  match s with
  | c :: s' => if c_isspace c then skip_space s' else s
  | [] => []
  end.

(** ** Digits *)

Definition digit_uint (c : ascii) (u : Decimal.uint) : Decimal.uint :=
  match code c with
  | 48 => Decimal.D0 u | 49 => Decimal.D1 u | 50 => Decimal.D2 u | 51 => Decimal.D3 u
  | 52 => Decimal.D4 u | 53 => Decimal.D5 u | 54 => Decimal.D6 u | 55 => Decimal.D7 u
  | 56 => Decimal.D8 u | _ => Decimal.D9 u
  end.

(** The value of a string of decimal digits. *)
Definition digits_value (ds : text) : N := N.of_uint (fold_right digit_uint Decimal.Nil ds).

(** The scan loop of [PyLong_FromString] after the sign: digits with
    single underscores between them.  [None]: an underscore follows an
    underscore or ends the digits ([goto onError]). *)
Fixpoint scan_digits (prev_us : bool) (s : text) : option (text * text) :=
  match s with
  | c :: s' =>
      if is_digit c then
        match scan_digits false s' with
        | Some (ds, r) => Some (c :: ds, r)
        | None => None
        end
      else if bool_decide (c = "_"%char) then
        if prev_us then None else scan_digits true s'
      else if prev_us then None else Some ([], s)
  | [] => if prev_us then None else Some ([], [])
  end.

(** Above this many digits the limit is consulted
    ([_PY_LONG_MAX_STR_DIGITS_THRESHOLD]). *)
Definition max_str_digits_threshold : nat := 640.

Definition default_max_str_digits : nat := 4300.

Definition over_limit (max_digits n : nat) : bool :=
  bool_decide (max_str_digits_threshold < n) && bool_decide (0 < max_digits)
  && bool_decide (max_digits < n).

(** ** [int(s)] *)

(** The optional sign of [PyLong_FromString]. *)
Definition parse_sign (cs : text) : bool * text :=
  match cs with
  | c :: r => if bool_decide (c = "-"%char) then (true, r)
              else if bool_decide (c = "+"%char) then (false, r) else (false, cs)
  | [] => (false, cs)
  end.

Definition py_int (max_digits : nat) (s : text) : res Z :=
  let buffer := to_ascii s in
  let cs := take_until_nul buffer in
  let invalid := Raise (ValueError (IntLiteral s)) in
  let cs1 := skip_space cs in
  let '(neg, cs2) := parse_sign cs1 in
  match cs2 with
  | c :: _ => if bool_decide (c = "_"%char) then invalid else
      match scan_digits false cs2 with
      | None => invalid
      | Some (ds, rest) =>
          match ds with
          | [] => invalid
          | _ =>
              if over_limit max_digits (length ds) then
                Raise (ValueError (IntDigitLimit max_digits (length ds)))
              else if bool_decide (skip_space rest = [] /\ length cs = length buffer) then
                let v := Z.of_N (digits_value ds) in Ok (if neg then (- v)%Z else v)
              else invalid
          end
      end
  | [] => invalid
  end.

(** ** [str(n)] *)

Fixpoint uint_chars (u : Decimal.uint) : text :=
  match u with
  | Decimal.Nil => []
  | Decimal.D0 u => "0"%char :: uint_chars u | Decimal.D1 u => "1"%char :: uint_chars u
  | Decimal.D2 u => "2"%char :: uint_chars u | Decimal.D3 u => "3"%char :: uint_chars u
  | Decimal.D4 u => "4"%char :: uint_chars u | Decimal.D5 u => "5"%char :: uint_chars u
  | Decimal.D6 u => "6"%char :: uint_chars u | Decimal.D7 u => "7"%char :: uint_chars u
  | Decimal.D8 u => "8"%char :: uint_chars u | Decimal.D9 u => "9"%char :: uint_chars u
  end.

Definition py_str_int (max_digits : nat) (n : Z) : res text :=
  let ds := uint_chars (N.to_uint (Z.abs_N n)) in
  if over_limit max_digits (length ds) then Raise (ValueError (IntStrDigitLimit max_digits))
  else Ok ((if bool_decide (n < 0)%Z then ["-"%char] else []) ++ ds).

(** ** Lemmas *)

Lemma is_digit_code c : is_digit c = true -> 48 <= code c <= 57.
Proof. unfold is_digit. by rewrite bool_decide_eq_true. Qed.

Lemma to_ascii_id s : Forall (fun c => code c < 128) s -> to_ascii s = s.
Proof.
  intros Hs. unfold to_ascii, is_ascii.
  replace (forallb _ s) with true; [done|]. symmetry. apply forallb_forall.
  intros c Hc%list_elem_of_In. apply bool_decide_eq_true_2. rewrite Forall_forall in Hs. by apply Hs.
Qed.

Lemma digits_ascii ds : Forall (fun c => is_digit c = true) ds -> Forall (fun c => code c < 128) ds.
Proof. intros Hds. eapply Forall_impl; [exact Hds|]. intros c Hc%is_digit_code. lia. Qed.

Lemma uint_chars_digits u : Forall (fun c => is_digit c = true) (uint_chars u).
Proof. induction u; simpl; repeat constructor; done. Qed.

Lemma digits_value_uint u : digits_value (uint_chars u) = N.of_uint u.
Proof.
  unfold digits_value. f_equal. induction u; simpl; by rewrite ?IHu.
Qed.

Lemma uint_chars_to_uint_nonnil n : uint_chars (N.to_uint n) <> [].
Proof.
  destruct (N.to_uint n) eqn:E; [|done..].
  pose proof (Unsigned.of_to n) as Hn. rewrite E in Hn. simpl in Hn. subst n.
  discriminate E.
Qed.

Lemma scan_digits_all ds :
  Forall (fun c => is_digit c = true) ds -> scan_digits false ds = Some (ds, []).
Proof. induction 1 as [|c ds Hc Hds IH]; simpl; [done|]. by rewrite Hc, IH. Qed.


Lemma take_until_nul_digits ds :
  Forall (fun c => is_digit c = true) ds -> take_until_nul ds = ds.
Proof.
  induction 1 as [|c ds Hc Hds IH]; simpl; [done|].
  rewrite bool_decide_eq_false_2, IH; [done|]. intros ->. discriminate Hc.
Qed.

Lemma canonical_first c :
  is_digit c = true ->
  c_isspace c = false /\ bool_decide (c = "-"%char) = false /\
  bool_decide (c = "+"%char) = false /\ bool_decide (c = "_"%char) = false.
Proof.
  intros Hc. pose proof (is_digit_code c Hc) as Hcode.
  unfold c_isspace. rewrite !bool_decide_eq_false_2; [done|..];
    try (intros ->; vm_compute in Hcode; lia); lia.
Qed.

Lemma take_until_nul_cons x s :
  x <> "000"%char -> take_until_nul (x :: s) = x :: take_until_nul s.
Proof. intros Hx. simpl. by rewrite bool_decide_eq_false_2. Qed.

Lemma digits_no_nul ds :
  Forall (fun c => is_digit c = true) ds -> take_until_nul ds = ds.
Proof. apply take_until_nul_digits. Qed.

(** [int()] on a sign and a nonempty string of digits: the digit limit,
    or the value of the digits. *)
Lemma py_int_canonical max_digits (neg : bool) ds :
  Forall (fun c => is_digit c = true) ds -> ds <> [] ->
  py_int max_digits ((if neg then ["-"%char] else []) ++ ds) =
  if over_limit max_digits (length ds) then
    Raise (ValueError (IntDigitLimit max_digits (length ds)))
  else let v := Z.of_N (digits_value ds) in Ok (if neg then (- v)%Z else v).
Proof.
  intros Hds Hne. destruct ds as [|c ds']; [done|]. clear Hne.
  pose proof Hds as Hds'. apply Forall_cons in Hds' as [Hc _].
  destruct (canonical_first c Hc) as (Hsp & Hm & Hp & Hu).
  unfold py_int. rewrite to_ascii_id.
  2:{ apply Forall_app_2; [destruct neg; repeat constructor; vm_compute; lia|by apply digits_ascii]. }
  destruct neg; cbn [app].
  - rewrite take_until_nul_cons, digits_no_nul by done.
    cbn [skip_space]. replace (c_isspace "-") with false by reflexivity.
    unfold parse_sign. rewrite (bool_decide_eq_true_2 ("-"%char = "-"%char)) by done.
    cbn iota beta. rewrite Hu, scan_digits_all by done.
    destruct (over_limit _ _); [done|]. by rewrite bool_decide_eq_true_2.
  - rewrite digits_no_nul by done. cbn [skip_space]. rewrite Hsp.
    unfold parse_sign. rewrite Hm, Hp. cbn iota beta. rewrite Hu, scan_digits_all by done.
    destruct (over_limit _ _); [done|]. by rewrite bool_decide_eq_true_2.
Qed.

(** Where no character is a digit, the scan finds no digits. *)
Definition no_digit (t : text) : Prop := Forall (fun c => is_digit c = false) t.

Lemma scan_digits_no_digit b t ds r :
  no_digit t -> scan_digits b t = Some (ds, r) -> ds = [].
Proof.
  revert b; induction t as [|c t IH]; intros b Ht; simpl.
  - destruct b; [done|]. by intros [= <- _].
  - apply Forall_cons in Ht as [Hc Ht]. rewrite Hc.
    case_bool_decide; [destruct b; [done|]; by apply IH|].
    destruct b; [done|]. by intros [= <- _].
Qed.

Lemma no_digit_suffix p t : no_digit (p ++ t) -> no_digit t.
Proof. unfold no_digit. rewrite Forall_app. tauto. Qed.

Lemma take_until_nul_prefix t : exists r, t = take_until_nul t ++ r.
Proof.
  induction t as [|c t [r IH]]; simpl; [by exists []|].
  case_bool_decide; [by exists (c :: t)|]. exists r. simpl. by f_equal.
Qed.

Lemma skip_space_suffix t : exists p, t = p ++ skip_space t.
Proof.
  induction t as [|c t [p IH]]; simpl; [by exists []|].
  destruct (c_isspace c); [exists (c :: p); simpl; by f_equal|by exists []].
Qed.

Lemma parse_sign_suffix t : exists p, t = p ++ (parse_sign t).2.
Proof.
  destruct t as [|c t]; simpl; [by exists []|].
  repeat case_bool_decide; simpl; [by exists [c]..|by exists []].
Qed.

Lemma to_ascii_no_digit s : Forall (fun c => is_digit c = false) s ->
  Forall (fun c => is_digit c = false) (to_ascii s).
Proof.
  intros Hs. unfold to_ascii. destruct (is_ascii s); [done|].
  induction Hs as [|c s Hc _ IH]; [constructor|]. cbn.
  repeat case_match; repeat constructor; done.
Qed.

Lemma no_digit_prefix t r : no_digit (t ++ r) -> no_digit t.
Proof. unfold no_digit. rewrite Forall_app. tauto. Qed.

Lemma str_int_roundtrip max_digits n s :
  py_str_int max_digits n = Ok s -> py_int max_digits s = Ok n.
Proof.
  unfold py_str_int. destruct (over_limit _ _) eqn:Hl; [discriminate|]. intros [= <-].
  rewrite py_int_canonical, Hl by (apply uint_chars_digits || apply uint_chars_to_uint_nonnil).
  cbn zeta. rewrite digits_value_uint, Unsigned.of_to, N2Z.inj_abs_N.
  f_equal. case_bool_decide; lia.
Qed.

(** ** Properties *)

(** C8: [int(str(n)) == n] whenever [str(n)] succeeds (at most the digit
    limit): the logger's step counts read back as the same integers. *)
Theorem py_int_str_roundtrip max_digits n s :
  py_str_int max_digits n = Ok s -> py_int max_digits s = Ok n.
Proof. apply str_int_roundtrip. Qed.

(** C16: More decimal digits than [sys.get_int_max_str_digits()] (when the
    limit is on and the count exceeds 640) raise the digit-limit
    [ValueError], whatever the value. *)
Theorem py_int_digit_limit max_digits ds :
  Forall (fun c => is_digit c = true) ds -> over_limit max_digits (length ds) = true ->
  py_int max_digits ds = Raise (ValueError (IntDigitLimit max_digits (length ds))).
Proof.
  intros Hds Hl. pose proof (py_int_canonical max_digits false ds Hds) as Hc.
  rewrite Hl in Hc. apply Hc. intros ->. unfold over_limit in Hl.
  rewrite bool_decide_eq_false_2 in Hl by (simpl; lia). discriminate.
Qed.

(** C17: A cell without any decimal digit is rejected with [ValueError]; it
    is never read as some number. *)
Theorem py_int_no_digit max_digits s :
  no_digit s -> py_int max_digits s = Raise (ValueError (IntLiteral s)).
Proof.
  intros Hs. unfold py_int.
  assert (Hb : no_digit (to_ascii s)) by (by apply to_ascii_no_digit).
  destruct (take_until_nul_prefix (to_ascii s)) as [r1 E1].
  rewrite E1 in Hb. apply no_digit_prefix in Hb.
  destruct (skip_space_suffix (take_until_nul (to_ascii s))) as [p2 E2].
  rewrite E2 in Hb. apply no_digit_suffix in Hb.
  destruct (parse_sign_suffix (skip_space (take_until_nul (to_ascii s)))) as [p3 E3].
  rewrite E3 in Hb. apply no_digit_suffix in Hb.
  destruct (parse_sign _) as [neg [|c r]]; [done|]. simpl in Hb.
  case_bool_decide; [done|].
  destruct (scan_digits false (c :: r)) as [[ds rest]|] eqn:E4; [|done].
  by rewrite (scan_digits_no_digit _ _ _ _ Hb E4).
Qed.

(** ** Concrete runs *)

Lemma py_int_str_roundtrip_witness :
  py_str_int default_max_str_digits (-42) = Ok (txt "-42") /\
  py_int default_max_str_digits (txt "-42") = Ok (-42)%Z.
Proof.
  assert (H : py_str_int default_max_str_digits (-42) = Ok (txt "-42")) by reflexivity.
  split; [exact H|]. exact (py_int_str_roundtrip _ _ _ H).
Defined.

(** 4301 digits, one more than the default limit. *)
Lemma py_int_digit_limit_witness :
  py_int default_max_str_digits (repeat "7"%char 4301) =
    Raise (ValueError (IntDigitLimit default_max_str_digits 4301)).
Proof.
  rewrite <-(repeat_length "7"%char 4301) at 2.
  apply py_int_digit_limit; [apply (bool_decide_unpack _); vm_compute; reflexivity|].
  vm_compute. reflexivity.
Defined.

Lemma py_int_no_digit_witness :
  py_int default_max_str_digits (txt "-") = Raise (ValueError (IntLiteral (txt "-"))).
Proof. apply py_int_no_digit. apply (bool_decide_unpack _). vm_compute. reflexivity. Defined.

End PyInt.

