(* ===== verification/PyFloat.v ===== *)
(** * PyFloat: [float()] on strings

    [process_logs.py] converts column 6 of each evaluator row with
    [float(row[6])].  Module [PyFloat] models [PyFloat_FromString]
    ([Objects/floatobject.c]): the same transform of Unicode whitespace
    and non-ASCII characters as [int()], the cut at a NUL, underscores
    only between digits ([_Py_string_to_number_with_underscores]), the
    strip of ASCII whitespace, then [_PyOS_ascii_strtod]: the decimal
    grammar of [_Py_dg_strtod] (sign, digits, a point, digits, an
    exponent clamped at [MAX_ABS_EXP], at most [MAX_DIGITS] digits) or
    [_Py_parse_inf_or_nan]; the whole text must be consumed.

    A float is the exact decimal [(-1)^neg * m * 10^e] of its literal;
    rounding to binary64 is not modelled.  The end of the Module proves
    the value of every decimal literal against the Horner reading of its
    digits ([py_float_decimal]), that a text with single underscores
    between digits (the relation [underscored]) is read as the text
    without them ([py_float_underscores]), that any other underscore is
    a [ValueError] ([py_float_bad_underscore]), and the values of
    [inf], [infinity] and [nan] in any case ([py_float_inf_nan]). *)

From S2P Require Import Prelude PyNum.
From Stdlib Require Import DecimalN.

Module PyFloat.
Import PyInt.

(** The number a literal denotes: the exact decimal [(-1)^neg * m * 10^e]
    that CPython then rounds to the nearest binary64 value (the rounding
    is not modelled), an infinity, or a NaN. *)
Inductive py_float :=
  | FFinite (neg : bool) (m : N) (e : Z)
  | FInf (neg : bool)
  | FNan (neg : bool).

(** [MAX_DIGITS] and [MAX_ABS_EXP] of [Python/dtoa.c]. *)
Definition MAX_DIGITS : N := 1000000000.
Definition MAX_ABS_EXP : Z := 1100000000.

Definition is_char_of (c : ascii) (cs : list ascii) : bool := bool_decide (c ∈ cs).

Fixpoint span_digits (t : text) : text * text :=
  match t with
  | c :: r => if is_digit c then let '(ds, rest) := span_digits r in (c :: ds, rest) else ([], t)
  | [] => ([], [])
  end.

Fixpoint span_zeros (t : text) : text * text :=
  match t with
  | c :: r => if bool_decide (c = "0"%char) then let '(zs, rest) := span_zeros r in (c :: zs, rest)
              else ([], t)
  | [] => ([], [])
  end.

Definition opt_sign (t : text) : bool * text :=
  match t with
  | c :: r => if bool_decide (c = "-"%char) then (true, r)
              else if bool_decide (c = "+"%char) then (false, r) else (false, t)
  | [] => (false, t)
  end.

(** The exponent part of [_Py_dg_strtod]: without a digit (or a leading
    zero) after the [e] and its sign, the [e] is not consumed; more than
    nine significant digits, or a value above [MAX_ABS_EXP], clamp to
    [MAX_ABS_EXP]. *)
Definition parse_exponent (t : text) : Z * text :=
  match t with
  | c :: r =>
      if is_char_of c ["e"; "E"]%char then
        let '(eneg, r1) := opt_sign r in
        let '(zs, r2) := span_zeros r1 in
        let '(eds, r3) := span_digits r2 in
        match zs, eds with
        | [], [] => (0%Z, t)
        | _, _ =>
            let v := Z.of_N (digits_value eds) in
            let a := if bool_decide (9 < length eds) || bool_decide (MAX_ABS_EXP < v)%Z
                     then MAX_ABS_EXP else v in
            ((if eneg then - a else a)%Z, r3)
        end
      else (0%Z, t)
  | [] => (0%Z, t)
  end.

(** [_Py_dg_strtod]: [None] when no number is recognised (the end
    pointer stays at the start). *)
Definition dg_strtod (t : text) : option (py_float * text) :=
  let '(neg, t1) := opt_sign t in
  let '(ip, t2) := span_digits t1 in
  let '(fp, t3) :=
    match t2 with
    | c :: r => if bool_decide (c = "."%char) then span_digits r else ([], t2)
    | [] => ([], t2)
    end in
  let ndigits := length (snd (span_zeros (ip ++ fp))) in
  match ip ++ fp with
  | [] => None
  | _ =>
      if bool_decide (MAX_DIGITS < N.of_nat ndigits)%N
         || bool_decide (MAX_DIGITS < N.of_nat (length fp))%N then None
      else
        let '(e, t4) := parse_exponent t3 in
        Some (FFinite neg (digits_value (ip ++ fp)) (e - Z.of_nat (length fp))%Z, t4)
  end.

(** [Py_TOLOWER]. *)
Definition py_tolower (c : ascii) : ascii :=
  if bool_decide (65 <= code c <= 90) then ascii_of_nat (code c + 32) else c.

(** [case_insensitive_match]: [pat] is lower case. *)
Fixpoint ci_prefix (pat t : text) : option text :=
  match pat, t with
  | [], _ => Some t
  | p :: pat', c :: t' =>
      if bool_decide (py_tolower c = p) then ci_prefix pat' t' else None
  | _ :: _, [] => None
  end.

(** [_Py_parse_inf_or_nan]. *)
Definition parse_inf_or_nan (t : text) : option (py_float * text) :=
  let '(neg, t1) := opt_sign t in
  match ci_prefix (txt "inf") t1 with
  | Some t2 =>
      match ci_prefix (txt "inity") t2 with
      | Some t3 => Some (FInf neg, t3)
      | None => Some (FInf neg, t2)
      end
  | None =>
      match ci_prefix (txt "nan") t1 with
      | Some t2 => Some (FNan neg, t2)
      | None => None
      end
  end.

(** [_PyOS_ascii_strtod]. *)
Definition ascii_strtod (t : text) : option (py_float * text) :=
  match dg_strtod t with
  | Some r => Some r
  | None => parse_inf_or_nan t
  end.

Definition strip_spaces (t : text) : text := rev (skip_space (rev (skip_space t))).

(** [float_from_string_inner]: the whole stripped text must be consumed. *)
Definition float_inner (s : text) (t : text) : res py_float :=
  match ascii_strtod (strip_spaces t) with
  | Some (v, []) => Ok v
  | _ => Raise (ValueError (FloatLiteral s))
  end.

(** [_Py_string_to_number_with_underscores]' loop: underscores only
    between two digits. *)
Fixpoint drop_underscores (prev : option ascii) (t : text) : option text :=
  match t with
  | c :: r =>
      if bool_decide (c = "_"%char) then
        match prev with
        | Some p => if is_digit p then drop_underscores (Some c) r else None
        | None => None
        end
      else
        let ok := match prev with
                  | Some p => negb (bool_decide (p = "_"%char)) || is_digit c
                  | None => true
                  end in
        if ok then option_map (cons c) (drop_underscores (Some c) r) else None
  | [] =>
      match prev with
      | Some p => if bool_decide (p = "_"%char) then None else Some []
      | None => Some []
      end
  end.

(** [float(s)] ([PyFloat_FromString]). *)
Definition py_float_of (s : text) : res py_float :=
  let buffer := to_ascii s in
  let cs := take_until_nul buffer in
  if bool_decide ("_"%char ∈ cs) then
    match drop_underscores None cs with
    | Some t => if bool_decide (length cs = length buffer) then float_inner s t
                else Raise (ValueError (FloatLiteral s))
    | None => Raise (ValueError (FloatLiteral s))
    end
  else float_inner s buffer.

(** ** Decimal literals and their value *)

(** The text of a decimal literal: an optional sign, the integer digits,
    an optional point with the fraction digits, an optional exponent. *)
Definition sign_text (sg : option bool) : text :=
  match sg with None => [] | Some true => ["-"%char] | Some false => ["+"%char] end.

Definition sign_neg (sg : option bool) : bool :=
  match sg with Some true => true | _ => false end.

Definition frac_text (fp : option text) : text :=
  match fp with Some f => "."%char :: f | None => [] end.

Definition exp_text (ex : option (option bool * text)) : text :=
  match ex with Some (esg, ed) => "e"%char :: sign_text esg ++ ed | None => [] end.

Definition literal (sg : option bool) (ip : text) (fp : option text)
    (ex : option (option bool * text)) : text :=
  sign_text sg ++ ip ++ frac_text fp ++ exp_text ex.

(** The reference reading of digits: Horner's rule, most significant
    digit first. *)
Definition digit_val (c : ascii) : N := N.of_nat (code c - 48).

Definition horner (acc : N) (ds : text) : N :=
  fold_left (fun a c => 10 * a + digit_val c)%N ds acc.

(** The number the literal denotes: all its digits read as one integer,
    scaled by the exponent less the number of fraction digits. *)
Definition exp_value (ex : option (option bool * text)) : Z :=
  match ex with
  | Some (esg, ed) => let v := Z.of_N (horner 0 ed) in if sign_neg esg then (- v)%Z else v
  | None => 0%Z
  end.

Definition literal_value (sg : option bool) (ip : text) (fp : option text)
    (ex : option (option bool * text)) : py_float :=
  let f := default [] fp in
  FFinite (sign_neg sg) (horner 0 (ip ++ f)) (exp_value ex - Z.of_nat (length f))%Z.

(** What the theorem asks of a literal: digits where digits go, at
    least one digit in the mantissa, at most [MAX_DIGITS] of them, and
    an exponent of one to nine digits. *)
Definition literal_ok (ip : text) (fp : option text) (ex : option (option bool * text)) : Prop :=
  Forall (fun c => is_digit c = true) (ip ++ default [] fp) /\ ip ++ default [] fp <> [] /\
  (N.of_nat (length (ip ++ default [] fp)) <= MAX_DIGITS)%N /\
  match ex with
  | Some (_, ed) => Forall (fun c => is_digit c = true) ed /\ ed <> [] /\ length ed <= 9
  | None => True
  end.

(** The values of the special words, in any case: [inf], [infinity]
    and [nan]. *)
Definition special_value (neg : bool) (w : text) : option py_float :=
  if bool_decide (map py_tolower w ∈ [txt "inf"; txt "infinity"]) then Some (FInf neg)
  else if bool_decide (map py_tolower w = txt "nan") then Some (FNan neg) else None.

(** Where [float()] accepts underscores, after the language's grammar
    for numeric literals: [underscored t u] when [u] is [t] with single
    underscores put between two digits. *)
Inductive underscored : text -> text -> Prop :=
  | us_nil : underscored [] []
  | us_char c t u : underscored t u -> underscored (c :: t) (c :: u)
  | us_sep d d' t u :
      is_digit d = true -> is_digit d' = true -> underscored (d' :: t) u ->
      underscored (d :: d' :: t) (d :: "_"%char :: u).

Definition ascii_text (t : text) : Prop := Forall (fun c => code c < 128) t.

(** The character before a position: the last of [a], else [prev]. *)
Definition last_or (prev : option ascii) (a : text) : option ascii :=
  match last a with Some c => Some c | None => prev end.

(** An underscore that is not between two digits: first, last, or next
    to another character; [p] is the character before it. *)
Definition bad_underscore (p : option ascii) (b : text) : Prop :=
  match p with
  | None => True
  | Some c => is_digit c = true -> match b with [] => True | c' :: _ => is_digit c' = false end
  end.

(** Characters that [float()] passes through unchanged. *)
Definition lit_char (c : ascii) : bool :=
  bool_decide (33 <= code c < 128) && negb (bool_decide (c = "_"%char)).

(** The first character of a text, if any, fails [P]. *)
Definition head_not (P : ascii -> bool) (t : text) : Prop :=
  match t with c :: _ => P c = false | [] => True end.

Definition is_sign (c : ascii) : bool := bool_decide (c = "-"%char) || bool_decide (c = "+"%char).

(** ** Digits *)

Abbreviation digit := (fun c => is_digit c = true).

Lemma digit_code c : is_digit c = true -> exists k, code c = 48 + k /\ k <= 9.
Proof. intros Hc%is_digit_code. exists (code c - 48). lia. Qed.

Lemma of_uint_acc_horner ds p :
  Forall digit ds ->
  N.pos (Pos.of_uint_acc (fold_right digit_uint Decimal.Nil ds) p) = horner (N.pos p) ds.
Proof.
  intros Hds. revert p; induction Hds as [|c ds Hc Hds IH]; intros p; [done|].
  destruct (digit_code c Hc) as (k & Hk & Hk9). cbn [fold_right horner fold_left].
  unfold digit_uint at 1. unfold digit_val. rewrite Hk.
  do 10 (destruct k as [|k]; [cbn [Nat.add Pos.of_uint_acc]; rewrite IH; unfold horner; f_equal; lia|]). lia.
Qed.

Lemma digits_value_horner ds : Forall digit ds -> digits_value ds = horner 0 ds.
Proof.
  unfold digits_value. induction 1 as [|c ds Hc Hds IH]; [done|].
  destruct (digit_code c Hc) as (k & Hk & Hk9). cbn [fold_right horner fold_left].
  unfold digit_uint at 1. unfold digit_val. rewrite Hk.
  destruct k as [|k]; [cbn [Nat.add]; change (N.of_uint (Decimal.D0 ?u)) with (N.of_uint u);
    rewrite IH; unfold horner; f_equal; lia|].
  do 9 (destruct k as [|k]; [cbn [Nat.add N.of_uint Pos.of_uint]; rewrite of_uint_acc_horner by done;
                              unfold horner; f_equal; lia|]). lia.
Qed.

Lemma horner_app acc a b : horner acc (a ++ b) = horner (horner acc a) b.
Proof. apply fold_left_app. Qed.

Lemma horner_zeros zs x :
  Forall (fun c => c = "0"%char) zs -> horner 0 (zs ++ x) = horner 0 x.
Proof.
  intros Hz. rewrite horner_app. f_equal.
  induction Hz as [|c zs -> _ IH]; [done|]. exact IH.
Qed.

Lemma horner_lt acc ds :
  Forall (fun c => is_digit c = true) ds -> (horner acc ds < (acc + 1) * 10 ^ N.of_nat (length ds))%N.
Proof.
  intros Hds. revert acc; induction Hds as [|c ds Hc _ IH]; intros acc; cbn [horner fold_left].
  - cbn. lia.
  - apply is_digit_code in Hc. unfold digit_val.
    eapply N.lt_le_trans; [apply IH|]. rewrite length_cons, Nat2N.inj_succ, N.pow_succ_r'. nia.
Qed.

(** ** Characters *)

Lemma lit_char_props c :
  lit_char c = true ->
  code c < 128 /\ c <> "000"%char /\ c_isspace c = false /\ c <> "_"%char.
Proof.
  unfold lit_char. intros [H1 H2]%andb_prop.
  apply bool_decide_eq_true in H1. apply negb_true_iff, bool_decide_eq_false in H2.
  unfold c_isspace. rewrite !bool_decide_eq_false_2 by lia. split_and!; [lia| |done|done].
  intros ->. vm_compute in H1. lia.
Qed.

Lemma digit_lit_char c : is_digit c = true -> lit_char c = true.
Proof.
  intros Hc. pose proof (is_digit_code c Hc). unfold lit_char.
  rewrite bool_decide_eq_true_2 by lia. rewrite bool_decide_eq_false_2; [done|].
  intros ->. vm_compute in Hc. discriminate.
Qed.

Abbreviation lit_text t := (Forall (fun c => lit_char c = true) t).

Lemma lit_map t : lit_text t -> to_ascii t = t.
Proof.
  intros Ht. apply to_ascii_id. eapply Forall_impl; [exact Ht|]. intros c Hc. apply (lit_char_props c Hc).
Qed.

Lemma lit_take_until_nul t : lit_text t -> take_until_nul t = t.
Proof.
  intros Ht. induction Ht as [|c t' Hc _ IH]; [done|]. cbn.
  rewrite bool_decide_eq_false_2 by apply (lit_char_props c Hc). by rewrite IH.
Qed.

Lemma lit_no_underscore t : lit_text t -> "_"%char ∉ t.
Proof.
  intros Ht. rewrite not_elem_of_Forall_ne. eapply Forall_impl; [exact Ht|].
  intros c Hc ->. by apply (lit_char_props _ Hc).
Qed.

Lemma lit_skip_space t : lit_text t -> skip_space t = t.
Proof. destruct 1 as [|c t Hc _]; [done|]. cbn. by rewrite (proj1 (proj2 (proj2 (lit_char_props c Hc)))). Qed.

Lemma lit_strip_spaces t : lit_text t -> strip_spaces t = t.
Proof.
  intros Ht. unfold strip_spaces. rewrite (lit_skip_space t Ht).
  rewrite lit_skip_space; [apply rev_involutive|by apply Forall_rev].
Qed.

(** ** The scan of [_Py_dg_strtod] on a literal *)

Lemma opt_sign_text sg r : head_not is_sign r -> opt_sign (sign_text sg ++ r) = (sign_neg sg, r).
Proof.
  destruct sg as [[]|]; [done|done|]. destruct r as [|c r]; [done|]. cbn.
  unfold is_sign. intros [H1 H2]%orb_false_elim. by rewrite H1, H2.
Qed.

Lemma span_digits_app ds r :
  Forall (fun c => is_digit c = true) ds -> head_not is_digit r -> span_digits (ds ++ r) = (ds, r).
Proof.
  induction 1 as [|c ds Hc _ IH]; intros Hr.
  - destruct r as [|c r]; [done|]. cbn in *. by rewrite Hr.
  - cbn. by rewrite Hc, IH.
Qed.

Lemma span_zeros_spec t :
  t = (span_zeros t).1 ++ (span_zeros t).2 /\ Forall (fun c => c = "0"%char) (span_zeros t).1 /\
  length (span_zeros t).2 <= length t.
Proof.
  induction t as [|c t IH]; [done|]. cbn. case_bool_decide; [|split_and!; cbn; auto].
  destruct (span_zeros t) as [zs r]. cbn in *. destruct IH as (-> & Hz & Hl).
  split_and!; [by subst|by constructor; subst|rewrite length_app in *; lia].
Qed.

Lemma parse_exponent_text ex :
  match ex with
  | Some (_, ed) => Forall (fun c => is_digit c = true) ed /\ ed <> [] /\ length ed <= 9
  | None => True
  end ->
  parse_exponent (exp_text ex) = (exp_value ex, []).
Proof.
  destruct ex as [[esg ed]|]; [|done]. intros (Hed & Hne & Hlen). cbn [exp_text parse_exponent].
  assert (Hs : head_not is_sign ed).
  { destruct Hed as [|c ed' Hc _]; [done|]. apply is_digit_code in Hc. unfold is_sign.
    cbn. rewrite !bool_decide_eq_false_2; [done| |]; intros ->; vm_compute in Hc; lia. }
  change (is_char_of "e"%char ["e"; "E"]%char) with true. cbn iota.
  rewrite opt_sign_text by done. cbn iota beta.
  destruct (span_zeros_spec ed) as (Hsplit & Hz & Hl).
  destruct (span_zeros ed) as [zs x]. cbn [fst snd] in *.
  assert (Hx : Forall (fun c => is_digit c = true) x) by (rewrite Hsplit in Hed; apply Forall_app in Hed; tauto).
  assert (span_digits x = (x, [])) as ->.
  { rewrite <-(app_nil_r x) at 1. by apply span_digits_app. }
  cbn iota beta.
  assert (Hv : (horner 0 x < 10 ^ N.of_nat (length x))%N) by (pose proof (horner_lt 0 x Hx); lia).
  assert (H9 : (10 ^ N.of_nat (length x) <= 10 ^ 9)%N) by (apply N.pow_le_mono_r; lia).
  unfold exp_value. rewrite Hsplit, horner_zeros by done. rewrite <-digits_value_horner by done.
  destruct zs, x; [by rewrite app_nil_r in Hsplit| | |];
    rewrite ?digits_value_horner by done;
    rewrite bool_decide_eq_false_2 by (cbn in *; lia); rewrite bool_decide_eq_false_2 by
      (unfold MAX_ABS_EXP; cbn in *; lia); done.
Qed.

Lemma head_not_frac fp ex : head_not is_digit (frac_text fp ++ exp_text ex).
Proof. by destruct fp, ex as [[]|]. Qed.

Lemma head_not_exp ex : head_not is_digit (exp_text ex).
Proof. by destruct ex as [[]|]. Qed.

Lemma literal_mantissa_head ip fp ex :
  Forall (fun c => is_digit c = true) ip -> ip ++ default [] fp <> [] ->
  head_not is_sign (ip ++ frac_text fp ++ exp_text ex).
Proof.
  destruct 1 as [|c ip Hc _].
  - destruct fp; [done|]. by destruct 1.
  - intros _. apply is_digit_code in Hc. unfold is_sign. cbn.
    rewrite !bool_decide_eq_false_2; [done| |]; intros ->; vm_compute in Hc; lia.
Qed.

Lemma frac_scan fp ex :
  Forall (fun c => is_digit c = true) (default [] fp) ->
  match frac_text fp ++ exp_text ex with
  | c :: r => if bool_decide (c = "."%char) then span_digits r else ([], frac_text fp ++ exp_text ex)
  | [] => ([], frac_text fp ++ exp_text ex)
  end = (default [] fp, exp_text ex).
Proof.
  destruct fp as [f|]; cbn; intros Hf.
  - by rewrite span_digits_app by (done || apply head_not_exp).
  - by destruct ex as [[]|].
Qed.

Lemma dg_strtod_literal sg ip fp ex :
  literal_ok ip fp ex -> dg_strtod (literal sg ip fp ex) = Some (literal_value sg ip fp ex, []).
Proof.
  intros (Hd & Hne & Hlen & Hex). apply Forall_app in Hd as [Hip Hfp].
  unfold dg_strtod, literal. rewrite opt_sign_text by by apply literal_mantissa_head.
  cbn iota beta. rewrite span_digits_app by (done || apply head_not_frac). cbn iota beta.
  rewrite frac_scan by done. cbn iota beta.
  pose proof (proj2 (proj2 (span_zeros_spec (ip ++ default [] fp)))) as Hz.
  assert (H1 : (N.of_nat (length (span_zeros (ip ++ default [] fp)).2) <= MAX_DIGITS)%N) by lia.
  assert (H2 : (N.of_nat (length (default [] fp)) <= MAX_DIGITS)%N)
    by (rewrite length_app in Hlen; lia).
  destruct (ip ++ default [] fp) as [|c0 l0] eqn:E; [done|]. rewrite <-E in *.
  rewrite !bool_decide_eq_false_2 by lia.
  rewrite parse_exponent_text by done. cbn iota beta.
  rewrite digits_value_horner by (by apply Forall_app). done.
Qed.

Lemma digits_lit t : Forall (fun c => is_digit c = true) t -> lit_text t.
Proof. intros Ht. eapply Forall_impl; [exact Ht|]. apply digit_lit_char. Qed.

Lemma sign_text_lit sg : lit_text (sign_text sg).
Proof. destruct sg as [[]|]; repeat constructor. Qed.

Lemma literal_lit sg ip fp ex : literal_ok ip fp ex -> lit_text (literal sg ip fp ex).
Proof.
  intros (Hd & _ & _ & Hex). apply Forall_app in Hd as [Hip Hfp].
  unfold literal. repeat apply Forall_app_2; [apply sign_text_lit|by apply digits_lit| |].
  - destruct fp; [constructor; [done|by apply digits_lit]|constructor].
  - destruct ex as [[esg ed]|]; [|constructor]. constructor; [done|].
    apply Forall_app_2; [apply sign_text_lit|apply digits_lit, Hex].
Qed.

(** ** Underscores *)

Lemma take_until_nul_id t : "000"%char ∉ t -> take_until_nul t = t.
Proof.
  induction t as [|c t IH]; [done|]. intros [Hc Hn]%not_elem_of_cons. cbn.
  rewrite bool_decide_eq_false_2 by done. f_equal. by apply IH.
Qed.

Lemma drop_underscores_none_id cs : "_"%char ∉ cs -> drop_underscores None cs = Some cs.
Proof.
  assert (Hgen : forall prev, (forall p, prev = Some p -> p <> "_"%char) ->
            "_"%char ∉ cs -> drop_underscores prev cs = Some cs).
  { induction cs as [|c cs IH]; intros prev Hp Hn; cbn.
    - destruct prev as [p|]; [|done]. by rewrite bool_decide_eq_false_2 by by apply Hp.
    - apply not_elem_of_cons in Hn as [Hc Hn]. rewrite bool_decide_eq_false_2 by done.
      assert (Hok : match prev with
                    | Some p => negb (bool_decide (p = "_"%char)) || is_digit c
                    | None => true end = true).
      { destruct prev as [p|]; [|done]. by rewrite bool_decide_eq_false_2 by by apply Hp. }
      rewrite Hok, IH; [done| |done]. intros p [= <-]. done. }
  apply Hgen. done.
Qed.

Lemma underscored_head c t u : underscored (c :: t) u -> exists u', u = c :: u'.
Proof. inversion 1; subst; eauto. Qed.

Lemma underscored_Forall (P : ascii -> Prop) t u :
  P "_"%char -> underscored t u -> Forall P t -> Forall P u.
Proof.
  intros Hus. induction 1 as [|c t u _ IH|d d' t u _ _ _ IH]; [done| |].
  - intros [Hc Ht]%Forall_cons. constructor; auto.
  - intros [Hd Ht]%Forall_cons. constructor; [done|]. constructor; [done|]. by apply IH.
Qed.

Lemma underscored_plain t u : underscored t u -> "_"%char ∉ u -> u = t.
Proof.
  induction 1 as [|c t u _ IH|d d' t u _ _ _ IH]; [done| |].
  - intros [_ Hu]%not_elem_of_cons. by rewrite IH.
  - intros [_ [[] _]%not_elem_of_cons]%not_elem_of_cons. done.
Qed.

(** The underscore pass removes exactly the underscores [underscored]
    puts in; after an underscore the next character is a digit. *)
Lemma drop_underscored t u prev :
  underscored t u -> "_"%char ∉ t ->
  (prev = Some "_"%char -> exists c u', u = c :: u' /\ is_digit c = true) ->
  drop_underscores prev u = Some t.
Proof.
  intros Hu. revert prev. induction Hu as [|c t u Hu IH|d d' t u Hd Hd' Hu IH]; intros prev Ht Hprev.
  - destruct prev as [p|]; [|done]. cbn. rewrite bool_decide_eq_false_2; [done|].
    intros ->. by destruct (Hprev eq_refl) as (? & ? & ? & _).
  - apply not_elem_of_cons in Ht as [Hc Ht]. cbn. rewrite bool_decide_eq_false_2 by done.
    assert (Hok : match prev with
                  | Some p => negb (bool_decide (p = "_"%char)) || is_digit c
                  | None => true end = true).
    { destruct prev as [p|]; [|done]. destruct (decide (p = "_"%char)) as [->|Hp].
      - destruct (Hprev eq_refl) as (c' & u' & [= <- _] & Hc'). by rewrite Hc', orb_true_r.
      - by rewrite bool_decide_eq_false_2. }
    rewrite Hok, (IH (Some c)); [done|done|]. by intros [= ->].
  - apply not_elem_of_cons in Ht as [Hdu Ht]. cbn.
    rewrite bool_decide_eq_false_2 by done.
    assert (Hok : match prev with
                  | Some p => negb (bool_decide (p = "_"%char)) || is_digit d
                  | None => true end = true) by (destruct prev; [by rewrite Hd, orb_true_r|done]).
    rewrite Hok, bool_decide_eq_true_2 by done. rewrite Hd.
    rewrite (IH (Some "_"%char)); [done|done|]. intros _.
    destruct (underscored_head _ _ _ Hu) as [u' ->]. by exists d', u'.
Qed.

Lemma last_or_cons prev c a : last_or prev (c :: a) = last_or (Some c) a.
Proof.
  unfold last_or. destruct a as [|x a]; [done|].
  destruct (last (x :: a)) eqn:E; [by rewrite last_cons_cons, E|]. by apply last_None in E.
Qed.

(** An underscore not between two digits makes the pass fail. *)
Lemma drop_underscores_bad a b prev :
  bad_underscore (last_or prev a) b -> drop_underscores prev (a ++ "_"%char :: b) = None.
Proof.
  revert prev; induction a as [|c a IH]; intros prev Hbad; cbn [app drop_underscores].
  - rewrite bool_decide_eq_true_2 by done. destruct prev as [p|]; [|done]. cbn in Hbad.
    destruct (is_digit p); [|done]. destruct b as [|c b]; [done|]. cbn.
    specialize (Hbad eq_refl). case_bool_decide as Hc; [by subst c|].
    by rewrite bool_decide_eq_true_2, Hbad.
  - rewrite last_or_cons in Hbad. case_bool_decide as Hc.
    + destruct prev as [p|]; [|done]. destruct (is_digit p); [|done]. by apply IH.
    + destruct (match prev with Some p => _ | None => true end); [|done]. by rewrite IH.
Qed.

Lemma float_inner_msg s s' t v : float_inner s t = Ok v <-> float_inner s' t = Ok v.
Proof. unfold float_inner. by repeat case_match. Qed.

(** ** Special values *)

Definition letter (c : ascii) : Prop := 65 <= code c <= 90 \/ 97 <= code c <= 122.

Lemma letter_props c :
  letter c -> lit_char c = true /\ is_digit c = false /\ is_sign c = false /\ c <> "."%char.
Proof.
  unfold letter, lit_char, is_digit, is_sign. intros Hc.
  assert (Hne : forall d, code d < 65 \/ 90 < code d < 97 -> c <> d) by (intros d Hd ->; lia).
  rewrite bool_decide_eq_true_2 by lia.
  rewrite (bool_decide_eq_false_2 (c = "_"%char)) by (apply Hne; vm_compute; lia).
  rewrite bool_decide_eq_false_2 by lia.
  rewrite !bool_decide_eq_false_2 by (apply Hne; vm_compute; lia).
  split_and!; [done|done|done|]. apply Hne. vm_compute. lia.
Qed.

Lemma letters_of_lower w pat :
  map py_tolower w = pat -> Forall (fun d => 97 <= code d <= 122) pat -> Forall letter w.
Proof.
  intros <- Hp. rewrite Forall_fmap in Hp. eapply Forall_impl; [exact Hp|].
  intros c. cbn. unfold py_tolower, letter. case_bool_decide; [lia|]. lia.
Qed.

Lemma ci_prefix_app pat w r : map py_tolower w = pat -> ci_prefix pat (w ++ r) = Some r.
Proof.
  revert pat; induction w as [|c w IH]; intros pat <-; [done|]. cbn.
  rewrite bool_decide_eq_true_2 by done. by apply IH.
Qed.

Lemma dg_strtod_word sg c r : letter c -> dg_strtod (sign_text sg ++ c :: r) = None.
Proof.
  intros Hc. destruct (letter_props c Hc) as (_ & Hd & Hs & Hdot).
  unfold dg_strtod. rewrite opt_sign_text by done. cbn [span_digits]. rewrite Hd.
  rewrite bool_decide_eq_false_2 by done. reflexivity.
Qed.

(** [float()] of a signed word of letters is what [_Py_parse_inf_or_nan]
    makes of all of it. *)
Lemma py_float_word sg w :
  Forall letter w -> w <> [] ->
  py_float_of (sign_text sg ++ w) =
    match parse_inf_or_nan (sign_text sg ++ w) with
    | Some (v, []) => Ok v
    | _ => Raise (ValueError (FloatLiteral (sign_text sg ++ w)))
    end.
Proof.
  intros Hw Hne.
  assert (Hl : lit_text (sign_text sg ++ w)).
  { apply Forall_app_2; [apply sign_text_lit|]. eapply Forall_impl; [exact Hw|].
    intros c Hc. apply (letter_props c Hc). }
  unfold py_float_of. rewrite lit_map, lit_take_until_nul by done.
  rewrite bool_decide_eq_false_2 by (by apply lit_no_underscore).
  unfold float_inner. rewrite lit_strip_spaces by done.
  destruct w as [|c r]; [done|]. apply Forall_cons in Hw as [Hc _].
  unfold ascii_strtod. by rewrite dg_strtod_word.
Qed.

Lemma ci_prefix_full pat w : map py_tolower w = pat -> ci_prefix pat w = Some [].
Proof. intros Hw. rewrite <-(app_nil_r w). by apply ci_prefix_app. Qed.

(** [float()] of a decimal literal, the lemma behind [py_float_decimal]
    that other components use. *)
Lemma py_float_literal sg ip fp ex :
  literal_ok ip fp ex -> py_float_of (literal sg ip fp ex) = Ok (literal_value sg ip fp ex).
Proof.
  intros Hok. pose proof (literal_lit sg ip fp ex Hok) as Hl.
  unfold py_float_of. rewrite lit_map, lit_take_until_nul by done.
  rewrite bool_decide_eq_false_2 by (by apply lit_no_underscore).
  unfold float_inner. rewrite lit_strip_spaces by done.
  unfold ascii_strtod. by rewrite dg_strtod_literal.
Qed.

(** ** Properties *)

(** C21: [float()] of a decimal literal (sign, digits, an optional
    point and fraction, an optional exponent of up to nine digits) is
    the number its digits denote: the mantissa and fraction read by
    Horner's rule as one integer, scaled by the exponent less the number
    of fraction digits. *)
Theorem py_float_decimal sg ip fp ex :
  literal_ok ip fp ex -> py_float_of (literal sg ip fp ex) = Ok (literal_value sg ip fp ex).
Proof. apply py_float_literal. Qed.

Ltac word_side := first [ discriminate | apply (bool_decide_unpack _); vm_compute; reflexivity ].

(** C35: [float()] ignores the underscores the grammar of numeric
    literals allows (single ones, each between two digits): a text with
    them is read exactly as the text without them, value and rejection
    alike. *)
Theorem py_float_underscores t u v :
  ascii_text t -> "000"%char ∉ t -> "_"%char ∉ t -> underscored t u ->
  py_float_of u = Ok v <-> py_float_of t = Ok v.
Proof.
  intros Ha Hn Ht Hu.
  assert (Hau : ascii_text u) by (eapply underscored_Forall; [vm_compute; lia|done|done]).
  assert (Hnu : "000"%char ∉ u).
  { rewrite not_elem_of_Forall_ne. eapply underscored_Forall; [done|done|].
    by rewrite <-not_elem_of_Forall_ne. }
  assert (Hpt : py_float_of t = float_inner t t).
  { unfold py_float_of. rewrite to_ascii_id, take_until_nul_id by done.
    by rewrite bool_decide_eq_false_2. }
  assert (Hpu : py_float_of u = float_inner u t).
  { unfold py_float_of. rewrite to_ascii_id, take_until_nul_id by done. case_bool_decide.
    - rewrite (drop_underscored t u None) by done. by rewrite bool_decide_eq_true_2.
    - by rewrite (underscored_plain t u). }
  rewrite Hpu, Hpt. apply float_inner_msg.
Qed.

(** C38: An underscore that is not between two digits (first, last,
    doubled, or next to a point, a sign or an exponent) makes [float()]
    raise [ValueError]. *)
Theorem py_float_bad_underscore a b :
  ascii_text (a ++ "_"%char :: b) -> "000"%char ∉ a ++ "_"%char :: b ->
  bad_underscore (last a) b ->
  py_float_of (a ++ "_"%char :: b) = Raise (ValueError (FloatLiteral (a ++ "_"%char :: b))).
Proof.
  intros Ha Hn Hbad. unfold py_float_of. rewrite to_ascii_id, take_until_nul_id by done.
  rewrite bool_decide_eq_true_2 by (apply elem_of_app; right; left).
  rewrite drop_underscores_bad; [done|]. unfold last_or. by destruct (last a).
Qed.

(** C36: [float()] of [inf], [infinity] or [nan] in any case, with an
    optional sign, is the infinity or the NaN of that sign. *)
Theorem py_float_inf_nan sg w v :
  special_value (sign_neg sg) w = Some v -> py_float_of (sign_text sg ++ w) = Ok v.
Proof.
  unfold special_value. intros Hv.
  assert (Hword : forall pat, map py_tolower w = pat -> Forall (fun d => 97 <= code d <= 122) pat ->
            pat <> [] -> py_float_of (sign_text sg ++ w) =
              match parse_inf_or_nan (sign_text sg ++ w) with
              | Some (v, []) => Ok v
              | _ => Raise (ValueError (FloatLiteral (sign_text sg ++ w)))
              end).
  { intros pat Hw Hp Hne. apply py_float_word; [by eapply letters_of_lower|].
    intros ->. by subst pat. }
  assert (Hsign : forall pat, map py_tolower w = pat -> Forall (fun d => 97 <= code d <= 122) pat ->
            opt_sign (sign_text sg ++ w) = (sign_neg sg, w)).
  { intros pat Hw Hp. apply opt_sign_text. destruct w as [|c r]; [done|].
    apply (letters_of_lower _ _ Hw) in Hp. apply Forall_cons in Hp as [Hc _].
    apply (letter_props c Hc). }
  case_bool_decide as Hi.
  - injection Hv as <-. rewrite elem_of_cons, elem_of_cons, elem_of_nil in Hi.
    destruct Hi as [Hi|[Hi|[]]].
    + rewrite (Hword _ Hi) by word_side.
      unfold parse_inf_or_nan. rewrite (Hsign _ Hi) by word_side.
      by rewrite (ci_prefix_full _ _ Hi).
    + rewrite (Hword _ Hi) by word_side.
      unfold parse_inf_or_nan. rewrite (Hsign _ Hi) by word_side.
      rewrite <-(take_drop 3 w).
      rewrite (ci_prefix_app (txt "inf")) by (by rewrite <-firstn_map, Hi).
      by rewrite (ci_prefix_full (txt "inity")) by (by rewrite <-skipn_map, Hi).
  - case_bool_decide as Hn; [|done]. injection Hv as <-.
    rewrite (Hword _ Hn) by word_side.
    unfold parse_inf_or_nan. rewrite (Hsign _ Hn) by word_side.
    rewrite (ci_prefix_full _ _ Hn).
    destruct w as [|c r]; [done|]. injection Hn as Hc _. cbn.
    by rewrite Hc, bool_decide_eq_false_2.
Qed.

(** ** Concrete runs *)

Lemma py_float_decimal_witness :
  literal_ok (txt "12") (Some (txt "50")) (Some (Some false, txt "07")) /\
  py_float_of (txt "-12.50e+07") = Ok (FFinite true 1250 5).
Proof.
  assert (Hok : literal_ok (txt "12") (Some (txt "50")) (Some (Some false, txt "07"))).
  { split_and!; try (apply (bool_decide_unpack _); vm_compute; reflexivity); done. }
  split; [exact Hok|]. exact (py_float_decimal (Some true) _ _ _ Hok).
Defined.

Lemma py_float_inf_nan_witness :
  special_value true (txt "InFiNiTy") = Some (FInf true) /\
  py_float_of (txt "-InFiNiTy") = Ok (FInf true).
Proof.
  assert (Hv : special_value true (txt "InFiNiTy") = Some (FInf true)) by (vm_compute; reflexivity).
  split; [exact Hv|]. exact (py_float_inf_nan (Some true) _ _ Hv).
Defined.

Lemma py_float_underscores_witness :
  underscored (txt "1000.5") (txt "1_000.5") /\
  (forall v, py_float_of (txt "1_000.5") = Ok v <-> py_float_of (txt "1000.5") = Ok v) /\
  py_float_of (txt "1_000.5") = Ok (FFinite false 10005 (-1)).
Proof.
  assert (Hu : underscored (txt "1000.5") (txt "1_000.5")).
  { cbn. apply us_sep; [reflexivity|reflexivity|]. repeat constructor. }
  split; [exact Hu|]. split; [|vm_compute; reflexivity].
  intros v. apply (py_float_underscores (txt "1000.5") (txt "1_000.5") v); [| | |exact Hu];
    apply (bool_decide_unpack _); vm_compute; reflexivity.
Defined.

Lemma py_float_bad_underscore_witness :
  bad_underscore (last (txt "1")) (txt "_0") /\
  py_float_of (txt "1__0") = Raise (ValueError (FloatLiteral (txt "1__0"))).
Proof.
  assert (Hb : bad_underscore (last (txt "1")) (txt "_0")) by (intros _; reflexivity).
  split; [exact Hb|].
  apply (py_float_bad_underscore (txt "1") (txt "_0")); [| |exact Hb];
    apply (bool_decide_unpack _); vm_compute; reflexivity.
Defined.

End PyFloat.
