(* ===== verification/Flags.v ===== *)
(** * Flags: the absl flags of [run_dqn_custom.py] and their parsing

    [run_dqn_custom.py] declares four flags (lines 29 to 35) with
    [flags.DEFINE_bool], [DEFINE_string] and [DEFINE_integer], and
    starts with [app.run(main)] (line 104), which parses [sys.argv]
    with [FLAGS(argv)] before calling [main].  Module [AbslFlags]
    models
    - the flag registry of the script: name, kind and default;
    - absl's value parsers: [BooleanParser.convert] (true/t/1 and
      false/f/0, case-insensitive), [IntegerParser.convert] (base 16, 8
      or 2 for a text of more than two characters starting with [0x],
      [0o] or [0b], base 10 otherwise, then [int(argument, base)]), and
      the string parser; [Flag._parse] turns their [ValueError] into
      [IllegalFlagValueError];
    - [FlagValues._parse_args] in its default GNU mode: positional
      arguments are skipped, [--] ends the flags, [-name] and [--name],
      [name=value] or the next argument as value, [--noname] for a
      boolean flag ([--noname=value] raises [ValueError]), the last
      setting of a flag wins; unknown names are collected and
      [FLAGS(argv)] raises [UnrecognizedFlagError] on the first after
      the whole line has been parsed.

    The loop keeps every property of its state that its four updates
    keep ([parse_args_inv]); from it, the unknown flags seen first stay
    first, and every parsed value has its flag's kind.

    absl's own flags ([--flagfile], [--undefok], [--help*], the logging
    flags) are not modelled: the model takes command lines without them. *)

From stdpp Require Import gmap.
From S2P Require Import Prelude PyNum.
Import PyInt.

Module AbslFlags.

(** ** The flag registry *)

Inductive flag_kind := BoolFlag | StringFlag | IntFlag.

#[export] Instance flag_kind_eq_dec : EqDecision flag_kind.
Proof. solve_decision. Defined.

Inductive flag_value := VBool (b : bool) | VString (s : text) | VInt (z : Z).

#[export] Instance flag_value_eq_dec : EqDecision flag_value.
Proof. solve_decision. Defined.

Record flag_def := { flag_name : text; kind : flag_kind; default : flag_value }.

(** The flags of lines 29 to 35, in the order the script defines them. *)
Definition run_distributed_flag : flag_def :=
  {| flag_name := txt "run_distributed"; kind := BoolFlag; default := VBool true |}.
Definition env_name_flag : flag_def :=
  {| flag_name := txt "env_name"; kind := StringFlag; default := VString (txt "BeamRider") |}.
Definition seed_flag : flag_def :=
  {| flag_name := txt "seed"; kind := IntFlag; default := VInt 0 |}.
Definition num_steps_flag : flag_def :=
  {| flag_name := txt "num_steps"; kind := IntFlag; default := VInt 10000000 |}.

Definition run_dqn_flags : list flag_def :=
  [run_distributed_flag; env_name_flag; seed_flag; num_steps_flag].

Definition find_flag (defs : list flag_def) (name : text) : option flag_def :=
  List.find (fun f => bool_decide (f.(flag_name) = name)) defs.

(** The values before parsing: the defaults. *)
Definition defaults (defs : list flag_def) : gmap text flag_value :=
  list_to_map (map (fun f => (f.(flag_name), f.(default))) defs).

(** ** Value parsers *)

Definition ascii_lower (c : ascii) : ascii :=
  if bool_decide (65 <= code c <= 90) then ascii_of_nat (code c + 32) else c.

(** [BooleanParser.convert]. *)
Definition bool_convert (arg : text) : option bool :=
  let l := map ascii_lower arg in
  if bool_decide (l ∈ [txt "true"; txt "t"; txt "1"]) then Some true
  else if bool_decide (l ∈ [txt "false"; txt "f"; txt "0"]) then Some false
  else None.

(** [_PyLong_DigitValue]: 37 for a character that is no digit. *)
Definition digit_value (c : ascii) : nat :=
  let n := code c in
  if bool_decide (48 <= n <= 57) then n - 48
  else if bool_decide (97 <= n <= 122) then n - 87
  else if bool_decide (65 <= n <= 90) then n - 55 else 37.

(** The digits of [base] with single underscores between them. *)
Fixpoint scan_base (base : nat) (prev_us : bool) (s : text) : option (list nat * text) :=
  match s with
  | c :: s' =>
      if bool_decide (digit_value c < base) then
        match scan_base base false s' with
        | Some (ds, r) => Some (digit_value c :: ds, r)
        | None => None
        end
      else if bool_decide (c = "_"%char) then
        if prev_us then None else scan_base base true s'
      else if prev_us then None else Some ([], s)
  | [] => if prev_us then None else Some ([], [])
  end.

Definition prefix_chars (base : nat) : list ascii :=
  match base with
  | 16 => ["x"; "X"]%char
  | 8 => ["o"; "O"]%char
  | 2 => ["b"; "B"]%char
  | _ => []
  end.

(** [int(s, base)] for [base] 2, 8 or 16 ([PyLong_FromString]): the
    base prefix may follow the sign, then one underscore; no digit
    limit applies to these bases. *)
Definition py_int_base (base : nat) (s : text) : res Z :=
  let buffer := to_ascii s in
  let cs := take_until_nul buffer in
  let invalid := Raise (ValueError (IntBaseLiteral base s)) in
  let '(neg, cs2) := parse_sign (skip_space cs) in
  let cs3 :=
    match cs2 with
    | z :: p :: r =>
        if bool_decide (z = "0"%char) && bool_decide (p ∈ prefix_chars base) then
          match r with u :: r' => if bool_decide (u = "_"%char) then r' else r | [] => r end
        else cs2
    | _ => cs2
    end in
  match cs3 with
  | c :: _ =>
      if bool_decide (c = "_"%char) then invalid else
      match scan_base base false cs3 with
      | Some ((_ :: _) as ds, rest) =>
          if bool_decide (skip_space rest = [] /\ length cs = length buffer) then
            let v := Z.of_nat (fold_left (fun acc d => acc * base + d) ds 0) in
            Ok (if neg then (- v)%Z else v)
          else invalid
      | _ => invalid
      end
  | [] => invalid
  end.

(** [IntegerParser.convert]. *)
Definition int_convert (max_digits : nat) (arg : text) : res Z :=
  let base :=
    match arg with
    | z :: p :: _ :: _ =>
        if bool_decide (z = "0"%char) then
          if bool_decide (p = "o"%char) then 8
          else if bool_decide (p = "x"%char) then 16
          else if bool_decide (p = "b"%char) then 2 else 10
        else 10
    | _ => 10
    end in
  if bool_decide (base = 10) then py_int max_digits arg else py_int_base base arg.

(** [Flag._parse]: the flag's parser, its [ValueError] recast. *)
Definition parse_value (max_digits : nat) (f : flag_def) (arg : text) : res flag_value :=
  let illegal := Raise (FlagsError (IllegalFlagValue f.(flag_name) arg)) in
  match f.(kind) with
  | BoolFlag => match bool_convert arg with Some b => Ok (VBool b) | None => illegal end
  | StringFlag => Ok (VString arg)
  | IntFlag => match int_convert max_digits arg with Ok z => Ok (VInt z) | Raise _ => illegal end
  end.

(** ** [FlagValues._parse_args] *)

(** [arg] without its leading [--] or [-], split at the first [=]. *)
Definition split_arg (arg : text) : text * option text :=
  let body := match arg with
              | c1 :: c2 :: r => if bool_decide (c2 = "-"%char) then r else c2 :: r
              | _ :: r => r
              | [] => []
              end in
  match list_find (fun c => c = "="%char) body with
  | Some (i, _) => (take i body, Some (drop (S i) body))
  | None => (body, None)
  end.

(** The flags an argument refers to: a flag of that name, or the boolean
    flag [name] of [--noname]. *)
Definition lookup_arg (defs : list flag_def) (name : text) : option (flag_def * bool) :=
  match find_flag defs name with
  | Some f => Some (f, false)
  | None =>
      match name with
      | c1 :: c2 :: (_ :: _) as rest =>
          if bool_decide (c1 = "n"%char /\ c2 = "o"%char) then
            match find_flag defs rest with
            | Some f => if bool_decide (f.(kind) = BoolFlag) then Some (f, true) else None
            | None => None
            end
          else None
      | _ => None
      end
  end.

(** The state of the loop: the values, the unknown flags seen (name
    and argument) and the positional arguments. *)
Record parse_state := {
  values : gmap text flag_value;
  unknown : list (text * text);
  unparsed : list text
}.

Definition set_value (st : parse_state) (name : text) (v : flag_value) : parse_state :=
  {| values := <[name := v]> st.(values); unknown := st.(unknown); unparsed := st.(unparsed) |}.

Definition add_unknown (st : parse_state) (name arg : text) : parse_state :=
  {| values := st.(values); unknown := st.(unknown) ++ [(name, arg)]; unparsed := st.(unparsed) |}.

Definition add_unparsed (st : parse_state) (args : list text) : parse_state :=
  {| values := st.(values); unknown := st.(unknown); unparsed := st.(unparsed) ++ args |}.

Fixpoint parse_args (defs : list flag_def) (max_digits : nat) (st : parse_state) (args : list text)
  : res parse_state :=
  match args with
  | [] => Ok st
  | arg :: rest =>
      match arg with
      | c :: _ =>
          if negb (bool_decide (c = "-"%char)) then
            parse_args defs max_digits (add_unparsed st [arg]) rest
          else if bool_decide (arg = txt "--") then Ok (add_unparsed st rest)
          else
            let '(name, value) := split_arg arg in
            match name with
            | [] => parse_args defs max_digits (add_unparsed st [arg]) rest
            | _ =>
                match lookup_arg defs name with
                | Some (f, true) =>
                    match value with
                    | Some _ => Raise (ValueError (FlagTakesNoArgument arg))
                    | None =>
                        let* v := parse_value max_digits f (txt "false") in
                        parse_args defs max_digits (set_value st f.(flag_name) v) rest
                    end
                | Some (f, false) =>
                    match value, f.(kind) with
                    | Some a, _ =>
                        let* v := parse_value max_digits f a in
                        parse_args defs max_digits (set_value st f.(flag_name) v) rest
                    | None, BoolFlag =>
                        let* v := parse_value max_digits f (txt "true") in
                        parse_args defs max_digits (set_value st f.(flag_name) v) rest
                    | None, _ =>
                        match rest with
                        | a :: rest' =>
                            let* v := parse_value max_digits f a in
                            parse_args defs max_digits (set_value st f.(flag_name) v) rest'
                        | [] => Raise (FlagsError (MissingValue arg))
                        end
                    end
                | None => parse_args defs max_digits (add_unknown st name arg) rest
                end
            end
      | [] => parse_args defs max_digits (add_unparsed st [arg]) rest
      end
  end.

(** [FLAGS(argv)]: the values, and [argv[0]] with the positional
    arguments. *)
Definition parse_flags (defs : list flag_def) (max_digits : nat) (argv : list text)
  : res (gmap text flag_value * list text) :=
  match argv with
  | [] => Raise (ValueError (FlagTakesNoArgument []))
  | prog :: args =>
      let* st := parse_args defs max_digits {| values := defaults defs; unknown := []; unparsed := [] |} args in
      match st.(unknown) with
      | (name, _) :: _ => Raise (FlagsError (UnrecognizedFlag name))
      | [] => Ok (st.(values), prog :: st.(unparsed))
      end
  end.

(** ** Lemmas *)

Definition dashes : text := txt "--".

Lemma list_find_eq_app name v :
  "="%char ∉ name ->
  list_find (fun c => c = "="%char) (name ++ "="%char :: v) = Some (length name, "="%char).
Proof.
  induction name as [|c name IH]; intros Hn; [by cbn; rewrite decide_True|].
  cbn. rewrite decide_False by (intros ->; apply Hn; left). rewrite IH by (intros ?; apply Hn; by right).
  done.
Qed.

Lemma list_find_eq_none name : "="%char ∉ name -> list_find (fun c => c = "="%char) name = None.
Proof. intros Hn. apply list_find_None. by apply not_elem_of_Forall_ne. Qed.

Lemma split_arg_dashes body :
  split_arg (dashes ++ body) =
  match list_find (fun c => c = "="%char) body with
  | Some (i, _) => (take i body, Some (drop (S i) body))
  | None => (body, None)
  end.
Proof. reflexivity. Qed.

Lemma split_arg_value name v :
  "="%char ∉ name -> split_arg (dashes ++ name ++ "="%char :: v) = (name, Some v).
Proof.
  intros Hn. rewrite split_arg_dashes, list_find_eq_app by done. rewrite take_app_length.
  replace (S (length name)) with (length name + 1) by lia. by rewrite <-drop_drop, drop_app_length.
Qed.

Lemma split_arg_plain name : "="%char ∉ name -> split_arg (dashes ++ name) = (name, None).
Proof. intros Hn. by rewrite split_arg_dashes, list_find_eq_none. Qed.

Lemma parse_args_dashes defs max_digits st body rest :
  parse_args defs max_digits st ((dashes ++ body) :: rest) =
  if bool_decide (dashes ++ body = txt "--") then Ok (add_unparsed st rest)
  else
    let '(name, value) := split_arg (dashes ++ body) in
    match name with
    | [] => parse_args defs max_digits (add_unparsed st [dashes ++ body]) rest
    | _ =>
        match lookup_arg defs name with
        | Some (f, true) =>
            match value with
            | Some _ => Raise (ValueError (FlagTakesNoArgument (dashes ++ body)))
            | None =>
                let* v := parse_value max_digits f (txt "false") in
                parse_args defs max_digits (set_value st f.(flag_name) v) rest
            end
        | Some (f, false) =>
            match value, f.(kind) with
            | Some a, _ =>
                let* v := parse_value max_digits f a in
                parse_args defs max_digits (set_value st f.(flag_name) v) rest
            | None, BoolFlag =>
                let* v := parse_value max_digits f (txt "true") in
                parse_args defs max_digits (set_value st f.(flag_name) v) rest
            | None, _ =>
                match rest with
                | a :: rest' =>
                    let* v := parse_value max_digits f a in
                    parse_args defs max_digits (set_value st f.(flag_name) v) rest'
                | [] => Raise (FlagsError (MissingValue (dashes ++ body)))
                end
            end
        | None => parse_args defs max_digits (add_unknown st name (dashes ++ body)) rest
        end
    end.
Proof. reflexivity. Qed.

(** One argument [--name=value] of a flag [name]. *)
Lemma parse_args_assign defs max_digits st name v f x rest :
  name <> [] -> "="%char ∉ name -> lookup_arg defs name = Some (f, false) ->
  parse_value max_digits f v = Ok x ->
  parse_args defs max_digits st ((dashes ++ name ++ "="%char :: v) :: rest) =
  parse_args defs max_digits (set_value st f.(flag_name) x) rest.
Proof.
  intros Hne Hn Hl Hv. rewrite parse_args_dashes.
  rewrite bool_decide_eq_false_2 by (destruct name; [done|]; by intros [=]).
  rewrite (split_arg_value name v Hn). destruct name as [|c name]; [by destruct Hne|].
  cbn iota. rewrite Hl. by rewrite Hv.
Qed.

(** One argument [--name] of a boolean flag, or [--noname]. *)
Lemma parse_args_bool defs max_digits st name f neg x rest :
  name <> [] -> "="%char ∉ name -> lookup_arg defs name = Some (f, neg) -> f.(kind) = BoolFlag ->
  parse_value max_digits f (if neg then txt "false" else txt "true") = Ok x ->
  parse_args defs max_digits st ((dashes ++ name) :: rest) =
  parse_args defs max_digits (set_value st f.(flag_name) x) rest.
Proof.
  intros Hne Hn Hl Hk Hv. rewrite parse_args_dashes.
  rewrite bool_decide_eq_false_2 by (destruct name; [done|]; by intros [=]).
  rewrite (split_arg_plain name Hn). destruct name as [|c name]; [by destruct Hne|].
  cbn iota. rewrite Hl. destruct neg; [by rewrite Hv|]. rewrite Hk. by rewrite Hv.
Qed.

(** One argument [--name] that names no flag: recorded, and the loop
    goes on. *)
Lemma parse_args_unknown defs max_digits st name rest :
  name <> [] -> "="%char ∉ name -> lookup_arg defs name = None ->
  parse_args defs max_digits st ((dashes ++ name) :: rest) =
  parse_args defs max_digits (add_unknown st name (dashes ++ name)) rest.
Proof.
  intros Hne Hn Hl. rewrite parse_args_dashes.
  rewrite bool_decide_eq_false_2 by (destruct name; [done|]; by intros [=]).
  rewrite (split_arg_plain name Hn). destruct name as [|c name']; [by destruct Hne|].
  cbn iota. by rewrite Hl.
Qed.

(** One argument [--name=value] whose value the flag's parser rejects:
    the loop stops with that error. *)
Lemma parse_args_illegal defs max_digits st name v f e rest :
  name <> [] -> "="%char ∉ name -> lookup_arg defs name = Some (f, false) ->
  parse_value max_digits f v = Raise e ->
  parse_args defs max_digits st ((dashes ++ name ++ "="%char :: v) :: rest) = Raise e.
Proof.
  intros Hne Hn Hl Hv. rewrite parse_args_dashes.
  rewrite bool_decide_eq_false_2 by (destruct name; [done|]; by intros [=]).
  rewrite (split_arg_value name v Hn). destruct name as [|c name]; [by destruct Hne|].
  cbn iota. rewrite Hl. by rewrite Hv.
Qed.

Lemma parse_value_raise max_digits f v e :
  parse_value max_digits f v = Raise e -> e = FlagsError (IllegalFlagValue f.(flag_name) v).
Proof. unfold parse_value. by repeat case_match; intros [= <-]. Qed.

Lemma lookup_arg_elem defs name f b : lookup_arg defs name = Some (f, b) -> f ∈ defs.
Proof.
  unfold lookup_arg, find_flag. rewrite list_elem_of_In.
  destruct (List.find _ defs) as [f'|] eqn:E; [intros [= <- _]; by apply find_some in E as []|].
  repeat case_match; try discriminate. intros [= <- _]. by eapply find_some.
Qed.

(** The loop of [_parse_args] keeps any property of the state that its
    four updates keep: a positional argument, an unknown flag, and the
    value a flag's parser returns. *)
Section ParseInvariant.
Context (defs : list flag_def) (max_digits : nat) (P : parse_state -> Prop).
Hypothesis P_unparsed : forall st args, P st -> P (add_unparsed st args).
Hypothesis P_unknown : forall st name arg, P st -> P (add_unknown st name arg).
Hypothesis P_set : forall st f a v,
  f ∈ defs -> parse_value max_digits f a = Ok v -> P st -> P (set_value st f.(flag_name) v).

Lemma parse_args_inv args st st' : P st -> parse_args defs max_digits st args = Ok st' -> P st'.
Proof.
  remember (length args) as n eqn:Hn. revert args st Hn.
  induction (lt_wf n) as [n _ IH]; intros args st Hn HP Hp; subst n.
  destruct args as [|arg rest]; cbn in Hp; [by injection Hp as <-|].
  assert (Hrec : forall st0 args', parse_args defs max_digits st0 args' = Ok st' ->
            length args' < S (length rest) -> P st0 -> P st')
    by (intros st0 args' Hp' Hlt HP0; by eapply (IH (length args'))).
  destruct arg as [|c arg']; [eapply Hrec; [eassumption|cbn; lia|auto]|].
  destruct (negb _); [eapply Hrec; [eassumption|cbn; lia|auto]|].
  destruct (bool_decide _); [injection Hp as <-; auto|].
  destruct (split_arg _) as [name value].
  destruct name as [|n0 name']; [eapply Hrec; [eassumption|cbn; lia|auto]|].
  destruct (lookup_arg _ _) as [[f []]|] eqn:Hl; [apply lookup_arg_elem in Hl..|].
  - destruct value; [discriminate|]. apply rbind_Ok in Hp as (v & Hv & Hp).
    eapply Hrec; [eassumption|cbn; lia|eauto].
  - destruct value as [a|], (kind f);
      try (apply rbind_Ok in Hp as (v & Hv & Hp); eapply Hrec; [eassumption|cbn; lia|eauto]).
    all: destruct rest as [|a rest']; [discriminate|].
    all: apply rbind_Ok in Hp as (v & Hv & Hp); eapply Hrec; [eassumption|cbn; lia|eauto].
  - eapply Hrec; [eassumption|cbn; lia|auto].
Qed.

End ParseInvariant.

(** The unknown flags recorded before the loop stay the first ones. *)
Lemma parse_args_unknown_prefix defs max_digits args st st' :
  parse_args defs max_digits st args = Ok st' -> exists extra, st'.(unknown) = st.(unknown) ++ extra.
Proof.
  apply (parse_args_inv defs max_digits (fun st' => exists extra, st'.(unknown) = st.(unknown) ++ extra)).
  - done.
  - intros st0 name arg [extra Hx]. exists (extra ++ [(name, arg)]). cbn. by rewrite Hx, app_assoc.
  - done.
  - exists []. by rewrite app_nil_r.
Qed.

(** The kind of a value, and the parsers return values of their flag's
    kind. *)
Definition value_kind (v : flag_value) : flag_kind :=
  match v with VBool _ => BoolFlag | VString _ => StringFlag | VInt _ => IntFlag end.

Lemma parse_value_kind max_digits f a v :
  parse_value max_digits f a = Ok v -> value_kind v = f.(kind).
Proof. unfold parse_value. destruct (kind f); repeat case_match; by intros [= <-]. Qed.

Definition typed_values (defs : list flag_def) (vals : gmap text flag_value) : Prop :=
  map_Forall (fun name v => exists f, f ∈ defs /\ f.(flag_name) = name /\ value_kind v = f.(kind)) vals.

Lemma defaults_typed defs :
  Forall (fun f => value_kind f.(default) = f.(kind)) defs -> typed_values defs (defaults defs).
Proof.
  intros Hd name v Hl. apply elem_of_list_to_map_2, list_elem_of_fmap in Hl as (f & [= -> ->] & Hf).
  exists f. rewrite Forall_forall in Hd. auto.
Qed.

(** The text of [str(n)] is read in base 10. *)
Lemma int_convert_str max_digits n s :
  py_str_int max_digits n = Ok s -> int_convert max_digits s = py_int max_digits s.
Proof.
  unfold py_str_int. destruct (over_limit _ _); [discriminate|]. intros [= <-].
  pose proof (uint_chars_digits (N.to_uint (Z.abs_N n))) as Hd.
  unfold int_convert. case_bool_decide; [done|].
  destruct (uint_chars _) as [|z [|p [|r rs]]]; [by destruct (bool_decide _)..|].
  apply Forall_cons in Hd as [Hz Hd]. apply Forall_cons in Hd as [Hp _].
  destruct (bool_decide (n < 0)%Z); cbn in *; [by rewrite bool_decide_eq_false_2 in *|].
  exfalso. revert H. case_bool_decide; [|done]. subst z.
  repeat case_bool_decide; subst; try discriminate; done.
Qed.

Lemma parse_value_str max_digits f n s :
  f.(kind) = IntFlag -> py_str_int max_digits n = Ok s -> parse_value max_digits f s = Ok (VInt n).
Proof.
  intros Hk Hs. unfold parse_value. rewrite Hk, (int_convert_str _ _ _ Hs).
  by rewrite (str_int_roundtrip _ _ _ Hs).
Qed.

Definition init_state (defs : list flag_def) : parse_state :=
  {| values := defaults defs; unknown := []; unparsed := [] |}.

(** ** Properties *)

(** C26: An unknown flag does not stop the parse where it stands:
    [FLAGS(argv)] goes on with the rest of the command line, raises the
    first error found there (an illegal value, a missing one) if any, and
    only when the rest parses raises [UnrecognizedFlagError] on the
    unknown flag. *)
Theorem parse_flags_unknown defs max_digits prog name rest :
  name <> [] -> "="%char ∉ name -> lookup_arg defs name = None ->
  parse_flags defs max_digits (prog :: (dashes ++ name) :: rest) =
  match parse_args defs max_digits (add_unknown (init_state defs) name (dashes ++ name)) rest with
  | Ok _ => Raise (FlagsError (UnrecognizedFlag name))
  | Raise e => Raise e
  end.
Proof.
  intros Hne Hn Hl. unfold parse_flags. rewrite parse_args_unknown by done.
  unfold init_state. destruct (parse_args _ _ _ rest) as [st'|e] eqn:Hrest; [|done].
  cbn [rbind]. by destruct (parse_args_unknown_prefix _ _ _ _ _ Hrest) as [extra ->].
Qed.

(** C23: Every value [FLAGS(argv)] returns is of the kind of the flag
    it belongs to (a bool for [DEFINE_bool], a string for
    [DEFINE_string], an int for [DEFINE_integer]), given defaults of
    their flags' kinds. *)
Theorem parse_flags_typed defs max_digits argv vals rest :
  Forall (fun f => value_kind f.(default) = f.(kind)) defs ->
  parse_flags defs max_digits argv = Ok (vals, rest) ->
  typed_values defs vals.
Proof.
  intros Hd Hp. destruct argv as [|prog args]; [discriminate|]. cbn in Hp.
  apply rbind_Ok in Hp as (st & Hst & Hp).
  destruct (unknown st) as [|[]]; [|discriminate]. injection Hp as <- _.
  revert Hst. apply (parse_args_inv defs max_digits (fun st => typed_values defs st.(values))).
  - done.
  - done.
  - intros st0 f a v Hf Hv Ht. apply map_Forall_insert_2; [|done].
    exists f. split_and!; [done|done|]. by eapply parse_value_kind.
  - by apply defaults_typed.
Qed.

(** C27: The order of the errors: after any number of unknown flags, a
    value [--name=v] that the flag's parser rejects is what [FLAGS(argv)]
    reports ([IllegalFlagValueError]), not the unknown flags, whatever
    follows it. *)
Theorem parse_flags_illegal_first defs max_digits prog unknowns name v f rest :
  Forall (fun u => u <> [] /\ "="%char ∉ u /\ lookup_arg defs u = None) unknowns ->
  name <> [] -> "="%char ∉ name -> lookup_arg defs name = Some (f, false) ->
  (forall x, parse_value max_digits f v <> Ok x) ->
  parse_flags defs max_digits
    (prog :: map (app dashes) unknowns ++ (dashes ++ name ++ "="%char :: v) :: rest) =
  Raise (FlagsError (IllegalFlagValue f.(flag_name) v)).
Proof.
  intros Hus Hne Hn Hl Hv.
  destruct (parse_value max_digits f v) as [x|e] eqn:Hpv; [by destruct (Hv x)|].
  rewrite <-(parse_value_raise _ _ _ _ Hpv). unfold parse_flags.
  enough (Hloop : forall st, parse_args defs max_digits st
            (map (app dashes) unknowns ++ (dashes ++ name ++ "="%char :: v) :: rest) = Raise e)
    by (by rewrite Hloop).
  induction Hus as [|u us (Hu1 & Hu2 & Hu3) _ IH]; intros st; cbn [map app].
  - by apply (parse_args_illegal _ _ _ _ _ f).
  - rewrite parse_args_unknown by done. apply IH.
Qed.

(** ** Concrete runs *)

Lemma parse_flags_unknown_witness :
  lookup_arg run_dqn_flags (txt "bogus") = None /\
  parse_flags run_dqn_flags default_max_str_digits
    [txt "run_dqn_custom.py"; dashes ++ txt "bogus"; txt "--seed=abc"] =
  Raise (FlagsError (IllegalFlagValue (txt "seed") (txt "abc"))) /\
  parse_flags run_dqn_flags default_max_str_digits
    [txt "run_dqn_custom.py"; dashes ++ txt "bogus"; txt "--seed=12"] =
  Raise (FlagsError (UnrecognizedFlag (txt "bogus"))).
Proof.
  split; [vm_compute; reflexivity|].
  split; rewrite parse_flags_unknown; try discriminate;
    try (apply (bool_decide_unpack _); vm_compute; reflexivity);
    vm_compute; reflexivity.
Defined.

Lemma parse_flags_typed_witness :
  Forall (fun f => value_kind f.(default) = f.(kind)) run_dqn_flags /\
  typed_values run_dqn_flags
    (match parse_flags run_dqn_flags default_max_str_digits
             [txt "run_dqn_custom.py"; txt "--seed=7"; txt "--norun_distributed"] with
     | Ok (vals, _) => vals
     | Raise _ => ∅
     end).
Proof.
  assert (Hd : Forall (fun f => value_kind f.(default) = f.(kind)) run_dqn_flags)
    by repeat constructor.
  split; [exact Hd|].
  apply (parse_flags_typed run_dqn_flags default_max_str_digits
           [txt "run_dqn_custom.py"; txt "--seed=7"; txt "--norun_distributed"] _
           [txt "run_dqn_custom.py"] Hd).
  vm_compute. reflexivity.
Defined.

Lemma parse_flags_illegal_first_witness :
  Forall (fun u => u <> [] /\ "="%char ∉ u /\ lookup_arg run_dqn_flags u = None)
    [txt "bogus"; txt "other"] /\
  parse_flags run_dqn_flags default_max_str_digits
    [txt "run_dqn_custom.py"; txt "--bogus"; txt "--other"; txt "--seed=abc"; txt "--nope"] =
  Raise (FlagsError (IllegalFlagValue (txt "seed") (txt "abc"))).
Proof.
  assert (Hus : Forall (fun u => u <> [] /\ "="%char ∉ u /\ lookup_arg run_dqn_flags u = None)
                  [txt "bogus"; txt "other"]).
  { repeat constructor; try discriminate; try reflexivity;
      apply (bool_decide_unpack _); vm_compute; reflexivity. }
  split; [exact Hus|].
  exact (parse_flags_illegal_first run_dqn_flags default_max_str_digits (txt "run_dqn_custom.py")
           _ (txt "seed") (txt "abc") seed_flag [txt "--nope"] Hus
           ltac:(discriminate) ltac:(apply (bool_decide_unpack _); vm_compute; reflexivity)
           eq_refl ltac:(intros x; vm_compute; discriminate)).
Defined.

End AbslFlags.
