(* ===== verification/PyModule.v ===== *)
(** * PyModule: executing a module body

    The [bve] package and both scripts begin with statements that run
    once, when the module is executed: a docstring, [import] and
    [from ... import ...] statements, assignments and [def]s that bind
    names, and (in [run_dqn_custom.py]) [flags.DEFINE_*] calls that
    register flags in absl's global [FLAGS].  Module [PyModule] models
    them as statements of the monad [PyM] over a module state
    ([mstate]): the module's globals and absl's flag registry.  The
    importable modules (what [sys.modules] and the finders provide) are
    a table from dotted names to namespaces; a module outside the
    repository is known only by its namespace.

    - [import a.b.c] imports [a], [a.b], [a.b.c] in turn
      ([importlib._bootstrap._find_and_load] imports the parent first)
      and binds [a] ([IMPORT_NAME] returns the top-level package);
    - [import a.b as c] binds [c] to the module [a.b];
    - [from a.b import n] binds [n] to the attribute [n] of [a.b] or,
      failing that, to the submodule [a.b.n] ([_handle_fromlist], then
      [IMPORT_FROM]); otherwise it raises [ImportError];
    - a missing module raises [ModuleNotFoundError] naming the first
      missing dotted prefix;
    - [flags.DEFINE_*(name, ...)] registers the flag
      ([FlagValues.__setitem__]) and raises [DuplicateFlagError] for a
      name already registered, then the [FlagHolder] is bound.

    A statement that raises leaves the state as it was; the statements
    before it keep their effects ([exec_body_fail]). *)

From stdpp Require Import gmap.
From S2P Require Import Prelude Flags.

Module PyModule.

(** ** Objects, namespaces, statements *)

Inductive obj :=
  | ModuleObj (name : text)
  | StrObj (s : text)
  | FuncObj (name : text)
  | FlagHolderObj (flag : text)
  | ExtObj (id : N).              (** an object of a module outside the repository *)

#[global] Instance obj_eq_dec : EqDecision obj.
Proof. solve_decision. Defined.

Abbreviation namespace := (gmap text obj).

(** The importable modules by dotted name, with their namespaces. *)
Abbreviation modules := (gmap text namespace).

Record mstate := { globals : namespace; flag_registry : list AbslFlags.flag_def }.

(** Before the body runs the interpreter binds [__name__]; absl's
    registry holds no flag of the script yet. *)
Definition init_mstate (name : text) : mstate :=
  {| globals := {[txt "__name__" := StrObj name]}; flag_registry := [] |}.

Inductive stmt :=
  | Docstring (s : text)
  | Import (module : text)
  | ImportAs (module asname : text)
  | ImportFrom (module name : text)
  | Assign (name : text) (o : obj)              (** [name = ...] and [def name(...)] *)
  | DefineFlag (holder : text) (d : AbslFlags.flag_def).  (** [holder = flags.DEFINE_*(...)] *)

(** ** Imports *)

(** ["a.b.c"] gives ["a"; "a.b"; "a.b.c"]. *)
Fixpoint prefixes_from (acc : text) (t : text) : list text :=
  match t with
  | [] => [acc]
  | c :: t' =>
      if bool_decide (c = "."%char) then acc :: prefixes_from (acc ++ [c]) t'
      else prefixes_from (acc ++ [c]) t'
  end.

Definition dotted_prefixes (name : text) : list text := prefixes_from [] name.

Definition top_level (name : text) : text := default name (head (dotted_prefixes name)).

(** [_gcd_import(name)]: each parent first; the namespace of [name]. *)
Definition import_module (mods : modules) (name : text) : res namespace :=
  match List.find (fun p => bool_decide (mods !! p = None)) (dotted_prefixes name) with
  | Some p => Raise (ModuleNotFoundError p)
  | None => of_option (ModuleNotFoundError name) (mods !! name)
  end.

(** [from module import name]: the attribute, else the submodule. *)
Definition from_import (mods : modules) (module name : text) : res obj :=
  let* ns := import_module mods module in
  match ns !! name with
  | Some o => Ok o
  | None =>
      let sub := module ++ "."%char :: name in
      match mods !! sub with
      | Some _ => Ok (ModuleObj sub)
      | None => Raise (ImportError name module)
      end
  end.

(** ** Execution *)

Definition bind_global (name : text) (o : obj) : PyM mstate unit := fun m =>
  (Ok tt, {| globals := <[name := o]> m.(globals); flag_registry := m.(flag_registry) |}).

(** [FlagValues.__setitem__] of a new flag. *)
Definition define_flag (d : AbslFlags.flag_def) : PyM mstate unit := fun m =>
  match AbslFlags.find_flag m.(flag_registry) d.(AbslFlags.flag_name) with
  | Some _ => (Raise (FlagsError (DuplicateFlag d.(AbslFlags.flag_name))), m)
  | None => (Ok tt, {| globals := m.(globals); flag_registry := m.(flag_registry) ++ [d] |})
  end.

Definition exec_stmt (mods : modules) (s : stmt) : PyM mstate unit :=
  match s with
  | Docstring d => bind_global (txt "__doc__") (StrObj d)
  | Import module =>
      do* _ := plift (import_module mods module) in
      bind_global (top_level module) (ModuleObj (top_level module))
  | ImportAs module asname =>
      do* _ := plift (import_module mods module) in bind_global asname (ModuleObj module)
  | ImportFrom module name => do* o := plift (from_import mods module name) in bind_global name o
  | Assign name o => bind_global name o
  | DefineFlag holder d =>
      do* _ := define_flag d in bind_global holder (FlagHolderObj d.(AbslFlags.flag_name))
  end.

Fixpoint exec_body (mods : modules) (body : list stmt) : PyM mstate unit :=
  match body with
  | [] => pret tt
  | s :: rest => do* _ := exec_stmt mods s in exec_body mods rest
  end.

(** ** What a statement binds and registers *)

Definition binds (s : stmt) : text :=
  match s with
  | Docstring _ => txt "__doc__"
  | Import module => top_level module
  | ImportAs _ asname => asname
  | ImportFrom _ name => name
  | Assign name _ => name
  | DefineFlag holder _ => holder
  end.

Definition registers (s : stmt) : list AbslFlags.flag_def :=
  match s with DefineFlag _ d => [d] | _ => [] end.

(** The object a successful statement binds. *)
Definition stmt_obj (mods : modules) (s : stmt) : res obj :=
  match s with
  | Docstring d => Ok (StrObj d)
  | Import module => let* _ := import_module mods module in Ok (ModuleObj (top_level module))
  | ImportAs module _ => let* _ := import_module mods module in Ok (ModuleObj module)
  | ImportFrom module name => from_import mods module name
  | Assign _ o => Ok o
  | DefineFlag _ d => Ok (FlagHolderObj d.(AbslFlags.flag_name))
  end.

(** The names bound in a namespace, as [LOAD_GLOBAL] sees them. *)
Definition global_names (g : namespace) : list text := map fst (map_to_list g).

(** The exceptions of a module body of these statements. *)
Inductive body_exn : exn -> Prop :=
  | bx_module p : body_exn (ModuleNotFoundError p)
  | bx_import n p : body_exn (ImportError n p)
  | bx_duplicate n : body_exn (FlagsError (DuplicateFlag n)).

(** ** Lemmas *)

Section Exec.
Context (mods : modules).

Definition with_binding (m : mstate) (s : stmt) (o : obj) : mstate :=
  {| globals := <[binds s := o]> m.(globals); flag_registry := m.(flag_registry) ++ registers s |}.

Definition flag_names (defs : list AbslFlags.flag_def) : list text :=
  map AbslFlags.flag_name defs.

Lemma find_flag_None defs name :
  name ∉ flag_names defs -> AbslFlags.find_flag defs name = None.
Proof.
  induction defs as [|d defs IH]; intros Hn; [done|]. cbn in *.
  rewrite bool_decide_eq_false_2; [apply IH|]; set_solver.
Qed.

Lemma find_flag_Some defs name d :
  AbslFlags.find_flag defs name = Some d -> name ∈ flag_names defs.
Proof.
  induction defs as [|d' defs IH]; cbn; [done|].
  case_bool_decide; [intros [= <-]; subst; left|intros; right; auto].
Qed.

Lemma global_names_spec (g : namespace) n : n ∈ global_names g <-> is_Some (g !! n).
Proof.
  unfold global_names. rewrite list_elem_of_fmap. split.
  - intros ([i x] & -> & Hin). apply elem_of_map_to_list in Hin. by eexists.
  - intros [x Hx]. exists (n, x). split; [done|]. by apply elem_of_map_to_list.
Qed.

Lemma find_missing_none ps :
  Forall (fun p => is_Some (mods !! p)) ps ->
  List.find (fun p => bool_decide (mods !! p = None)) ps = None.
Proof.
  induction 1 as [|p ps [o Ho] _ IH]; [done|]. cbn.
  by rewrite bool_decide_eq_false_2 by by rewrite Ho.
Qed.

Lemma import_module_ok name ns :
  Forall (fun p => is_Some (mods !! p)) (dotted_prefixes name) -> mods !! name = Some ns ->
  import_module mods name = Ok ns.
Proof. intros Hp Hn. unfold import_module. by rewrite find_missing_none, Hn. Qed.

(** The first missing prefix is the one reported. *)
Lemma import_module_missing name pre p post :
  dotted_prefixes name = pre ++ p :: post -> Forall (fun q => is_Some (mods !! q)) pre ->
  mods !! p = None -> import_module mods name = Raise (ModuleNotFoundError p).
Proof.
  intros Hd Hpre Hp. unfold import_module. rewrite Hd. clear Hd.
  induction Hpre as [|q pre [o Ho] _ IH]; cbn.
  - by rewrite bool_decide_eq_true_2.
  - rewrite bool_decide_eq_false_2 by by rewrite Ho. exact IH.
Qed.

(** A statement that raises changes nothing. *)
Lemma exec_stmt_raise s m e m' : exec_stmt mods s m = (Raise e, m') -> m' = m.
Proof.
  destruct s; cbn; unfold pbind, plift, bind_global, define_flag;
    repeat case_match; intros; simplify_eq; done.
Qed.

Lemma exec_stmt_ok s m u m' :
  exec_stmt mods s m = (Ok u, m') -> exists o, stmt_obj mods s = Ok o /\ m' = with_binding m s o.
Proof.
  unfold with_binding. destruct s; cbn; unfold pbind, plift, bind_global, define_flag;
    repeat case_match; simplify_eq; intros [= <- <-]; eexists; split; try done;
    by rewrite ?app_nil_r.
Qed.

Lemma exec_stmt_obj_raise s m e :
  stmt_obj mods s = Raise e -> exec_stmt mods s m = (Raise e, m).
Proof.
  destruct s; cbn; unfold pbind, plift; try discriminate.
  1,2: by destruct (import_module mods module); intros [= ->].
  by intros ->.
Qed.

Lemma exec_stmt_succeeds s m o :
  stmt_obj mods s = Ok o ->
  Forall (fun d => d.(AbslFlags.flag_name) ∉ flag_names m.(flag_registry)) (registers s) ->
  exec_stmt mods s m = (Ok tt, with_binding m s o).
Proof.
  intros Ho Hf. unfold with_binding.
  destruct s; cbn in Ho, Hf |- *; unfold pbind, plift, bind_global, define_flag.
  1,5: injection Ho as <-; by rewrite app_nil_r.
  1,2: destruct (import_module mods module); simplify_eq/=; by rewrite app_nil_r.
  - rewrite Ho. by rewrite app_nil_r.
  - injection Ho as <-. apply Forall_cons in Hf as [Hd _]. by rewrite find_flag_None.
Qed.

Lemma exec_body_app b1 b2 m :
  exec_body mods (b1 ++ b2) m =
    match exec_body mods b1 m with
    | (Ok _, m1) => exec_body mods b2 m1
    | (Raise e, m1) => (Raise e, m1)
    end.
Proof.
  revert m; induction b1 as [|s b1 IH]; intros m; [done|]. cbn. unfold pbind.
  destruct (exec_stmt mods s m) as [[]]; [apply IH|done].
Qed.

Lemma exec_body_fail pre s post m m1 e m1' :
  exec_body mods pre m = (Ok tt, m1) -> exec_stmt mods s m1 = (Raise e, m1') ->
  exec_body mods (pre ++ s :: post) m = (Raise e, m1).
Proof.
  intros Hpre Hs. rewrite exec_body_app, Hpre. cbn. unfold pbind. rewrite Hs.
  by rewrite (exec_stmt_raise _ _ _ _ Hs).
Qed.

Lemma exec_body_registry body m u m' :
  exec_body mods body m = (Ok u, m') ->
  m'.(flag_registry) = m.(flag_registry) ++ concat (map registers body).
Proof.
  revert m; induction body as [|s body IH]; intros m; cbn.
  - intros [= _ <-]. by rewrite app_nil_r.
  - unfold pbind. destruct (exec_stmt mods s m) as [[] m1] eqn:Hs; [|done].
    intros Hb. apply exec_stmt_ok in Hs as (o & _ & ->). rewrite (IH _ Hb). cbn.
    by rewrite app_assoc.
Qed.

Lemma exec_body_names body m u m' n :
  exec_body mods body m = (Ok u, m') ->
  is_Some (m'.(globals) !! n) <-> is_Some (m.(globals) !! n) \/ n ∈ map binds body.
Proof.
  revert m; induction body as [|s body IH]; intros m; cbn.
  - intros [= _ <-]. set_solver.
  - unfold pbind. destruct (exec_stmt mods s m) as [[] m1] eqn:Hs; [|done].
    intros Hb. apply exec_stmt_ok in Hs as (o & _ & ->). rewrite (IH _ Hb). cbn.
    rewrite lookup_insert_is_Some'. set_solver.
Qed.

Lemma exec_body_unbound body m r m' n :
  exec_body mods body m = (r, m') -> n ∉ map binds body -> m'.(globals) !! n = m.(globals) !! n.
Proof.
  revert m; induction body as [|s body IH]; intros m; cbn; [by intros [= _ <-]|].
  unfold pbind. destruct (exec_stmt mods s m) as [[] m1] eqn:Hs.
  - intros Hb Hn. apply exec_stmt_ok in Hs as (o & _ & ->). rewrite (IH _ Hb) by set_solver.
    cbn. rewrite lookup_insert_ne; set_solver.
  - intros [= _ <-] _. by rewrite (exec_stmt_raise _ _ _ _ Hs).
Qed.

Lemma import_module_raises mods' name : raises_only body_exn (import_module mods' name).
Proof.
  intros e. unfold import_module, of_option. repeat case_match; intros [= <-]; constructor.
Qed.

Lemma exec_body_raises body m : raises_only body_exn (exec_body mods body m).1.
Proof.
  revert m; induction body as [|s body IH]; intros m; cbn; [done|].
  unfold pbind. destruct (exec_stmt mods s m) as [[] m1] eqn:Hs; [apply IH|].
  intros e' [= <-]. revert Hs. destruct s; cbn; unfold pbind, plift, bind_global, define_flag.
  1,5: done.
  1,2: destruct (import_module mods module) eqn:Hi; [done|]; intros; simplify_eq;
       by apply (import_module_raises mods module).
  - unfold from_import. destruct (import_module mods module) eqn:Hi; cbn.
    + repeat case_match; intros; simplify_eq; constructor.
    + intros; simplify_eq. by apply (import_module_raises mods module).
  - destruct (AbslFlags.find_flag _ _); intros; simplify_eq; constructor.
Qed.

(** With distinct names, each name holds what its statement bound; the
    other names keep their values. *)
Lemma exec_body_lookup body m u m' :
  exec_body mods body m = (Ok u, m') -> NoDup (map binds body) ->
  Forall (fun s => exists o, stmt_obj mods s = Ok o /\ m'.(globals) !! binds s = Some o) body /\
  (forall n, n ∉ map binds body -> m'.(globals) !! n = m.(globals) !! n).
Proof.
  revert m; induction body as [|s body IH]; intros m; cbn.
  - intros [= _ <-]. done.
  - unfold pbind. destruct (exec_stmt mods s m) as [[] m1] eqn:Hs; [|done].
    intros Hb Hnd. inversion Hnd as [|? ? Hn Hnd']; subst.
    apply exec_stmt_ok in Hs as (o & Ho & ->). destruct (IH _ Hb Hnd') as [Hall Hother].
    split.
    + constructor; [|done]. exists o. split; [done|]. rewrite Hother by done. cbn.
      by rewrite lookup_insert_eq.
    + intros n Hn'. rewrite Hother by set_solver. cbn. rewrite lookup_insert_ne; set_solver.
Qed.

(** The body runs to its end when every statement finds what it imports
    and the flags it defines are distinct and not yet registered. *)
Lemma exec_body_succeeds body m :
  Forall (fun s => exists o, stmt_obj mods s = Ok o) body ->
  NoDup (flag_names (concat (map registers body))) ->
  Forall (fun d => d.(AbslFlags.flag_name) ∉ flag_names m.(flag_registry)) (concat (map registers body)) ->
  exists m', exec_body mods body m = (Ok tt, m').
Proof.
  revert m; induction body as [|s body IH]; intros m Hs Hnd Hnew; cbn; [by eexists|].
  apply Forall_cons in Hs as [[o Ho] Hs]. cbn in Hnd, Hnew.
  unfold flag_names in Hnd. rewrite map_app, NoDup_app in Hnd. destruct Hnd as (_ & Hdis & Hnd).
  apply Forall_app in Hnew as [Hnew1 Hnew2].
  unfold pbind. rewrite (exec_stmt_succeeds s m o Ho Hnew1).
  apply IH; [done|done|]. apply Forall_forall. intros d Hd. cbn. unfold flag_names.
  rewrite map_app, elem_of_app. intros [H|H].
  - revert H. by apply (proj1 (Forall_forall _ _) Hnew2).
  - apply (Hdis _ H). by apply list_elem_of_fmap_2.
Qed.

End Exec.

End PyModule.
