(* ===== verification/Bve.v ===== *)
(** * Bve: [src/acme/agents/jax/bve/__init__.py]

    The package [acme.agents.jax.bve] has a docstring (line 15) and
    re-exports four names of its submodules with
    [from <submodule> import <name>] (lines 17 to 20).  Module [Bve]
    writes the package body as statements of [PyModule] and executes it
    with [PyModule.exec_body]: the submodules are not in the repository,
    so the table of importable modules is a parameter.  Executing the
    body binds [__doc__] and each name in the package namespace, in
    order, or raises [ModuleNotFoundError] for a missing (sub)module or
    [ImportError] for a name the submodule neither defines nor has as a
    submodule; the names bound before the failing statement stay
    bound. *)

From stdpp Require Import gmap.
From S2P Require Import Prelude PyModule.

Module Bve.
Import PyModule.







(** ** Lemmas *)




(** ** Properties *)



(** ** Concrete runs *)





End Bve.
