(* ===== verification/ProcessLogs.v ===== *)
(** * ProcessLogs: [src/scripts/process_logs.py]

    The file as a module body (lines 1 and 2, [PyModule] statements)
    followed by the test of [__name__] ([script]), and its [__main__]
    block as one program in the
    state-and-exception monad [PyM] over a [world]: the file system it
    reads and the output it produces (printed objects and the plot handed
    to matplotlib).  Each statement of the block is one step of [main];
    an exception stops the block and keeps the output produced so far.

    The interpreter settings are a record [interp]: the [_csv] runtime
    (field limit, NUL handling) and [sys.get_int_max_str_digits()].
    [plt.plot(x, y)] is modelled by its documented contract: it records
    the two sequences, and raises [ValueError] when their lengths differ.
    [load] is what each [with open(...)] block (lines 9 to 24) gives its
    list: the rows of the file through [open()] and [csv.reader]. *)

From stdpp Require Import gmap.
From S2P Require Import Prelude TextIO Csv CsvRoundtrip PyNum PyFloat PyModule.
Import TextIO Csv PyInt PyFloat PyModule.

Module ProcessLogs.

(** ** The world *)

(** The objects the script prints: a [str] or a [list] of them. *)
Inductive pyobj := PStr (s : text) | PList (l : list pyobj).

Inductive event :=
  | Print (v : pyobj)
  | Plot (xs : list Z) (ys : list py_float).

Record world := mk_world { fs : filesystem; out : list event }.

Record interp := { csv_runtime : runtime; max_str_digits : nat }.

Definition default_interp : interp :=
  {| csv_runtime := default_runtime; max_str_digits := default_max_str_digits |}.

(** ** Statements *)

Definition results_dir : text := txt "server_results/acme/20230526-154853/logs".

Definition actor_path : text := results_dir ++ txt "/actor/logs.csv".
Definition evaluator_path : text := results_dir ++ txt "/evaluator/logs.csv".
Definition learner_path : text := results_dir ++ txt "/learner/logs.csv".

(** [with open(path) as fp: reader = csv.reader(fp, delimiter=",",
    quotechar=...); data = [row for row in reader]]. *)
Definition read_log (py : interp) (path : text) : PyM world (list (list text)) :=
  fun w => (let* lines := open_lines w.(fs) path in
            read_csv log_dialect py.(csv_runtime) lines, w).

Definition emit (e : event) : PyM world unit :=
  fun w => (Ok tt, mk_world w.(fs) (w.(out) ++ [e])).

(** [print(x)]. *)
Definition py_print (v : pyobj) : PyM world unit := emit (Print v).

(** [plt.plot(x, y)]. *)
Definition plt_plot (xs : list Z) (ys : list py_float) : PyM world unit :=
  if bool_decide (length xs = length ys) then emit (Plot xs ys)
  else praise (ValueError PlotShapeMismatch).

(** [int(row[1])] and [float(row[6])]. *)
Definition actor_step (py : interp) (row : list text) : res Z :=
  let* c := py_getitem row 1 in py_int py.(max_str_digits) c.

Definition episode_return_of (row : list text) : res py_float :=
  let* c := py_getitem row 6 in py_float_of c.

(** The [if __name__ == "__main__":] block. *)
Definition main (py : interp) : PyM world unit :=
  do* actor_data := read_log py actor_path in
  do* evaluator_data := read_log py evaluator_path in
  do* learner_data := read_log py learner_path in
  do* last := plift (py_getitem learner_data (-1)) in
  do* _ := py_print (PList (map PStr last)) in
  do* actor_steps := plift (py_listcomp (actor_step py) (py_slice_from evaluator_data 1)) in
  do* episode_return := plift (py_listcomp episode_return_of (py_slice_from evaluator_data 1)) in
  do* _ := plt_plot actor_steps episode_return in
  py_print (PStr (txt "yo")).

(** The exceptions the block can raise: a missing log, a malformed CSV
    file, an index out of range, and the [ValueError]s of [int()] and
    [float()]. *)
Inductive main_exn : exn -> Prop :=
  | mx_file p : p = actor_path \/ p = evaluator_path \/ p = learner_path ->
      main_exn (FileNotFoundError p)
  | mx_csv c : main_exn (CsvError c)
  | mx_index : main_exn IndexError
  | mx_int s : main_exn (ValueError (IntLiteral s))
  | mx_digits m n : main_exn (ValueError (IntDigitLimit m n))
  | mx_float s : main_exn (ValueError (FloatLiteral s)).

(** ** Running [main] *)

(** What [read_log] returns: the rows of the file, or the exception of
    [open()] or of the reader. *)
Definition load (py : interp) (fs : filesystem) (path : text) : res (list (list text)) :=
  let* lines := open_lines fs path in read_csv log_dialect py.(csv_runtime) lines.

(** ** The module *)

(** Lines 1 and 2: [import csv], [import matplotlib.pyplot as plt]. *)
Definition body : list PyModule.stmt :=
  [PyModule.Import (txt "csv"); PyModule.ImportAs (txt "matplotlib.pyplot") (txt "plt")].

(** Running the file: the module body, then line 5's test of
    [__name__], which guards the block [main]. *)
Definition script (mods : PyModule.modules) (py : interp) : PyM (PyModule.mstate * world) unit :=
  fun '(m, w) =>
    match PyModule.exec_body mods body m with
    | (Raise e, m') => (Raise e, (m', w))
    | (Ok _, m') =>
        if bool_decide (m'.(PyModule.globals) !! txt "__name__" =
                        Some (PyModule.StrObj (txt "__main__")))
        then let '(r, w') := main py w in (r, (m', w'))
        else (Ok tt, (m', w))
    end.

(** The value a decimal literal cell denotes ([PyFloat.literal_value]). *)
Definition lit_value (l : option bool * text * option text * option (option bool * text)) : py_float :=
  let '(sg, ip, fp, ex) := l in literal_value sg ip fp ex.

Lemma emit_run e w : emit e w = (Ok tt, mk_world w.(fs) (w.(out) ++ [e])).
Proof. done. Qed.

(** [main] statement by statement: each exception stops the block with
    the output produced so far. *)
Lemma main_run py w :
  main py w =
  match load py w.(fs) actor_path with
  | Raise e => (Raise e, w)
  | Ok _ =>
  match load py w.(fs) evaluator_path with
  | Raise e => (Raise e, w)
  | Ok E =>
  match load py w.(fs) learner_path with
  | Raise e => (Raise e, w)
  | Ok L =>
  match py_getitem L (-1) with
  | Raise e => (Raise e, w)
  | Ok last =>
    let out1 := w.(out) ++ [Print (PList (map PStr last))] in
    match py_listcomp (actor_step py) (py_slice_from E 1) with
    | Raise e => (Raise e, mk_world w.(fs) out1)
    | Ok ns =>
    match py_listcomp episode_return_of (py_slice_from E 1) with
    | Raise e => (Raise e, mk_world w.(fs) out1)
    | Ok vs =>
      if bool_decide (length ns = length vs)
      then (Ok tt, mk_world w.(fs) (out1 ++ [Plot ns vs] ++ [Print (PStr (txt "yo"))]))
      else (Raise (ValueError PlotShapeMismatch), mk_world w.(fs) out1)
    end end end end end end.
Proof.
  unfold main, pbind, read_log, plift, py_print, emit, plt_plot, praise, load. cbn [fs out].
  repeat case_match; simplify_eq; try done.
  rewrite emit_run in *. simplify_eq. cbn. by rewrite <-app_assoc.
Qed.

(** ** The exceptions of [main] *)

#[local] Hint Constructors main_exn : pylib.

Lemma load_raises py fs p :
  p = actor_path \/ p = evaluator_path \/ p = learner_path ->
  raises_only main_exn (load py fs p).
Proof.
  intros Hp. unfold load, open_lines. raises_tac.
  eapply raises_only_weaken; [apply read_csv_raises|]. intros e [c ->]. constructor.
Qed.

Lemma getitem_raises {A} (l : list A) i : raises_only main_exn (py_getitem l i).
Proof.
  eapply raises_only_weaken; [apply py_getitem_raises|]. intros ? <-. constructor.
Qed.
#[local] Hint Resolve getitem_raises : pylib.

Lemma actor_step_raises py row : raises_only main_exn (actor_step py row).
Proof. unfold actor_step, py_int. raises_tac. Qed.

Lemma episode_return_raises row : raises_only main_exn (episode_return_of row).
Proof. unfold episode_return_of, py_float_of, float_inner. raises_tac. Qed.

#[local] Hint Resolve actor_step_raises episode_return_raises : pylib.

(** A log written by the logger's [csv.writer] (excel dialect). *)
Definition written (fs : filesystem) (path : text) (rows : list (list text)) : Prop :=
  exists s, writerows excel rows = Ok s /\ fs !! path = Some s.

Lemma load_written py fs path rows :
  Forall (Forall (field_ok py.(csv_runtime))) rows -> written fs path rows ->
  load py fs path = Ok rows.
Proof.
  intros Hrows (s & Hw & Hfs). unfold load, open_lines. rewrite Hfs. cbn [rbind].
  destruct (write_read excel py.(csv_runtime) DQUOTE (excel_ok _) rows Hrows)
    as (s' & Hw' & Hr).
  rewrite Hw in Hw'. injection Hw' as <-. by rewrite log_dialect_excel.
Qed.

Lemma actor_step_str py row n s :
  row !! 1 = Some s -> py_str_int py.(max_str_digits) n = Ok s -> actor_step py row = Ok n.
Proof.
  intros Hrow Hs. unfold actor_step.
  change (py_getitem row 1) with (py_getitem row (Z.of_nat 1)). rewrite py_getitem_nat, Hrow. cbn.
  by apply str_int_roundtrip.
Qed.

Lemma episode_return_float row v s :
  row !! 6 = Some s -> py_float_of s = Ok v -> episode_return_of row = Ok v.
Proof.
  intros Hrow Hs. unfold episode_return_of.
  change (py_getitem row 6) with (py_getitem row (Z.of_nat 6)). by rewrite py_getitem_nat, Hrow.
Qed.

(** [main] on logs the logger wrote, the lemma behind [main_end_to_end]. *)
Lemma main_written py w actor_rows header eval_rows learner_prev last_row ns vs :
  Forall (Forall (field_ok py.(csv_runtime))) actor_rows ->
  Forall (Forall (field_ok py.(csv_runtime))) (header :: eval_rows) ->
  Forall (Forall (field_ok py.(csv_runtime))) (learner_prev ++ [last_row]) ->
  written w.(fs) actor_path actor_rows ->
  written w.(fs) evaluator_path (header :: eval_rows) ->
  written w.(fs) learner_path (learner_prev ++ [last_row]) ->
  Forall2 (fun row n => exists s, row !! 1 = Some s /\ py_str_int py.(max_str_digits) n = Ok s)
    eval_rows ns ->
  Forall2 (fun row v => exists s, row !! 6 = Some s /\ py_float_of s = Ok v) eval_rows vs ->
  main py w = (Ok tt, mk_world w.(fs)
    (w.(out) ++ [Print (PList (map PStr last_row)); Plot ns vs; Print (PStr (txt "yo"))])).
Proof.
  intros Ha He Hl Hwa Hwe Hwl Hns Hvs. rewrite main_run.
  rewrite (load_written _ _ _ _ Ha Hwa), (load_written _ _ _ _ He Hwe), (load_written _ _ _ _ Hl Hwl).
  rewrite py_getitem_last, py_slice_from_1.
  change (drop 1 (header :: eval_rows)) with eval_rows.
  assert (py_listcomp (actor_step py) eval_rows = Ok ns) as ->.
  { apply py_listcomp_Ok. eapply Forall2_impl; [done|].
    intros row n (s & ? & ?). by eapply actor_step_str. }
  assert (py_listcomp episode_return_of eval_rows = Ok vs) as ->.
  { apply py_listcomp_Ok. eapply Forall2_impl; [done|].
    intros row v (s & ? & ?). by eapply episode_return_float. }
  rewrite bool_decide_eq_true_2; [f_equal; f_equal; by rewrite <-app_assoc|].
  apply Forall2_length in Hns, Hvs. lia.
Qed.

(** C1: From the files the logger wrote to the plot: when the three logs
    were written by [csv.writer], the evaluator's data rows carry
    [str(n)] in column 1 and a [float()]-readable text in column 6, and
    the learner log is not empty, the script prints the last learner row,
    plots the step counts against the returns, and prints [yo]. *)
Theorem main_end_to_end py w actor_rows header eval_rows learner_prev last_row ns vs :
  Forall (Forall (field_ok py.(csv_runtime))) actor_rows ->
  Forall (Forall (field_ok py.(csv_runtime))) (header :: eval_rows) ->
  Forall (Forall (field_ok py.(csv_runtime))) (learner_prev ++ [last_row]) ->
  written w.(fs) actor_path actor_rows ->
  written w.(fs) evaluator_path (header :: eval_rows) ->
  written w.(fs) learner_path (learner_prev ++ [last_row]) ->
  Forall2 (fun row n => exists s, row !! 1 = Some s /\ py_str_int py.(max_str_digits) n = Ok s)
    eval_rows ns ->
  Forall2 (fun row v => exists s, row !! 6 = Some s /\ py_float_of s = Ok v) eval_rows vs ->
  main py w = (Ok tt, mk_world w.(fs)
    (w.(out) ++ [Print (PList (map PStr last_row)); Plot ns vs; Print (PStr (txt "yo"))])).
Proof. apply main_written. Qed.

(** C3: Every exception [main] raises is a missing log, a [_csv.Error], an
    [IndexError], or the [ValueError] of [int()] or [float()]; in
    particular [plt.plot] never sees sequences of different lengths. *)
Theorem main_exceptions py w e w' : main py w = (Raise e, w') -> main_exn e.
Proof.
  rewrite main_run. intros H.
  repeat case_match; cbv zeta in H; simplify_eq;
    try match goal with
        | Hm : ?m = Raise ?x |- main_exn ?x =>
            assert (raises_only main_exn m) as Hr
              by (first [apply load_raises; naive_solver
                        | apply py_listcomp_raises; eauto with pylib
                        | apply getitem_raises]);
            exact (Hr x Hm)
        end.
  match goal with
  | Hb : bool_decide (length ?ns = length ?vs) = false,
    Hn : py_listcomp _ _ = Ok ?ns, Hv : py_listcomp _ _ = Ok ?vs |- _ =>
      rewrite bool_decide_eq_true_2 in Hb; [discriminate Hb|];
      by rewrite (py_listcomp_length _ _ _ Hn), (py_listcomp_length _ _ _ Hv)
  end.
Qed.

(** C6: The first data row of the evaluator log whose step cell [int()]
    rejects (a blank line, a row of fewer than two cells, a cell that is
    not a decimal integer) stops the script with that exception, after
    the last learner row was printed and before anything is plotted. *)
Theorem main_bad_step py w A header good bad rest learner_prev last_row ns e :
  load py w.(fs) actor_path = Ok A ->
  load py w.(fs) evaluator_path = Ok (header :: good ++ bad :: rest) ->
  load py w.(fs) learner_path = Ok (learner_prev ++ [last_row]) ->
  py_listcomp (actor_step py) good = Ok ns ->
  actor_step py bad = Raise e ->
  main py w = (Raise e, mk_world w.(fs) (w.(out) ++ [Print (PList (map PStr last_row))])).
Proof.
  intros Ha He Hl Hgood Hbad. rewrite main_run, Ha, He, Hl, py_getitem_last, py_slice_from_1.
  change (drop 1 (header :: good ++ bad :: rest)) with (good ++ bad :: rest).
  by rewrite (py_listcomp_app_Raise _ _ _ _ _ _ Hgood Hbad).
Qed.

(** C13: An empty learner log makes [learner_data[-1]] raise [IndexError]
    before anything is printed. *)
Theorem main_empty_learner py w A E :
  load py w.(fs) actor_path = Ok A ->
  load py w.(fs) evaluator_path = Ok E ->
  w.(fs) !! learner_path = Some [] ->
  main py w = (Raise IndexError, w).
Proof.
  intros Ha He Hl. rewrite main_run, Ha, He.
  unfold load at 1, open_lines. by rewrite Hl.
Qed.

(** C12: An evaluator log with its header line only gives an empty plot:
    [evaluator_data[1:]] is empty, so both comprehensions are. *)
Theorem main_header_only py w A header learner_prev last_row :
  load py w.(fs) actor_path = Ok A ->
  load py w.(fs) evaluator_path = Ok [header] ->
  load py w.(fs) learner_path = Ok (learner_prev ++ [last_row]) ->
  main py w = (Ok tt, mk_world w.(fs)
    (w.(out) ++ [Print (PList (map PStr last_row)); Plot [] []; Print (PStr (txt "yo"))])).
Proof.
  intros Ha He Hl. rewrite main_run, Ha, He, Hl, py_getitem_last, py_slice_from_1. cbn.
  by rewrite <-app_assoc.
Qed.

(** C33: From the files to the plot, through [float()]: when the
    evaluator's data rows carry [str(n)] in column 1 and a decimal
    literal in column 6, the returns the script plots are the reference
    values of those literals (all their digits read as one integer,
    scaled by the exponent less the fraction's length). *)
Theorem main_plots_literals py w actor_rows header eval_rows learner_prev last_row ns lits :
  Forall (Forall (field_ok py.(csv_runtime))) actor_rows ->
  Forall (Forall (field_ok py.(csv_runtime))) (header :: eval_rows) ->
  Forall (Forall (field_ok py.(csv_runtime))) (learner_prev ++ [last_row]) ->
  written w.(fs) actor_path actor_rows ->
  written w.(fs) evaluator_path (header :: eval_rows) ->
  written w.(fs) learner_path (learner_prev ++ [last_row]) ->
  Forall2 (fun row n => exists s, row !! 1 = Some s /\ py_str_int py.(max_str_digits) n = Ok s)
    eval_rows ns ->
  Forall2 (fun row '(sg, ip, fp, ex) => row !! 6 = Some (literal sg ip fp ex) /\ literal_ok ip fp ex)
    eval_rows lits ->
  main py w = (Ok tt, mk_world w.(fs)
    (w.(out) ++ [Print (PList (map PStr last_row)); Plot ns (map lit_value lits);
                 Print (PStr (txt "yo"))])).
Proof.
  intros Ha He Hl Hwa Hwe Hwl Hns Hlits.
  apply (main_written py w actor_rows header eval_rows learner_prev last_row); try done.
  clear -Hlits. induction Hlits as [|row [[[sg ip] fp] ex] rows ls [Hrow Hok] _ IH];
    constructor; [|done].
  exists (literal sg ip fp ex). split; [done|]. by apply py_float_literal.
Qed.

(** C20: [main] reads the file system and never changes it; it only appends
    to the output, at most the three events of a complete run. *)
Theorem main_frame py w :
  exists evs, (main py w).2 = mk_world w.(fs) (w.(out) ++ evs) /\ length evs <= 3.
Proof.
  rewrite main_run. destruct w as [fs0 out0]. cbn [fs out].
  repeat case_match; cbn zeta; cbn [snd];
    first [ exists []; rewrite app_nil_r; split; [reflexivity|cbn; lia]
          | rewrite <-?app_assoc; eexists; split; [reflexivity|cbn; lia] ].
Qed.

(** ** Concrete runs *)

(** A file system holding the three logs. *)
(** ** Running the file *)

(** C14: No field the script reads holds a carriage return, whatever
    the log file contains: [open()] without [newline=''] turns every
    [\r] and [\r\n] into [\n] before the reader sees the text, and the
    reader only puts into a field characters of its input or [\n].  A
    field written with a carriage return does not read back as written. *)
Theorem load_no_CR py fs path rows :
  load py fs path = Ok rows -> Forall (Forall (fun f => CR ∉ f)) rows.
Proof.
  unfold load. intros (lines & Hl & Hr)%rbind_Ok.
  apply (read_loop_inv log_dialect py.(csv_runtime) (fun c => c <> CR) (fun f => CR ∉ f) ltac:(done)
           ltac:(set_solver)) with lines parse_reset; [|by eapply open_lines_no_CR| |exact Hr].
  - intros f c Hf _ Hc. rewrite elem_of_app, list_elem_of_singleton. naive_solver.
  - split; [constructor|set_solver].
Qed.

Lemma body_name mods m r m' :
  exec_body mods body m = (r, m') -> m'.(globals) !! txt "__name__" = m.(globals) !! txt "__name__".
Proof.
  intros H. apply (exec_body_unbound mods body m r m' _ H).
  apply (bool_decide_unpack _). vm_compute. reflexivity.
Qed.

Lemma init_name name : (init_mstate name).(globals) !! txt "__name__" = Some (StrObj name).
Proof. apply lookup_singleton_eq. Qed.

(** The two imports succeed when [csv], [matplotlib] and
    [matplotlib.pyplot] can be imported. *)
Lemma body_runs mods m :
  is_Some (mods !! txt "csv") -> is_Some (mods !! txt "matplotlib") ->
  is_Some (mods !! txt "matplotlib.pyplot") ->
  exists m', exec_body mods body m = (Ok tt, m') /\
    m'.(globals) !! txt "csv" = Some (ModuleObj (txt "csv")) /\
    m'.(globals) !! txt "plt" = Some (ModuleObj (txt "matplotlib.pyplot")).
Proof.
  intros [c Hc] [mp Hmp] [p Hp].
  assert (Hs : Forall (fun s => exists o, stmt_obj mods s = Ok o) body).
  { repeat constructor; eexists; cbn [stmt_obj].
    - rewrite (import_module_ok mods _ c); [done| |done].
      change (dotted_prefixes (txt "csv")) with [txt "csv"]. repeat constructor; by eexists.
    - rewrite (import_module_ok mods _ p); [done| |done].
      change (dotted_prefixes (txt "matplotlib.pyplot")) with [txt "matplotlib"; txt "matplotlib.pyplot"].
      repeat constructor; by eexists. }
  destruct (exec_body_succeeds mods body m Hs) as [m' Hm']; [cbn; constructor..|].
  exists m'. split; [done|].
  destruct (exec_body_lookup mods _ _ _ _ Hm') as [Hall _];
    [apply (bool_decide_unpack _); vm_compute; reflexivity|].
  apply Forall_cons in Hall as [(o1 & Ho1 & Hl1) Hall]. apply Forall_cons in Hall as [(o2 & Ho2 & Hl2) _].
  cbn [stmt_obj] in Ho1, Ho2. rewrite (import_module_ok mods _ c) in Ho1;
    [|change (dotted_prefixes (txt "csv")) with [txt "csv"]; repeat constructor; by eexists|done].
  rewrite (import_module_ok mods _ p) in Ho2;
    [|change (dotted_prefixes (txt "matplotlib.pyplot")) with [txt "matplotlib"; txt "matplotlib.pyplot"];
      repeat constructor; by eexists|done].
  cbn in Ho1, Ho2. simplify_eq. split; [exact Hl1|exact Hl2].
Qed.

(** C30: Run as a script, with [csv] and [matplotlib.pyplot] importable,
    the file binds [csv] and [plt] to those modules and then does what
    its [__main__] block [main] does: the same result and the same
    output. *)
Theorem script_as_main mods py w :
  is_Some (mods !! txt "csv") -> is_Some (mods !! txt "matplotlib") ->
  is_Some (mods !! txt "matplotlib.pyplot") ->
  exists m', script mods py (init_mstate (txt "__main__"), w) = ((main py w).1, (m', (main py w).2)) /\
    m'.(globals) !! txt "csv" = Some (ModuleObj (txt "csv")) /\
    m'.(globals) !! txt "plt" = Some (ModuleObj (txt "matplotlib.pyplot")).
Proof.
  intros Hc Hmp Hp. destruct (body_runs mods (init_mstate (txt "__main__")) Hc Hmp Hp) as (m' & Hm' & Hcsv & Hplt).
  exists m'. split; [|done]. unfold script. rewrite Hm'.
  rewrite bool_decide_eq_true_2 by by rewrite (body_name _ _ _ _ Hm'), init_name.
  by destruct (main py w).
Qed.

(** C31: Imported under any other name than [__main__], the file runs
    only its imports: it opens no log, prints nothing and plots nothing,
    and the only exception it can raise is an import error. *)
Theorem script_imported_inert mods py name w :
  name <> txt "__main__" ->
  exists r m', script mods py (init_mstate name, w) = (r, (m', w)) /\ raises_only body_exn r.
Proof.
  intros Hn. unfold script. destruct (exec_body mods body (init_mstate name)) as [r m'] eqn:Hb.
  pose proof (exec_body_raises mods body (init_mstate name)) as Hr. rewrite Hb in Hr.
  destruct r as [u|e].
  - rewrite bool_decide_eq_false_2.
    + exists (Ok tt), m'. split; [done|]. by intros ? ?.
    + rewrite (body_name _ _ _ _ Hb), init_name. by intros [= ->].
  - by exists (Raise e), m'.
Qed.

(** C32: Without [matplotlib], the run stops at line 2 with
    [ModuleNotFoundError] for [matplotlib], before the block opens any
    log or prints anything; [csv] is bound. *)
Theorem script_missing_matplotlib mods py w :
  is_Some (mods !! txt "csv") -> mods !! txt "matplotlib" = None ->
  exists m', script mods py (init_mstate (txt "__main__"), w) =
               (Raise (ModuleNotFoundError (txt "matplotlib")), (m', w)) /\
             m'.(globals) !! txt "csv" = Some (ModuleObj (txt "csv")).
Proof.
  intros [c Hc] Hm.
  assert (Hs : Forall (fun s => exists o, stmt_obj mods s = Ok o) [Import (txt "csv")]).
  { repeat constructor; eexists; cbn [stmt_obj].
    rewrite (import_module_ok mods _ c); [done| |done].
    change (dotted_prefixes (txt "csv")) with [txt "csv"]. repeat constructor; by eexists. }
  destruct (exec_body_succeeds mods _ (init_mstate (txt "__main__")) Hs) as [m1 Hm1]; [cbn; constructor..|].
  exists m1. split.
  - unfold script.
    change body with ([Import (txt "csv")] ++ [ImportAs (txt "matplotlib.pyplot") (txt "plt")]).
    rewrite (exec_body_fail mods [Import (txt "csv")] (ImportAs (txt "matplotlib.pyplot") (txt "plt")) []
               _ m1 (ModuleNotFoundError (txt "matplotlib")) m1 Hm1); [done|].
    apply exec_stmt_obj_raise. cbn [stmt_obj].
    by rewrite (import_module_missing mods _ [] (txt "matplotlib") [txt "matplotlib.pyplot"]).
  - destruct (exec_body_lookup mods _ _ _ _ Hm1) as [Hall _]; [repeat constructor; set_solver|].
    apply Forall_cons in Hall as [(o1 & Ho1 & Hl1) _]. cbn [stmt_obj] in Ho1.
    rewrite (import_module_ok mods _ c) in Ho1;
      [|change (dotted_prefixes (txt "csv")) with [txt "csv"]; repeat constructor; by eexists|done].
    cbn in Ho1. simplify_eq. exact Hl1.
Qed.

Definition logs_fs (a e l : text) : filesystem :=
  <[actor_path := a]> (<[evaluator_path := e]> (<[learner_path := l]> ∅)).

(** The text [csv.writer] writes for [rows] (empty if it raises). *)
Definition log_text (rows : list (list text)) : text :=
  match writerows excel rows with Ok s => s | Raise _ => [] end.

(** A carriage return the logger wrote inside a field is read back as
    a line feed. *)
Lemma load_no_CR_witness :
  log_text [[txt "a" ++ [CR] ++ txt "b"]] = [DQUOTE] ++ txt "a" ++ [CR] ++ txt "b" ++ [DQUOTE; CR; LF] /\
  load default_interp (logs_fs [] (log_text [[txt "a" ++ [CR] ++ txt "b"]]) []) evaluator_path =
    Ok [[txt "a" ++ [LF] ++ txt "b"]] /\
  Forall (Forall (fun f => CR ∉ f)) [[txt "a" ++ [LF] ++ txt "b"]].
Proof.
  assert (H : load default_interp (logs_fs [] (log_text [[txt "a" ++ [CR] ++ txt "b"]]) [])
                evaluator_path = Ok [[txt "a" ++ [LF] ++ txt "b"]]) by (vm_compute; reflexivity).
  split; [vm_compute; reflexivity|]. split; [exact H|].
  exact (load_no_CR default_interp _ evaluator_path _ H).
Defined.

(** The evaluator rows of the spec's end-to-end example. *)
Definition spec_eval_rows : list (list text) :=
  [[txt "h0"; txt "1"; txt "-"; txt "-"; txt "-"; txt "-"; txt "10.0"];
   [txt "h1"; txt "2"; txt "-"; txt "-"; txt "-"; txt "-"; txt "20.0"]].

Definition e2e_eval_rows : list (list text) :=
  [txt "t"; txt "steps"; []; []; []; []; txt "return"] :: spec_eval_rows.

Definition e2e_world : world :=
  mk_world (logs_fs (log_text [[txt "0"]]) (log_text e2e_eval_rows)
              (log_text [[txt "a"]; [txt "b"; txt "c,d"]])) [].

Lemma main_end_to_end_witness :
  main default_interp e2e_world =
  (Ok tt, mk_world e2e_world.(fs)
    (e2e_world.(out) ++ [Print (PList (map PStr [txt "b"; txt "c,d"]));
                         Plot [1%Z; 2%Z] [FFinite false 100 (-1); FFinite false 200 (-1)];
                         Print (PStr (txt "yo"))])).
Proof.
  apply (main_end_to_end default_interp e2e_world [[txt "0"]]
           [txt "t"; txt "steps"; []; []; []; []; txt "return"] spec_eval_rows
           [[txt "a"]] [txt "b"; txt "c,d"]).
  1-3: apply (bool_decide_unpack _); vm_compute; reflexivity.
  1-3: eexists; split; vm_compute; reflexivity.
  all: repeat constructor; eexists; split; vm_compute; reflexivity.
Defined.

(** No log at all: the first [open] raises. *)
Lemma main_exceptions_witness :
  main default_interp (mk_world ∅ []) =
    (Raise (FileNotFoundError actor_path), mk_world ∅ []) /\
  main_exn (FileNotFoundError actor_path).
Proof.
  assert (H : main default_interp (mk_world ∅ []) =
                (Raise (FileNotFoundError actor_path), mk_world ∅ [])) by reflexivity.
  split; [exact H|]. exact (main_exceptions default_interp (mk_world ∅ []) _ _ H).
Defined.

(** A blank line after the evaluator's header. *)
Definition blank_world : world :=
  mk_world (logs_fs (txt "a") (txt "h" ++ [LF; LF] ++ txt "x,1") (txt "x,y")) [].

Lemma main_bad_step_witness :
  main default_interp blank_world =
  (Raise IndexError, mk_world blank_world.(fs)
     (blank_world.(out) ++ [Print (PList (map PStr [txt "x"; txt "y"]))])).
Proof.
  apply (main_bad_step default_interp blank_world [[txt "a"]] [txt "h"] [] [] [[txt "x"; txt "1"]]
           [] [txt "x"; txt "y"] []); vm_compute; reflexivity.
Defined.

Lemma main_empty_learner_witness :
  main default_interp (mk_world (logs_fs (txt "a") (txt "h") []) []) =
  (Raise IndexError, mk_world (logs_fs (txt "a") (txt "h") []) []).
Proof.
  apply (main_empty_learner _ _ [[txt "a"]] [[txt "h"]]); vm_compute; reflexivity.
Defined.

Definition header_world : world :=
  mk_world (logs_fs (txt "a") (txt "h,s") (txt "x,y")) [].

Lemma main_header_only_witness :
  main default_interp header_world =
  (Ok tt, mk_world header_world.(fs)
     (header_world.(out) ++
        [Print (PList (map PStr [txt "x"; txt "y"])); Plot [] []; Print (PStr (txt "yo"))])).
Proof.
  apply (main_header_only default_interp header_world [[txt "a"]] [txt "h"; txt "s"] []
           [txt "x"; txt "y"]); vm_compute; reflexivity.
Defined.

(** The spec's two data rows, whose returns are the literals [10.0]
    and [20.0]. *)
Lemma main_plots_literals_witness :
  main default_interp e2e_world =
  (Ok tt, mk_world e2e_world.(fs)
    (e2e_world.(out) ++ [Print (PList (map PStr [txt "b"; txt "c,d"]));
                         Plot [1%Z; 2%Z]
                           (map lit_value [(None, txt "10", Some (txt "0"), None);
                                           (None, txt "20", Some (txt "0"), None)]);
                         Print (PStr (txt "yo"))])).
Proof.
  apply (main_plots_literals default_interp e2e_world [[txt "0"]]
           [txt "t"; txt "steps"; []; []; []; []; txt "return"] spec_eval_rows
           [[txt "a"]] [txt "b"; txt "c,d"]).
  1-3: apply (bool_decide_unpack _); vm_compute; reflexivity.
  1-3: eexists; split; vm_compute; reflexivity.
  - repeat constructor; eexists; split; vm_compute; reflexivity.
  - repeat constructor; apply (bool_decide_unpack _); vm_compute; reflexivity.
Defined.

(** ** Running the file *)

Definition sample_modules : modules :=
  <[txt "csv" := ∅]> (<[txt "matplotlib" := ∅]> (<[txt "matplotlib.pyplot" := ∅]> ∅)).

Lemma script_as_main_witness :
  (is_Some (sample_modules !! txt "csv") /\ is_Some (sample_modules !! txt "matplotlib") /\
   is_Some (sample_modules !! txt "matplotlib.pyplot")) /\
  exists m', script sample_modules default_interp (init_mstate (txt "__main__"), e2e_world) =
    ((main default_interp e2e_world).1, (m', (main default_interp e2e_world).2)) /\
    m'.(globals) !! txt "csv" = Some (ModuleObj (txt "csv")) /\
    m'.(globals) !! txt "plt" = Some (ModuleObj (txt "matplotlib.pyplot")).
Proof.
  split; [split; [|split]; eexists; vm_compute; reflexivity|].
  apply script_as_main; eexists; vm_compute; reflexivity.
Defined.

Lemma script_imported_inert_witness :
  txt "process_logs" <> txt "__main__" /\
  exists r m', script sample_modules default_interp (init_mstate (txt "process_logs"), e2e_world) =
    (r, (m', e2e_world)) /\ raises_only body_exn r.
Proof.
  assert (Hn : txt "process_logs" <> txt "__main__") by (vm_compute; discriminate).
  split; [exact Hn|]. exact (script_imported_inert sample_modules default_interp _ e2e_world Hn).
Defined.

Lemma script_missing_matplotlib_witness :
  (is_Some ((<[txt "csv" := ∅]> ∅ : modules) !! txt "csv") /\
   (<[txt "csv" := ∅]> ∅ : modules) !! txt "matplotlib" = None) /\
  exists m', script (<[txt "csv" := ∅]> ∅) default_interp (init_mstate (txt "__main__"), e2e_world) =
    (Raise (ModuleNotFoundError (txt "matplotlib")), (m', e2e_world)) /\
    m'.(globals) !! txt "csv" = Some (ModuleObj (txt "csv")).
Proof.
  split; [split; [eexists|]; vm_compute; reflexivity|].
  apply script_missing_matplotlib; [eexists|]; vm_compute; reflexivity.
Defined.

End ProcessLogs.
