(* ===== verification/RunDqn.v ===== *)
(** * RunDqn: [src/examples/baselines/rl_discrete/run_dqn_custom.py]

    The example script that assembles a DQN experiment and hands it to
    one of two runners.  Module [RunDqn] holds
    - the four absl flags as the record [flag_values] of their [.value]s;
    - the records the script builds, in Modules named after the Python
      modules that define them ([helpers], [dqn], [losses],
      [experiments]); the environment and the network are external, so
      [env_factory] returns the arguments of its call to
      [helpers.make_atari_environment];
    - [build_experiment_config], and the [collections.defaultdict] of
      [loggers.InMemoryLogger] behind [logger_factory] as a shared store
      of logger objects (a name table and a heap), so that two factory
      calls with one name alias one logger;
    - [main] against the class [Launchpad] of the external calls' results
      ([lp_utils.is_local_run()] and whether [lp.launch] gives control
      back), with the trace of the external calls it makes and the name
      resolution of its epilogue in the module's globals;
    - the module body (docstring, imports, [env_name], the four
      [flags.DEFINE_*] calls, the [def]s) as [PyModule] statements, the
      globals it binds ([script_globals]), [app.run(main)] ([app_run])
      over the flags the body registered, and the whole file
      ([script]). *)

From stdpp Require Import gmap.
From S2P Require Import Prelude PyNum PyFloat Flags PyModule.
Import PyInt PyFloat.

Module RunDqn.

(** ** Flags *)

(** [env_name = 'BeamRider'] at module level. *)
Definition env_name : text := txt "BeamRider".

(** The [.value] of the four [FlagHolder]s. *)
Record flag_values := {
  RUN_DISTRIBUTED : bool;
  ENV_NAME : text;
  SEED : Z;
  NUM_STEPS : Z
}.

(** The flags' defaults ([flags.DEFINE_*]). *)
Definition default_flags : flag_values := {|
  RUN_DISTRIBUTED := true;
  ENV_NAME := env_name;
  SEED := 0;
  NUM_STEPS := 10000000
|}.

(** A float literal [m * 10^e] as written in the source. *)
Definition lit (m : N) (e : Z) : py_float := FFinite false m e.

(** ** The objects the script builds *)

Module helpers.
(** The arguments of [helpers.make_atari_environment(...)]. *)
Record atari_environment := {
  level : text;
  sticky_actions : bool;
  zero_discount_on_life_loss : bool
}.
Inductive network_factory := make_dqn_atari_network.
End helpers.

Module dqn.
(** The fields of [dqn.DQNConfig] the script sets. *)
Record DQNConfig := {
  discount : py_float;
  eval_epsilon : py_float;
  learning_rate : py_float;
  n_step : Z;
  epsilon : py_float;
  target_update_period : Z;
  min_replay_size : Z;
  max_replay_size : Z;
  samples_per_insert : Z;
  batch_size : Z
}.
End dqn.

Module losses.
Record QLearning := { discount : py_float; max_abs_reward : py_float }.
End losses.

Module dqn_builder.
Record DQNBuilder := { config : dqn.DQNConfig; loss_fn : losses.QLearning }.
End dqn_builder.

(** ** The logger registry *)

(** A logger object's address. *)
Abbreviation loc := N.

(** [loggers.InMemoryLogger]: the records written to it, in order. *)
Record InMemoryLogger := { data : list (list (text * py_float)) }.

(** The [defaultdict] [logger_dict] and the objects it refers to. *)
Record logger_store := {
  logger_dict : gmap text loc;
  heap : gmap loc InMemoryLogger;
  next_loc : loc
}.

(** [collections.defaultdict(loggers.InMemoryLogger)]: an empty dict. *)
Definition new_logger_store : logger_store :=
  {| logger_dict := ∅; heap := ∅; next_loc := 0%N |}.

(** [logger_dict[name]]: the logger stored under [name], or a new
    [InMemoryLogger()] stored there ([__missing__]). *)
Definition defaultdict_getitem (name : text) : PyM logger_store loc := fun st =>
  match st.(logger_dict) !! name with
  | Some l => (Ok l, st)
  | None =>
      let l := st.(next_loc) in
      (Ok l, {| logger_dict := <[name := l]> st.(logger_dict);
                heap := <[l := {| data := [] |}]> st.(heap);
                next_loc := N.succ l |})
  end.

(** The closure [logger_factory(name, steps_key, task_id)]. *)
Definition logger_factory (name : text) (steps_key : option text) (task_id : option Z)
  : PyM logger_store loc :=
  defaultdict_getitem name.

(** [InMemoryLogger.write(values)]: appends to the logger's [data]. *)
Definition logger_write (l : loc) (values : list (text * py_float)) : PyM logger_store unit :=
  fun st => (Ok tt, {| logger_dict := st.(logger_dict);
                      heap := alter (fun lg => {| data := lg.(data) ++ [values] |}) l st.(heap);
                      next_loc := st.(next_loc) |}).

(** [logger.data]. *)
Definition logger_data (st : logger_store) (l : loc) : option (list (list (text * py_float))) :=
  data <$> st.(heap) !! l.

Module experiments.
Record ExperimentConfig := {
  builder : dqn_builder.DQNBuilder;
  environment_factory : Z -> helpers.atari_environment;
  network_factory : helpers.network_factory;
  logger_factory : option (text -> option text -> option Z -> PyM logger_store loc);
  seed : Z;
  max_num_actor_steps : Z
}.
End experiments.

(** ** [build_experiment_config] *)

(** [env_factory(seed)]: [del seed], then the environment of [env_name]. *)
Definition env_factory (env_name : text) (seed : Z) : helpers.atari_environment :=
  {| helpers.level := env_name; helpers.sticky_actions := true;
     helpers.zero_discount_on_life_loss := false |}.

Definition dqn_config : dqn.DQNConfig := {|
  dqn.discount := lit 99 (-2);
  dqn.eval_epsilon := lit 0 0;
  dqn.learning_rate := lit 5 (-5);
  dqn.n_step := 1;
  dqn.epsilon := lit 1 (-2);
  dqn.target_update_period := 2000;
  dqn.min_replay_size := 20000;
  dqn.max_replay_size := 1000000;
  dqn.samples_per_insert := 8;
  dqn.batch_size := 32
|}.

(** The configuration, and the fresh [logger_dict] its unused closure
    [logger_factory] captures ([logger_factory=] is commented out, so
    the configuration keeps the library's default [None]). *)
Definition build_experiment_config (fl : flag_values)
  : experiments.ExperimentConfig * logger_store :=
  let env_name := fl.(ENV_NAME) in
  let logger_dict := new_logger_store in
  let config := dqn_config in
  let loss_fn := {| losses.discount := config.(dqn.discount);
                    losses.max_abs_reward := lit 1 0 |} in
  let dqn_builder := {| dqn_builder.config := config; dqn_builder.loss_fn := loss_fn |} in
  ({| experiments.builder := dqn_builder;
      experiments.environment_factory := env_factory env_name;
      experiments.network_factory := helpers.make_dqn_atari_network;
      experiments.logger_factory := None;
      experiments.seed := fl.(SEED);
      experiments.max_num_actor_steps := fl.(NUM_STEPS) |}, logger_dict).

(** ** [main] *)

(** The results of the external calls [main] makes. *)
Class Launchpad := {
  is_local_run : bool;
  launch_returns : bool
}.

(** The external calls, with their arguments. *)
Inductive call :=
  | IsLocalRun
  | MakeDistributedExperiment (experiment : experiments.ExperimentConfig) (num_actors : nat)
  | MakeXmDockerResources
  | Launch
  | RunExperiment (experiment : experiments.ExperimentConfig)
  | Figure
  | SaveFig (path : text).

(** [main] runs to an exception or a normal return, or never returns
    (a launch that keeps control). *)
Inductive outcome := Returns (r : res unit) | Diverges.

(** Lines 15 to 35 and the two [def]s (lines 38 and 84): the module body
    before the [__main__] test. *)
Definition body : list PyModule.stmt :=
  [PyModule.Docstring (txt "Example running DQN on discrete control tasks.");
   PyModule.ImportFrom (txt "typing") (txt "Optional");
   PyModule.ImportFrom (txt "absl") (txt "flags");
   PyModule.ImportFrom (txt "acme.agents.jax") (txt "dqn");
   PyModule.ImportFrom (txt "acme.agents.jax.dqn") (txt "losses");
   PyModule.Import (txt "helpers");
   PyModule.ImportFrom (txt "absl") (txt "app");
   PyModule.ImportFrom (txt "acme.jax") (txt "experiments");
   PyModule.ImportFrom (txt "acme.utils") (txt "lp_utils");
   PyModule.ImportAs (txt "launchpad") (txt "lp");
   PyModule.Import (txt "collections");
   PyModule.ImportFrom (txt "acme.utils") (txt "loggers");
   PyModule.Assign (txt "env_name") (PyModule.StrObj env_name);
   PyModule.DefineFlag (txt "RUN_DISTRIBUTED") AbslFlags.run_distributed_flag;
   PyModule.DefineFlag (txt "ENV_NAME") AbslFlags.env_name_flag;
   PyModule.DefineFlag (txt "SEED") AbslFlags.seed_flag;
   PyModule.DefineFlag (txt "NUM_STEPS") AbslFlags.num_steps_flag;
   PyModule.Assign (txt "build_experiment_config") (PyModule.FuncObj (txt "build_experiment_config"));
   PyModule.Assign (txt "main") (PyModule.FuncObj (txt "main"))].

(** The module's globals once the body has run: [__name__] and the
    names the body binds. *)
Definition script_globals : list text := txt "__name__" :: map PyModule.binds body.

(** [LOAD_GLOBAL name] from [main], whose locals do not bind it. *)
Definition load_global (globals : list text) (name : text) : res unit :=
  if bool_decide (name ∈ globals) then Ok tt else Raise (NameError name).

(** Lines 94 to 100: [pd], then [logger_dict] (line 94), then [plt]
    (line 95) are looked up; the plotting calls are external. *)
Definition epilogue (globals : list text) : res (list call) :=
  let* _ := load_global globals (txt "pd") in
  let* _ := load_global globals (txt "logger_dict") in
  let* _ := load_global globals (txt "plt") in
  Ok [Figure; SaveFig (txt "test.png")].

(** [128 if lp_utils.is_local_run() else 128]. *)
Definition num_actors (local : bool) : nat := if local then 128 else 128.

Definition main `{Launchpad} (globals : list text) (fl : flag_values) : outcome * list call :=
  let experiment_config := (build_experiment_config fl).1 in
  let '(tr, returned) :=
    if fl.(RUN_DISTRIBUTED) then
      let n := num_actors is_local_run in
      ([IsLocalRun; MakeDistributedExperiment experiment_config n; MakeXmDockerResources; Launch],
       launch_returns)
    else ([RunExperiment experiment_config], true) in
  if returned then
    match epilogue globals with
    | Ok tr' => (Returns (Ok tt), tr ++ tr')
    | Raise e => (Returns (Raise e), tr)
    end
  else (Diverges, tr).

(** ** [app.run(main)] *)

Definition value_bool (vals : gmap text AbslFlags.flag_value) (name : text) (dflt : bool) : bool :=
  match vals !! name with Some (AbslFlags.VBool b) => b | _ => dflt end.

Definition value_text (vals : gmap text AbslFlags.flag_value) (name : text) (dflt : text) : text :=
  match vals !! name with Some (AbslFlags.VString t) => t | _ => dflt end.

Definition value_int (vals : gmap text AbslFlags.flag_value) (name : text) (dflt : Z) : Z :=
  match vals !! name with Some (AbslFlags.VInt z) => z | _ => dflt end.

(** [RUN_DISTRIBUTED.value], [ENV_NAME.value], [SEED.value] and
    [NUM_STEPS.value] after parsing. *)
Definition flag_values_of (vals : gmap text AbslFlags.flag_value) : flag_values := {|
  RUN_DISTRIBUTED := value_bool vals (txt "run_distributed") true;
  ENV_NAME := value_text vals (txt "env_name") env_name;
  SEED := value_int vals (txt "seed") 0;
  NUM_STEPS := value_int vals (txt "num_steps") 10000000
|}.

(** [app.run(main)]: parse [sys.argv]; a [flags.Error] prints the usage
    error and exits with status 1; otherwise [main(argv)] runs and its
    return value [None] becomes [sys.exit(None)], status 0. *)
Definition app_run `{Launchpad} (max_digits : nat) (globals : list text)
  (registry : list AbslFlags.flag_def) (argv : list text) : outcome * list call :=
  match AbslFlags.parse_flags registry max_digits argv with
  | Raise (FlagsError _) => (Returns (Raise (SystemExit 1)), [])
  | Raise e => (Returns (Raise e), [])
  | Ok (vals, _) =>
      match main globals (flag_values_of vals) with
      | (Returns (Ok _), tr) => (Returns (Raise (SystemExit 0)), tr)
      | r => r
      end
  end.

(** Running the file: the module body, then [if __name__ == '__main__':
    app.run(main)] (lines 103 and 104) over the flags the body
    registered in [FLAGS]. *)
Definition script `{Launchpad} (mods : PyModule.modules) (max_digits : nat) (name : text)
  (argv : list text) : outcome * list call :=
  match PyModule.exec_body mods body (PyModule.init_mstate name) with
  | (Raise e, _) => (Returns (Raise e), [])
  | (Ok _, m) =>
      if bool_decide (m.(PyModule.globals) !! txt "__name__" = Some (PyModule.StrObj (txt "__main__")))
      then app_run max_digits (PyModule.global_names m.(PyModule.globals)) m.(PyModule.flag_registry) argv
      else (Returns (Ok tt), [])
  end.

(** The command line that sets every flag: [--run_distributed] or
    [--norun_distributed], then [--name=value] for the others. *)
Definition argv_of (fl : flag_values) (seed_text steps_text : text) : list text :=
  [txt "run_dqn_custom.py";
   AbslFlags.dashes ++ (if fl.(RUN_DISTRIBUTED) then txt "run_distributed" else txt "norun_distributed");
   AbslFlags.dashes ++ txt "env_name" ++ "="%char :: fl.(ENV_NAME);
   AbslFlags.dashes ++ txt "seed" ++ "="%char :: seed_text;
   AbslFlags.dashes ++ txt "num_steps" ++ "="%char :: steps_text].

(** ** The registry as a state machine *)

(** The operations on the registry: a factory call or a write through a
    logger handle. *)
Inductive registry_step : logger_store -> logger_store -> Prop :=
  | step_factory name steps_key task_id st :
      registry_step st (logger_factory name steps_key task_id st).2
  | step_write l values st :
      registry_step st (logger_write l values st).2.

(** Every name refers to an allocated logger, addresses below [next_loc]
    are the allocated ones, and no two names share a logger. *)
Record store_wf (st : logger_store) : Prop := {
  wf_dict n l : st.(logger_dict) !! n = Some l -> is_Some (st.(heap) !! l);
  wf_fresh l : is_Some (st.(heap) !! l) -> (l < st.(next_loc))%N;
  wf_inj n1 n2 l : st.(logger_dict) !! n1 = Some l -> st.(logger_dict) !! n2 = Some l -> n1 = n2
}.

Lemma new_logger_store_wf : store_wf new_logger_store.
Proof. split; cbn; intros *; rewrite ?lookup_empty; [intros [=]|intros [? [=]]|intros [=]]. Qed.

Lemma getitem_wf name st : store_wf st -> store_wf (defaultdict_getitem name st).2.
Proof.
  intros [Hd Hf Hi]. unfold defaultdict_getitem.
  destruct (logger_dict st !! name) as [l|] eqn:Hn; [by split|]. split; cbn.
  - intros n l. destruct (decide (n = name)) as [->|?].
    + rewrite lookup_insert_eq. intros [= <-]. by rewrite lookup_insert_eq.
    + rewrite lookup_insert_ne by done. intros Hl. rewrite lookup_insert_ne; [by eapply Hd|].
      intros <-. apply Hd in Hl. apply Hf in Hl. lia.
  - intros l. destruct (decide (l = next_loc st)) as [->|?]; [lia|].
    rewrite lookup_insert_ne by done. intros Hl%Hf. lia.
  - intros n1 n2 l.
    destruct (decide (n1 = name)) as [->|?], (decide (n2 = name)) as [->|?];
      rewrite ?lookup_insert_eq, ?lookup_insert_ne by done; try done.
    + intros [= <-] Hl. apply Hd, Hf in Hl. lia.
    + intros Hl [= <-]. apply Hd, Hf in Hl. lia.
    + apply Hi.
Qed.

Lemma write_wf l values st : store_wf st -> store_wf (logger_write l values st).2.
Proof.
  intros [Hd Hf Hi]. split; cbn; [|intros l'|done].
  - intros n l' Hl. rewrite lookup_alter_is_Some. by eapply Hd.
  - rewrite lookup_alter_is_Some. apply Hf.
Qed.

Lemma registry_step_wf st st' : registry_step st st' -> store_wf st -> store_wf st'.
Proof. destruct 1; [apply getitem_wf|apply write_wf]. Qed.

Lemma registry_steps_wf st st' : rtc registry_step st st' -> store_wf st -> store_wf st'.
Proof. induction 1; [done|]. intros. eauto using registry_step_wf. Qed.

Lemma getitem_found name st l :
  st.(logger_dict) !! name = Some l -> defaultdict_getitem name st = (Ok l, st).
Proof. unfold defaultdict_getitem. by intros ->. Qed.

Lemma getitem_dict name st l st' :
  defaultdict_getitem name st = (Ok l, st') -> st'.(logger_dict) !! name = Some l.
Proof.
  unfold defaultdict_getitem. destruct (_ !! name) eqn:Hn; intros [= <- <-]; [done|].
  cbn. by rewrite lookup_insert_eq.
Qed.

(** ** Properties of the registry *)

(** C9: Every registry reachable from the empty [defaultdict] by factory
    calls and writes is well formed. *)
Theorem registry_reachable_wf st : rtc registry_step new_logger_store st -> store_wf st.
Proof.
  intros Hr. eapply registry_steps_wf; [exact Hr|apply new_logger_store_wf]. Qed.

(** C11: [logger_factory] with a name already asked for returns the same
    logger object and changes nothing: all the components that ask for
    one name share one logger. *)
Theorem logger_factory_alias name k1 t1 k2 t2 st l st' :
  logger_factory name k1 t1 st = (Ok l, st') ->
  logger_factory name k2 t2 st' = (Ok l, st').
Proof. intros H. apply getitem_found. by eapply getitem_dict. Qed.

(** C10: A write through the handle one component got is seen by every
    component that asks for a logger of the same name afterwards (the
    factory returns the same object, whose [data] has the record
    appended), and leaves the loggers of the other names unchanged. *)
Theorem logger_write_shared st name other l l' values st1 st2 k t h st3 :
  store_wf st -> name <> other ->
  logger_factory name None None st = (Ok l, st1) ->
  st1.(logger_dict) !! other = Some l' ->
  (logger_write l values st1).2 = st2 ->
  logger_factory name k t st2 = (Ok h, st3) ->
  h = l /\ st3 = st2 /\
  logger_data st3 h = (fun d => d ++ [values]) <$> logger_data st1 l /\
  is_Some (logger_data st1 l) /\
  logger_data st3 l' = logger_data st1 l'.
Proof.
  intros Hwf Hne Hf Ho <- Hh. unfold logger_factory in Hf, Hh.
  pose proof (getitem_wf name st Hwf) as Hwf1. rewrite Hf in Hwf1.
  apply getitem_dict in Hf as Hn.
  rewrite (getitem_found name _ l) in Hh by done. injection Hh as <- <-.
  assert (l <> l') by (intros ->; apply Hne; by eapply (wf_inj _ Hwf1)).
  unfold logger_data. cbn. rewrite lookup_alter_eq, lookup_alter_ne by done.
  split_and!; [done|done|by destruct (heap st1 !! l)| |done].
  apply fmap_is_Some. by eapply (wf_dict _ Hwf1).
Qed.

(** ** Properties of [build_experiment_config] and [main] *)

Section Main.
Context `{Launchpad}.

Lemma load_global_in g n : n ∈ g -> load_global g n = Ok tt.
Proof. intros. unfold load_global. by rewrite bool_decide_eq_true_2. Qed.

Lemma load_global_notin g n : n ∉ g -> load_global g n = Raise (NameError n).
Proof. intros. unfold load_global. by rewrite bool_decide_eq_false_2. Qed.

Lemma pd_not_global : txt "pd" ∉ script_globals.
Proof. apply (bool_decide_unpack (txt "pd" ∉ script_globals)). vm_compute. reflexivity. Qed.

Lemma main_calls fl :
  main script_globals fl =
  let cfg := (build_experiment_config fl).1 in
  if fl.(RUN_DISTRIBUTED) then
    ((if launch_returns then Returns (Raise (NameError (txt "pd"))) else Diverges),
     [IsLocalRun; MakeDistributedExperiment cfg 128; MakeXmDockerResources; Launch])
  else (Returns (Raise (NameError (txt "pd"))), [RunExperiment cfg]).
Proof.
  unfold main, epilogue. rewrite load_global_notin by apply pd_not_global. cbn zeta.
  assert (Hn : num_actors is_local_run = 128) by (unfold num_actors; by destruct is_local_run).
  rewrite Hn. destruct (RUN_DISTRIBUTED fl); [|done]. by destruct launch_returns.
Qed.

Ltac flag_side :=
  first [ discriminate | reflexivity
        | apply (bool_decide_unpack (_ ∉ _)); vm_compute; reflexivity ].

Lemma parse_argv_of max_digits fl s1 s2 :
  py_str_int max_digits fl.(SEED) = Ok s1 -> py_str_int max_digits fl.(NUM_STEPS) = Ok s2 ->
  exists vals,
    AbslFlags.parse_flags AbslFlags.run_dqn_flags max_digits (argv_of fl s1 s2) =
      Ok (vals, [txt "run_dqn_custom.py"]) /\ flag_values_of vals = fl.
Proof.
  intros H1 H2. destruct fl as [b e sd st]; cbn [SEED NUM_STEPS] in *.
  unfold AbslFlags.parse_flags, argv_of. cbn [RUN_DISTRIBUTED ENV_NAME].
  destruct b;
    [rewrite (AbslFlags.parse_args_bool _ _ _ _ _ false (AbslFlags.VBool true)) by flag_side
    |rewrite (AbslFlags.parse_args_bool _ _ _ _ _ true (AbslFlags.VBool false)) by flag_side].
  all: rewrite (AbslFlags.parse_args_assign _ _ _ _ _ _ (AbslFlags.VString e)) by flag_side.
  all: rewrite (AbslFlags.parse_args_assign _ _ _ _ _ _ (AbslFlags.VInt sd))
         by first [flag_side | by apply AbslFlags.parse_value_str].
  all: rewrite (AbslFlags.parse_args_assign _ _ _ _ _ _ (AbslFlags.VInt st))
         by first [flag_side | by apply AbslFlags.parse_value_str].
  all: eexists; split; [reflexivity|]; vm_compute; reflexivity.
Qed.

Lemma main_globals_ext g1 g2 fl : (forall n, n ∈ g1 <-> n ∈ g2) -> main g1 fl = main g2 fl.
Proof.
  intros Hg.
  assert (Hl : forall n, load_global g1 n = load_global g2 n)
    by (intros n; unfold load_global; by rewrite (bool_decide_ext _ _ (Hg n))).
  unfold main, epilogue. by rewrite !Hl.
Qed.

Lemma app_run_globals_ext max_digits g1 g2 reg argv :
  (forall n, n ∈ g1 <-> n ∈ g2) -> app_run max_digits g1 reg argv = app_run max_digits g2 reg argv.
Proof.
  intros Hg. unfold app_run.
  destruct (AbslFlags.parse_flags reg max_digits argv) as [[vals rest]|]; [|done].
  by rewrite (main_globals_ext g1 g2).
Qed.

(** The module body: with every import found, it registers the four
    flags in order and binds exactly [script_globals]. *)
Lemma body_exec mods name :
  Forall (fun s => exists o, PyModule.stmt_obj mods s = Ok o) body ->
  exists m, PyModule.exec_body mods body (PyModule.init_mstate name) = (Ok tt, m) /\
    m.(PyModule.flag_registry) = AbslFlags.run_dqn_flags /\
    (forall n, is_Some (m.(PyModule.globals) !! n) <-> n ∈ script_globals) /\
    m.(PyModule.globals) !! txt "__name__" = Some (PyModule.StrObj name).
Proof.
  intros Hs.
  destruct (PyModule.exec_body_succeeds mods body (PyModule.init_mstate name) Hs) as [m Hm].
  - apply (bool_decide_unpack _). vm_compute. reflexivity.
  - cbn. repeat constructor; set_solver.
  - exists m. split; [done|]. split; [by rewrite (PyModule.exec_body_registry _ _ _ _ _ Hm)|].
    split.
    + intros n. rewrite (PyModule.exec_body_names _ _ _ _ _ n Hm). unfold script_globals.
      cbn [PyModule.globals PyModule.init_mstate]. rewrite lookup_singleton_is_Some, elem_of_cons.
      naive_solver.
    + rewrite (PyModule.exec_body_unbound _ _ _ _ _ _ Hm); [apply lookup_singleton_eq|].
      apply (bool_decide_unpack _). vm_compute. reflexivity.
Qed.

(** C4: Whichever runner is taken, [main] makes the calls of that branch
    with the configuration of the flags ([num_actors] is 128 whatever
    [is_local_run()] says); when control comes back, the epilogue stops
    at [pd], which the script never imports. *)
Theorem main_dispatch fl :
  main script_globals fl =
  let cfg := (build_experiment_config fl).1 in
  if fl.(RUN_DISTRIBUTED) then
    ((if launch_returns then Returns (Raise (NameError (txt "pd"))) else Diverges),
     [IsLocalRun; MakeDistributedExperiment cfg 128; MakeXmDockerResources; Launch])
  else (Returns (Raise (NameError (txt "pd"))), [RunExperiment cfg]).
Proof. exact (main_calls fl). Qed.

(** C5: [main] never returns normally and never writes [test.png]: every run
    either keeps control in the launcher or stops with [NameError] on
    [pd]. *)
Theorem main_never_saves fl r tr :
  main script_globals fl = (r, tr) ->
  (r = Diverges \/ r = Returns (Raise (NameError (txt "pd")))) /\ SaveFig (txt "test.png") ∉ tr.
Proof.
  rewrite main_calls. cbn zeta.
  destruct (RUN_DISTRIBUTED fl), launch_returns; intros [= <- <-]; (split; [tauto|set_solver]).
Qed.

(** C28: [app.run(main)] on the command line that sets each flag
    ([--run_distributed] or [--norun_distributed], [--env_name=],
    [--seed=str(n)], [--num_steps=str(n)]) runs [main] with exactly
    those values: absl's parsing of the four flags inverts their
    rendering. *)
Theorem app_run_command_line max_digits fl s1 s2 :
  py_str_int max_digits fl.(SEED) = Ok s1 -> py_str_int max_digits fl.(NUM_STEPS) = Ok s2 ->
  app_run max_digits script_globals AbslFlags.run_dqn_flags (argv_of fl s1 s2) = main script_globals fl.
Proof.
  intros H1 H2. destruct (parse_argv_of _ _ _ _ H1 H2) as (vals & Hp & Hv).
  unfold app_run. rewrite Hp, Hv, main_calls. cbn zeta.
  by destruct (RUN_DISTRIBUTED fl), launch_returns.
Qed.

(** Without arguments [FLAGS(argv)] keeps the defaults. *)
Lemma app_run_defaults max_digits prog :
  app_run max_digits script_globals AbslFlags.run_dqn_flags [prog] = main script_globals default_flags.
Proof.
  unfold app_run.
  replace (AbslFlags.parse_flags AbslFlags.run_dqn_flags max_digits [prog])
    with (Ok (AbslFlags.defaults AbslFlags.run_dqn_flags, [prog]) : res _) by reflexivity.
  replace (flag_values_of (AbslFlags.defaults AbslFlags.run_dqn_flags)) with default_flags
    by (vm_compute; reflexivity).
  rewrite main_calls. cbn zeta. by destruct launch_returns.
Qed.

(** C34: With every import found, the file run as [__main__] is
    [app.run(main)] over the flags its body registered, which are
    exactly the four of lines 29 to 35 in order (no
    [DuplicateFlagError]), and over the globals it bound, exactly
    [script_globals] (no [pd], [plt] or [logger_dict]); imported under
    another name it calls nothing. *)
Theorem dqn_script_as_main mods max_digits argv :
  Forall (fun s => exists o, PyModule.stmt_obj mods s = Ok o) body ->
  script mods max_digits (txt "__main__") argv =
    app_run max_digits script_globals AbslFlags.run_dqn_flags argv /\
  (forall name, name <> txt "__main__" -> script mods max_digits name argv = (Returns (Ok tt), [])).
Proof.
  intros Hs. split.
  - destruct (body_exec mods (txt "__main__") Hs) as (m & Hm & Hreg & Hnames & Hname).
    unfold script. rewrite Hm, bool_decide_eq_true_2 by done. rewrite Hreg.
    apply app_run_globals_ext. intros n. rewrite PyModule.global_names_spec. apply Hnames.
  - intros name Hn. destruct (body_exec mods name Hs) as (m & Hm & _ & _ & Hname).
    unfold script. rewrite Hm, bool_decide_eq_false_2; [done|]. rewrite Hname. by intros [= ->].
Qed.

(** C37: Run as [__main__], a command line that absl's [FLAGS(argv)]
    rejects stops the file before [main] runs, with no call made: a
    [flags.Error] (unknown flag, missing or illegal value) becomes
    [SystemExit 1], any other exception propagates. *)
Theorem dqn_script_bad_argv mods max_digits argv e :
  Forall (fun s => exists o, PyModule.stmt_obj mods s = Ok o) body ->
  AbslFlags.parse_flags AbslFlags.run_dqn_flags max_digits argv = Raise e ->
  script mods max_digits (txt "__main__") argv =
    (Returns (Raise (match e with FlagsError _ => SystemExit 1 | _ => e end)), []).
Proof.
  intros Hs Hp. destruct (body_exec mods (txt "__main__") Hs) as (m & Hm & Hreg & _ & Hname).
  unfold script. rewrite Hm, bool_decide_eq_true_2 by done. rewrite Hreg.
  unfold app_run. rewrite Hp. by destruct e.
Qed.

(** C29: Run as [__main__] without arguments, the file runs [main] on
    the defaults of the flags its body registered: distributed,
    BeamRider, seed 0, ten million steps. *)
Theorem dqn_script_no_args mods max_digits prog :
  Forall (fun s => exists o, PyModule.stmt_obj mods s = Ok o) body ->
  script mods max_digits (txt "__main__") [prog] = main script_globals default_flags.
Proof.
  intros Hs. destruct (body_exec mods (txt "__main__") Hs) as (m & Hm & Hreg & Hnames & Hname).
  unfold script. rewrite Hm, bool_decide_eq_true_2 by done. rewrite Hreg.
  rewrite (app_run_globals_ext _ _ script_globals) by (intros n; by rewrite PyModule.global_names_spec).
  apply app_run_defaults.
Qed.

End Main.

(** ** Concrete runs *)

(** The evaluator and the learner each ask for their logger; the
    evaluator asks again. *)
Definition evaluator_name : text := txt "evaluator".
Definition learner_name : text := txt "learner".

Definition store1 : logger_store := (logger_factory learner_name None None new_logger_store).2.
Definition store2 : logger_store := (logger_factory evaluator_name None None store1).2.

Lemma registry_reachable_wf_witness : store_wf store2.
Proof.
  apply registry_reachable_wf.
  apply (rtc_l _ _ store1); [apply (step_factory learner_name None None)|].
  apply (rtc_l _ _ store2); [apply (step_factory evaluator_name None None)|]. apply rtc_refl.
Defined.

Lemma logger_factory_alias_witness :
  logger_factory evaluator_name None None store1 = (Ok 1%N, store2) /\
  logger_factory evaluator_name (Some (txt "steps")) (Some 3%Z) store2 = (Ok 1%N, store2).
Proof.
  assert (H : logger_factory evaluator_name None None store1 = (Ok 1%N, store2)) by reflexivity.
  split; [exact H|]. exact (logger_factory_alias _ _ _ _ _ _ _ _ H).
Defined.

Lemma logger_write_shared_witness :
  logger_factory evaluator_name None None
    (logger_write 1%N [(txt "episode_return", lit 5 0)] store2).2 =
    (Ok 1%N, (logger_write 1%N [(txt "episode_return", lit 5 0)] store2).2) /\
  logger_data (logger_write 1%N [(txt "episode_return", lit 5 0)] store2).2 1%N =
    Some [[(txt "episode_return", lit 5 0)]] /\
  logger_data (logger_write 1%N [(txt "episode_return", lit 5 0)] store2).2 0%N = Some [].
Proof.
  assert (Hwf : store_wf store1)
    by apply (getitem_wf learner_name new_logger_store new_logger_store_wf).
  assert (Hne : evaluator_name <> learner_name) by (vm_compute; congruence).
  assert (Hh : logger_factory evaluator_name None None
                 (logger_write 1%N [(txt "episode_return", lit 5 0)] store2).2 =
               (Ok 1%N, (logger_write 1%N [(txt "episode_return", lit 5 0)] store2).2))
    by reflexivity.
  destruct (logger_write_shared store1 evaluator_name learner_name 1%N 0%N
              [(txt "episode_return", lit 5 0)] store2 _ None None 1%N _
              Hwf Hne eq_refl eq_refl eq_refl Hh) as (_ & _ & H1 & _ & H2).
  split; [exact Hh|]. split; [rewrite H1|rewrite H2]; reflexivity.
Defined.

#[local] Instance blocking_launch : Launchpad := {| is_local_run := false; launch_returns := false |}.

Lemma main_never_saves_witness :
  main script_globals default_flags = (Diverges, [IsLocalRun;
    MakeDistributedExperiment (build_experiment_config default_flags).1 128;
    MakeXmDockerResources; Launch]) /\
  SaveFig (txt "test.png") ∉ [IsLocalRun;
    MakeDistributedExperiment (build_experiment_config default_flags).1 128;
    MakeXmDockerResources; Launch].
Proof.
  assert (H : main script_globals default_flags = (Diverges, [IsLocalRun;
    MakeDistributedExperiment (build_experiment_config default_flags).1 128;
    MakeXmDockerResources; Launch])) by reflexivity.
  split; [exact H|]. exact (proj2 (main_never_saves _ _ _ H)).
Defined.

Lemma app_run_command_line_witness :
  py_str_int default_max_str_digits 7 = Ok (txt "7") /\
  py_str_int default_max_str_digits 500 = Ok (txt "500") /\
  app_run default_max_str_digits script_globals AbslFlags.run_dqn_flags
    (argv_of {| RUN_DISTRIBUTED := false; ENV_NAME := txt "Pong"; SEED := 7; NUM_STEPS := 500 |}
       (txt "7") (txt "500")) =
  main script_globals {| RUN_DISTRIBUTED := false; ENV_NAME := txt "Pong"; SEED := 7; NUM_STEPS := 500 |}.
Proof.
  assert (H1 : py_str_int default_max_str_digits 7 = Ok (txt "7")) by reflexivity.
  assert (H2 : py_str_int default_max_str_digits 500 = Ok (txt "500")) by reflexivity.
  split; [exact H1|]. split; [exact H2|].
  exact (app_run_command_line default_max_str_digits
           {| RUN_DISTRIBUTED := false; ENV_NAME := txt "Pong"; SEED := 7; NUM_STEPS := 500 |}
           _ _ H1 H2).
Defined.

(** The modules the script imports; [dqn], [losses], [experiments],
    [lp_utils] and [loggers] are found as submodules. *)
Definition sample_modules : PyModule.modules :=
  list_to_map
    [(txt "typing", {[txt "Optional" := PyModule.ExtObj 1]});
     (txt "absl", <[txt "flags" := PyModule.ModuleObj (txt "absl.flags")]>
                    {[txt "app" := PyModule.ModuleObj (txt "absl.app")]});
     (txt "acme", ∅); (txt "acme.agents", ∅); (txt "acme.agents.jax", ∅);
     (txt "acme.agents.jax.dqn", ∅); (txt "acme.agents.jax.dqn.losses", ∅);
     (txt "helpers", ∅); (txt "acme.jax", ∅); (txt "acme.jax.experiments", ∅);
     (txt "acme.utils", ∅); (txt "acme.utils.lp_utils", ∅); (txt "acme.utils.loggers", ∅);
     (txt "launchpad", ∅); (txt "collections", ∅)].

Lemma sample_modules_found : Forall (fun s => exists o, PyModule.stmt_obj sample_modules s = Ok o) body.
Proof. repeat constructor; eexists; vm_compute; reflexivity. Qed.

Lemma dqn_script_as_main_witness :
  Forall (fun s => exists o, PyModule.stmt_obj sample_modules s = Ok o) body /\
  script sample_modules default_max_str_digits (txt "__main__") [txt "run_dqn_custom.py"] =
    app_run default_max_str_digits script_globals AbslFlags.run_dqn_flags [txt "run_dqn_custom.py"] /\
  (forall name, name <> txt "__main__" ->
     script sample_modules default_max_str_digits name [txt "run_dqn_custom.py"] = (Returns (Ok tt), [])).
Proof.
  split; [exact sample_modules_found|].
  exact (dqn_script_as_main sample_modules default_max_str_digits _ sample_modules_found).
Defined.

Lemma dqn_script_bad_argv_witness :
  Forall (fun s => exists o, PyModule.stmt_obj sample_modules s = Ok o) body /\
  AbslFlags.parse_flags AbslFlags.run_dqn_flags default_max_str_digits
    [txt "run_dqn_custom.py"; txt "--bogus"] = Raise (FlagsError (UnrecognizedFlag (txt "bogus"))) /\
  script sample_modules default_max_str_digits (txt "__main__") [txt "run_dqn_custom.py"; txt "--bogus"] =
    (Returns (Raise (SystemExit 1)), []).
Proof.
  assert (Hp : AbslFlags.parse_flags AbslFlags.run_dqn_flags default_max_str_digits
                 [txt "run_dqn_custom.py"; txt "--bogus"] =
               Raise (FlagsError (UnrecognizedFlag (txt "bogus")))) by (vm_compute; reflexivity).
  split; [exact sample_modules_found|]. split; [exact Hp|].
  exact (dqn_script_bad_argv sample_modules default_max_str_digits _ _ sample_modules_found Hp).
Defined.

Lemma dqn_script_no_args_witness :
  Forall (fun s => exists o, PyModule.stmt_obj sample_modules s = Ok o) body /\
  script sample_modules default_max_str_digits (txt "__main__") [txt "run_dqn_custom.py"] =
    main script_globals default_flags.
Proof.
  split; [exact sample_modules_found|].
  exact (dqn_script_no_args sample_modules default_max_str_digits _ sample_modules_found).
Defined.

End RunDqn.
